(** * libiio: the XML backend (xml.c)

    A shallow embedding of the tree walk that turns a parsed libxml2
    document into an [iio_context], and the properties of that walk.

    The C code is imperative: it allocates, it logs, it releases what it
    built when a later step fails, and it dereferences libxml2 pointers
    without checking them.  The embedding keeps those four effects:

    - every [calloc], [realloc] and [strdup] asks an allocator that may
      refuse ([alloc_ok], indexed by the number of requests made so far);
    - [WARNING], [ERROR], [free], [free_channel], [free_device] and the
      libxml2 release calls are emitted, in order, as a trace;
    - a read through a null pointer ends the run with [Crash];
    - the objects carry the address [calloc] gave them, so that the
      back-pointers [chn->dev] and [dev->ctx] can be compared with it. *)

From Stdlib Require Import String List ZArith Bool Arith Lia Permutation.
Import ListNotations.

Open Scope string_scope.
Open Scope list_scope.

(** A [char *] that may be [NULL]. *)
Definition cstr := option string.

(** ** The libxml2 tree, as far as xml.c looks at it

    The [next] links of libxml2 are the tails of the lists.  Every node
    and every property has its name, as the elements, the text nodes
    and the attributes of a parsed document do; a node whose [name] is
    [NULL] is not in this tree, and nothing below speaks of one. *)

#[local] Set Warnings "-register-all".
Inductive xmlNode : Type :=
| XmlNode (name : string) (content : cstr)
          (properties : list xmlAttr) (children : list xmlNode)
with xmlAttr : Type :=
| XmlAttr (name : string) (children : option xmlNode).

Definition node_name (n : xmlNode) : string :=
  match n with XmlNode name _ _ _ => name end.
Definition node_content (n : xmlNode) : cstr :=
  match n with XmlNode _ content _ _ => content end.
Definition node_properties (n : xmlNode) : list xmlAttr :=
  match n with XmlNode _ _ properties _ => properties end.
Definition node_children (n : xmlNode) : list xmlNode :=
  match n with XmlNode _ _ _ children => children end.

Definition attr_name (a : xmlAttr) : string :=
  match a with XmlAttr name _ => name end.
Definition attr_children (a : xmlAttr) : option xmlNode :=
  match a with XmlAttr _ children => children end.

(** [xmlDocGetRootElement] may answer [NULL]. *)
Record xmlDoc : Type := { xmlDocGetRootElement : option xmlNode }.

(** [XML_PARSE_DTDVALID] of libxml2's [xmlParserOption]. *)
Definition XML_PARSE_DTDVALID : Z := Z.shiftl 1 4.

(** ** The structures of iio-private.h, as far as xml.c fills them

    [attrs]/[nb_attrs], [channels]/[nb_channels] and
    [devices]/[nb_devices] are an array and its length: a list.
    The [_addr] field is not a member of the C structure, it is the
    address of the structure itself. *)

(** Modelled from the spec: [struct iio_channel], declared in
    iio-private.h, which is not among the sources.  The members are
    those xml.c assigns and the data model of the specification lists:
    back-reference to the device, display name, identifier, direction,
    attribute names. *)
Record iio_channel : Type := {
  chn_addr : nat;
  chn_dev : option nat;
  chn_name : cstr;
  chn_id : cstr;
  chn_is_output : bool;
  chn_attrs : list string
}.

(** Modelled from the spec: [struct iio_device], declared in
    iio-private.h: back-reference to the context, display name,
    identifier, attribute names, channels. *)
Record iio_device : Type := {
  dev_addr : nat;
  dev_ctx : option nat;
  dev_name : cstr;
  dev_id : cstr;
  dev_attrs : list string;
  dev_channels : list iio_channel
}.

(** [static struct iio_backend_ops xml_ops = { };] *)
Inductive iio_backend_ops : Type := xml_ops.

(** Modelled from the spec: [struct iio_context], declared in
    iio-private.h: provenance tag, operation table, devices. *)
Record iio_context : Type := {
  ctx_addr : nat;
  ctx_name : cstr;
  ctx_ops : option iio_backend_ops;
  ctx_devices : list iio_device
}.

Definition chn_nb_attrs (chn : iio_channel) : nat := length (chn_attrs chn).
Definition dev_nb_attrs (dev : iio_device) : nat := length (dev_attrs dev).
Definition dev_nb_channels (dev : iio_device) : nat := length (dev_channels dev).
Definition ctx_nb_devices (ctx : iio_context) : nat := length (ctx_devices ctx).

(** What [calloc(1, sizeof ...)] hands out: every member zero. *)
Definition calloc_channel (p : nat) : iio_channel :=
  {| chn_addr := p; chn_dev := None; chn_name := None; chn_id := None;
     chn_is_output := false; chn_attrs := [] |}.
Definition calloc_device (p : nat) : iio_device :=
  {| dev_addr := p; dev_ctx := None; dev_name := None; dev_id := None;
     dev_attrs := []; dev_channels := [] |}.
Definition calloc_context (p : nat) : iio_context :=
  {| ctx_addr := p; ctx_name := None; ctx_ops := None; ctx_devices := [] |}.

(** Assignments to one member. *)
Definition set_chn_dev (chn : iio_channel) (v : option nat) : iio_channel :=
  {| chn_addr := chn_addr chn; chn_dev := v; chn_name := chn_name chn;
     chn_id := chn_id chn; chn_is_output := chn_is_output chn;
     chn_attrs := chn_attrs chn |}.
Definition set_chn_name (chn : iio_channel) (v : cstr) : iio_channel :=
  {| chn_addr := chn_addr chn; chn_dev := chn_dev chn; chn_name := v;
     chn_id := chn_id chn; chn_is_output := chn_is_output chn;
     chn_attrs := chn_attrs chn |}.
Definition set_chn_id (chn : iio_channel) (v : cstr) : iio_channel :=
  {| chn_addr := chn_addr chn; chn_dev := chn_dev chn; chn_name := chn_name chn;
     chn_id := v; chn_is_output := chn_is_output chn;
     chn_attrs := chn_attrs chn |}.
Definition set_chn_is_output (chn : iio_channel) (v : bool) : iio_channel :=
  {| chn_addr := chn_addr chn; chn_dev := chn_dev chn; chn_name := chn_name chn;
     chn_id := chn_id chn; chn_is_output := v;
     chn_attrs := chn_attrs chn |}.
Definition set_chn_attrs (chn : iio_channel) (v : list string) : iio_channel :=
  {| chn_addr := chn_addr chn; chn_dev := chn_dev chn; chn_name := chn_name chn;
     chn_id := chn_id chn; chn_is_output := chn_is_output chn;
     chn_attrs := v |}.

Definition set_dev_ctx (dev : iio_device) (v : option nat) : iio_device :=
  {| dev_addr := dev_addr dev; dev_ctx := v; dev_name := dev_name dev;
     dev_id := dev_id dev; dev_attrs := dev_attrs dev;
     dev_channels := dev_channels dev |}.
Definition set_dev_name (dev : iio_device) (v : cstr) : iio_device :=
  {| dev_addr := dev_addr dev; dev_ctx := dev_ctx dev; dev_name := v;
     dev_id := dev_id dev; dev_attrs := dev_attrs dev;
     dev_channels := dev_channels dev |}.
Definition set_dev_id (dev : iio_device) (v : cstr) : iio_device :=
  {| dev_addr := dev_addr dev; dev_ctx := dev_ctx dev; dev_name := dev_name dev;
     dev_id := v; dev_attrs := dev_attrs dev;
     dev_channels := dev_channels dev |}.
Definition set_dev_attrs (dev : iio_device) (v : list string) : iio_device :=
  {| dev_addr := dev_addr dev; dev_ctx := dev_ctx dev; dev_name := dev_name dev;
     dev_id := dev_id dev; dev_attrs := v;
     dev_channels := dev_channels dev |}.
Definition set_dev_channels (dev : iio_device) (v : list iio_channel) : iio_device :=
  {| dev_addr := dev_addr dev; dev_ctx := dev_ctx dev; dev_name := dev_name dev;
     dev_id := dev_id dev; dev_attrs := dev_attrs dev;
     dev_channels := v |}.

Definition set_ctx_name (ctx : iio_context) (v : cstr) : iio_context :=
  {| ctx_addr := ctx_addr ctx; ctx_name := v; ctx_ops := ctx_ops ctx;
     ctx_devices := ctx_devices ctx |}.
Definition set_ctx_ops (ctx : iio_context) (v : option iio_backend_ops) : iio_context :=
  {| ctx_addr := ctx_addr ctx; ctx_name := ctx_name ctx; ctx_ops := v;
     ctx_devices := ctx_devices ctx |}.
Definition set_ctx_devices (ctx : iio_context) (v : list iio_device) : iio_context :=
  {| ctx_addr := ctx_addr ctx; ctx_name := ctx_name ctx; ctx_ops := ctx_ops ctx;
     ctx_devices := v |}.

(** ** Effects *)

(** The block handed to [free]. *)
Inductive block : Type :=
| Str (s : string)
| Chn (chn : iio_channel)
| Dev (dev : iio_device)
| Devices (devs : list iio_device)
| Ctx (ctx : iio_context).

(** What the run does to the world outside xml.c.  The format strings
    are kept without their final line feed.

    Modelled from the spec: [WARNING] and [ERROR] are macros of debug.h,
    [free_channel] and [free_device] functions of the library declared
    in iio-private.h; none of them is among the sources.  The
    specification has the logger observe without influence on control
    flow, and the two functions release an object with all it owns: an
    event each. *)
Inductive event : Type :=
| WARNING (fmt : string) (args : list cstr)
| ERROR (fmt : string) (args : list cstr)
| FREE (b : block)
| FREE_CHANNEL (chn : iio_channel)
| FREE_DEVICE (dev : iio_device)
| LIBXML_TEST_VERSION
| XML_FREE_DOC (doc : xmlDoc)
| XML_CLEANUP_PARSER.

(** A run starts from the number of allocation requests made so far.
    It either reads a null pointer, or returns a value, the new number
    of requests and the events it emitted, oldest first. *)
Inductive outcome (A : Type) : Type :=
| Crash
| Done (a : A) (allocs : nat) (trace : list event).
Arguments Crash {A}.
Arguments Done {A} a allocs trace.

Definition M (A : Type) : Type := nat -> outcome A.

Definition ret {A} (a : A) : M A := fun n => Done a n [].
Definition bind {A B} (m : M A) (k : A -> M B) : M B :=
  fun n => match m n with
           | Crash => Crash
           | Done a n1 t1 =>
               match k a n1 with
               | Crash => Crash
               | Done b n2 t2 => Done b n2 (t1 ++ t2)
               end
           end.
Definition crash {A} : M A := fun _ => Crash.
Definition log (e : event) : M unit := fun n => Done tt n [e].

Declare Scope xml_scope.
Delimit Scope xml_scope with xml.
Notation "x <- m ;; k" := (bind m (fun x => k))
  (at level 61, m at next level, right associativity) : xml_scope.
Notation "m ;;; k" := (bind m (fun _ => k))
  (at level 61, right associativity) : xml_scope.
Open Scope xml_scope.

(** Control leaves a loop either at its end or through a [goto]. *)
Inductive flow (A : Type) : Type :=
| Next (a : A)
| Goto (a : A).
Arguments Next {A} a.
Arguments Goto {A} a.

(** ** xml.c *)

Section Builder.

(** The allocator: does request number [i] of the run succeed? *)
Variable alloc_ok : nat -> bool.

(** The libxml2 parser: [xmlReadFile(file, encoding, options)] and
    [xmlReadMemory(buffer, size, url, encoding, options)]. *)
Variable xmlReadFile : string -> cstr -> Z -> option xmlDoc.
Variable xmlReadMemory : string -> Z -> cstr -> cstr -> Z -> option xmlDoc.

(** The allocator behind [calloc], [realloc] and [strdup]: a fresh
    address, or [NULL]. *)
Definition alloc : M (option nat) :=
  fun n => Done (if alloc_ok n then Some n else None) (S n) [].

(** [strdup(s)]: reads [s], so [s] must not be [NULL]. *)
Definition strdup (s : cstr) : M cstr :=
  match s with
  | None => crash
  | Some str => p <- alloc ;; ret (match p with Some _ => Some str | None => None end)
  end.

(** [realloc(array, (1 + n) * sizeof ...)]: the same elements in a
    larger array, or [NULL] with the old array untouched. *)
Definition realloc {A} (array : list A) : M (option (list A)) :=
  p <- alloc ;; ret (match p with Some _ => Some array | None => None end).

Definition free (b : block) : M unit := log (FREE b).
Definition free_channel (chn : iio_channel) : M unit := log (FREE_CHANNEL chn).
Definition free_device (dev : iio_device) : M unit := log (FREE_DEVICE dev).

(** [attr->children->content] *)
Definition attr_content (attr : xmlAttr) : M cstr :=
  match attr_children attr with
  | None => crash
  | Some text => ret (node_content text)
  end.

(** [strcmp(content, s)] reads [content]. *)
Definition strcmp_is (content : cstr) (s : string) : M bool :=
  match content with
  | None => crash
  | Some c => ret (c =? s)
  end.

(** The property loop of [add_attr_to_channel] and of
    [add_attr_to_device]; the two differ in the warning only. *)
Fixpoint add_attr_properties (unknown : xmlAttr -> event)
    (attr : list xmlAttr) (name : cstr) : M cstr :=
  match attr with
  | [] => ret name
  | a :: next =>
      if attr_name a =? "name" then
        content <- attr_content a ;;
        name' <- strdup content ;;
        add_attr_properties unknown next name'
      else
        log (unknown a) ;;;
        add_attr_properties unknown next name
  end.

Definition add_attr_to_channel (chn : iio_channel) (n : xmlNode)
  : M (Z * iio_channel) :=
  name <- add_attr_properties
            (fun a => WARNING "Unknown field '%s' in channel %s"
                              [Some (attr_name a); chn_id chn])
            (node_properties n) None ;;
  match name with
  | None =>
      log (ERROR "Incomplete attribute in channel %s" [chn_id chn]) ;;;
      ret ((-1)%Z, chn)
  | Some s =>
      attrs <- realloc (chn_attrs chn) ;;
      match attrs with
      | None => free (Str s) ;;; ret ((-1)%Z, chn)
      | Some attrs => ret (0%Z, set_chn_attrs chn (attrs ++ [s]))
      end
  end.

Definition add_attr_to_device (dev : iio_device) (n : xmlNode)
  : M (Z * iio_device) :=
  name <- add_attr_properties
            (fun a => WARNING "Unknown field '%s' in device %s"
                              [Some (attr_name a); dev_id dev])
            (node_properties n) None ;;
  match name with
  | None =>
      log (ERROR "Incomplete attribute in device %s" [dev_id dev]) ;;;
      ret ((-1)%Z, dev)
  | Some s =>
      attrs <- realloc (dev_attrs dev) ;;
      match attrs with
      | None => free (Str s) ;;; ret ((-1)%Z, dev)
      | Some attrs => ret (0%Z, set_dev_attrs dev (attrs ++ [s]))
      end
  end.

(** The property loop of [create_channel]. *)
Fixpoint create_channel_properties (attr : list xmlAttr) (chn : iio_channel)
  : M iio_channel :=
  match attr with
  | [] => ret chn
  | a :: next =>
      let name := attr_name a in
      content <- attr_content a ;;
      if name =? "name" then
        s <- strdup content ;;
        create_channel_properties next (set_chn_name chn s)
      else if name =? "id" then
        s <- strdup content ;;
        create_channel_properties next (set_chn_id chn s)
      else if name =? "type" then
        out <- strcmp_is content "output" ;;
        if out then
          create_channel_properties next (set_chn_is_output chn true)
        else
          inp <- strcmp_is content "input" ;;
          if inp then create_channel_properties next chn
          else
            log (WARNING "Unknown channel type %s" [content]) ;;;
            create_channel_properties next chn
      else
        log (WARNING "Unknown attribute '%s' in <channel>" [Some name]) ;;;
        create_channel_properties next chn
  end.

(** The child loop of [create_channel]. *)
Fixpoint create_channel_children (n : list xmlNode) (chn : iio_channel)
  : M (flow iio_channel) :=
  match n with
  | [] => ret (Next chn)
  | c :: next =>
      if node_name c =? "attribute" then
        r <- add_attr_to_channel chn c ;;
        let (status, chn') := r in
        if (status <? 0)%Z then ret (Goto chn')
        else create_channel_children next chn'
      else if negb (node_name c =? "text") then
        log (WARNING "Unknown children '%s' in <device>" [Some (node_name c)]) ;;;
        create_channel_children next chn
      else create_channel_children next chn
  end.

Definition create_channel (dev : nat) (n : xmlNode) : M (option iio_channel) :=
  p <- alloc ;;                         (* calloc(1, sizeof *chn) *)
  match p with
  | None => ret None
  | Some p =>
      let chn := set_chn_dev (calloc_channel p) (Some dev) in
      chn <- create_channel_properties (node_properties n) chn ;;
      match chn_id chn with
      | None =>
          log (ERROR "Incomplete <attribute>" []) ;;;
          free_channel chn ;;; ret None
      | Some _ =>
          f <- create_channel_children (node_children n) chn ;;
          match f with
          | Goto chn => free_channel chn ;;; ret None
          | Next chn => ret (Some chn)
          end
      end
  end.

(** The property loop of [create_device]. *)
Fixpoint create_device_properties (attr : list xmlAttr) (dev : iio_device)
  : M iio_device :=
  match attr with
  | [] => ret dev
  | a :: next =>
      if attr_name a =? "name" then
        content <- attr_content a ;;
        s <- strdup content ;;
        create_device_properties next (set_dev_name dev s)
      else if attr_name a =? "id" then
        content <- attr_content a ;;
        s <- strdup content ;;
        create_device_properties next (set_dev_id dev s)
      else
        log (WARNING "Unknown attribute '%s' in <context>" [Some (attr_name a)]) ;;;
        create_device_properties next dev
  end.

(** The child loop of [create_device]. *)
Fixpoint create_device_children (n : list xmlNode) (dev : iio_device)
  : M (flow iio_device) :=
  match n with
  | [] => ret (Next dev)
  | c :: next =>
      if node_name c =? "channel" then
        chn <- create_channel (dev_addr dev) c ;;
        match chn with
        | None => log (ERROR "Unable to create channel" []) ;;; ret (Goto dev)
        | Some chn =>
            chns <- realloc (dev_channels dev) ;;
            match chns with
            | None =>
                log (ERROR "Unable to allocate memory" []) ;;;
                free (Chn chn) ;;; ret (Goto dev)
            | Some chns =>
                create_device_children next (set_dev_channels dev (chns ++ [chn]))
            end
        end
      else if node_name c =? "attribute" then
        r <- add_attr_to_device dev c ;;
        let (status, dev') := r in
        if (status <? 0)%Z then ret (Goto dev')
        else create_device_children next dev'
      else if negb (node_name c =? "text") then
        log (WARNING "Unknown children '%s' in <device>" [Some (node_name c)]) ;;;
        create_device_children next dev
      else create_device_children next dev
  end.

Definition create_device (ctx : nat) (n : xmlNode) : M (option iio_device) :=
  p <- alloc ;;                         (* calloc(1, sizeof *dev) *)
  match p with
  | None => ret None
  | Some p =>
      let dev := set_dev_ctx (calloc_device p) (Some ctx) in
      dev <- create_device_properties (node_properties n) dev ;;
      match dev_id dev with
      | None =>
          log (ERROR "Unable to read device ID" []) ;;;
          free_device dev ;;; ret None
      | Some _ =>
          f <- create_device_children (node_children n) dev ;;
          match f with
          | Goto dev => free_device dev ;;; ret None
          | Next dev => ret (Some dev)
          end
      end
  end.

(** The child loop of [iio_create_xml_context_helper]. *)
Fixpoint context_children (n : list xmlNode) (ctx : iio_context)
  : M (flow iio_context) :=
  match n with
  | [] => ret (Next ctx)
  | c :: next =>
      if negb (node_name c =? "device") then
        if negb (node_name c =? "text") then
          log (WARNING "Unknown children '%s' in <context>" [Some (node_name c)]) ;;;
          context_children next ctx
        else context_children next ctx
      else
        dev <- create_device (ctx_addr ctx) c ;;
        match dev with
        | None => log (ERROR "Unable to create device" []) ;;; ret (Goto ctx)
        | Some dev =>
            devs <- realloc (ctx_devices ctx) ;;
            match devs with
            | None =>
                log (ERROR "Unable to allocate memory" []) ;;;
                free (Dev dev) ;;; ret (Goto ctx)
            | Some devs =>
                context_children next (set_ctx_devices ctx (devs ++ [dev]))
            end
        end
  end.

(** [for (i = 0; i < ctx->nb_devices; i++) free_device(ctx->devices[i]);] *)
Fixpoint free_devices (devs : list iio_device) : M unit :=
  match devs with
  | [] => ret tt
  | dev :: rest => free_device dev ;;; free_devices rest
  end.

Definition iio_create_xml_context_helper (doc : xmlDoc) : M (option iio_context) :=
  p <- alloc ;;                         (* calloc(1, sizeof *ctx) *)
  match p with
  | None => ret None
  | Some p =>
      let ctx := set_ctx_ops (set_ctx_name (calloc_context p) (Some "xml"))
                             (Some xml_ops) in
      match xmlDocGetRootElement doc with
      | None => crash                       (* root->name *)
      | Some root =>
          if negb (node_name root =? "context") then
            log (ERROR "Unrecognized XML file" []) ;;;
            free (Ctx ctx) ;;; ret None
          else
            f <- context_children (node_children root) ctx ;;
            match f with
            | Next ctx => ret (Some ctx)
            | Goto ctx =>
                free_devices (ctx_devices ctx) ;;;
                (if (0 <? ctx_nb_devices ctx)%nat
                 then free (Devices (ctx_devices ctx)) else ret tt) ;;;
                free (Ctx ctx) ;;; ret None
            end
      end
  end.

Definition iio_create_xml_context (xml_file : string) : M (option iio_context) :=
  log LIBXML_TEST_VERSION ;;;
  match xmlReadFile xml_file None XML_PARSE_DTDVALID with
  | None => log (ERROR "Unable to parse XML file" []) ;;; ret None
  | Some doc =>
      ctx <- iio_create_xml_context_helper doc ;;
      log (XML_FREE_DOC doc) ;;;
      log XML_CLEANUP_PARSER ;;;
      ret ctx
  end.

Definition iio_create_xml_context_mem (xml : string) (len : Z)
  : M (option iio_context) :=
  log LIBXML_TEST_VERSION ;;;
  match xmlReadMemory xml len None None XML_PARSE_DTDVALID with
  | None => log (ERROR "Unable to parse XML file" []) ;;; ret None
  | Some doc =>
      ctx <- iio_create_xml_context_helper doc ;;
      log (XML_FREE_DOC doc) ;;;
      log XML_CLEANUP_PARSER ;;;
      ret ctx
  end.

End Builder.

(** ** Documents used as examples *)

Definition text (s : string) : xmlNode := XmlNode "text" (Some s) [] [].
Definition prop (name value : string) : xmlAttr :=
  XmlAttr name (Some (text value)).
Definition element (name : string) (properties : list xmlAttr)
    (children : list xmlNode) : xmlNode :=
  XmlNode name None properties children.
Definition document (root : xmlNode) : xmlDoc :=
  {| xmlDocGetRootElement := Some root |}.

(** An allocator that never refuses. *)
Definition plenty : nat -> bool := fun _ => true.
(** An allocator that refuses request [i] only. *)
Definition refuse (i : nat) : nat -> bool := fun n => negb (n =? i)%nat.

(** Scenario A of the specification. *)
Definition scenario_A_root : xmlNode :=
  element "context" []
    [element "device" [prop "id" "dev0"]
       [element "channel" [prop "id" "voltage0"; prop "type" "output"]
          [element "attribute" [prop "name" "scale"] []];
        element "attribute" [prop "name" "calibbias"] []]].
Definition scenario_A : xmlDoc := document scenario_A_root.

(** Scenario B of the specification: a device without [id]. *)
Definition scenario_B_device : xmlNode :=
  element "device" [] [element "channel" [prop "id" "x"] []].
Definition scenario_B : xmlDoc :=
  document (element "context" [] [scenario_B_device]).

(** A good device followed by the device of scenario B. *)
Definition good_device : xmlNode := element "device" [prop "id" "dev0"] [].
Definition rollback_root : xmlNode :=
  element "context" [] [good_device; scenario_B_device].

(** A document whose root is not [context]. *)
Definition wrong_root : xmlNode := element "Context" [] [good_device].

(** A parser that knows one file and one buffer, both scenario A. *)
Definition read_file_A (file : string) (encoding : cstr) (options : Z)
  : option xmlDoc :=
  if file =? "a.xml" then Some scenario_A else None.
Definition read_memory_A (buffer : string) (size : Z) (url encoding : cstr)
    (options : Z) : option xmlDoc :=
  if buffer =? "<context/>" then Some scenario_A else None.

(** A channel whose properties occur twice, and one whose [type] is
    not a direction. *)
Definition twice_channel : xmlNode :=
  element "channel"
    [prop "id" "first"; prop "name" "one"; prop "id" "second"; prop "name" "two"]
    [element "attribute" [prop "name" "raw"; prop "name" "scale"] []].
Definition garbage_channel : xmlNode :=
  element "channel" [prop "id" "voltage0"; prop "type" "garbage"] [].

(** A channel with a property that has no value node. *)
Definition valueless_channel : xmlNode :=
  element "channel" [prop "id" "voltage0"; XmlAttr "name" None] [].

(** Scenario A with an element the walk does not know under the root. *)
Definition scenario_A_extended : xmlNode :=
  element "context" []
    [element "comment" [] [];
     element "device" [prop "id" "dev0"]
       [element "channel" [prop "id" "voltage0"; prop "type" "output"]
          [element "attribute" [prop "name" "scale"] []];
        element "attribute" [prop "name" "calibbias"] []]].

(** ** Vocabulary of the specification *)

(** The value a property carries: the content of its value node. *)
Definition attr_value (a : xmlAttr) : cstr :=
  match attr_children a with
  | Some text => node_content text
  | None => None
  end.

(** The property carries a value. *)
Definition attr_valued (a : xmlAttr) : bool :=
  match attr_value a with Some _ => true | None => false end.

(** Every property of every node of the tree carries a value. *)
Fixpoint node_valued (n : xmlNode) : bool :=
  match n with
  | XmlNode _ _ properties children =>
      forallb attr_valued properties && forallb node_valued children
  end.

(** The last property called [key], in property order. *)
Fixpoint last_property (key : string) (attr : list xmlAttr) : option xmlAttr :=
  match attr with
  | [] => None
  | a :: next =>
      match last_property key next with
      | Some b => Some b
      | None => if attr_name a =? key then Some a else None
      end
  end.

Definition has_property (key : string) (n : xmlNode) : bool :=
  match last_property key (node_properties n) with
  | Some _ => true
  | None => false
  end.

(** The value of the last property called [key]. *)
Definition property_value (key : string) (n : xmlNode) : cstr :=
  match last_property key (node_properties n) with
  | Some a => attr_value a
  | None => None
  end.

(** What a property loop leaves in a member that starts as [init] and
    that every property called [key] overwrites. *)
Definition scan_result (key : string) (attr : list xmlAttr) (init : cstr) : cstr :=
  match last_property key attr with
  | Some a => attr_value a
  | None => init
  end.

Definition named (s : string) (n : xmlNode) : bool := node_name n =? s.

(** The children of a node that describe devices, channels, attributes. *)
Definition devices_of (n : xmlNode) : list xmlNode :=
  filter (named "device") (node_children n).
Definition channels_of (n : xmlNode) : list xmlNode :=
  filter (named "channel") (node_children n).
Definition attributes_of (n : xmlNode) : list xmlNode :=
  filter (named "attribute") (node_children n).

(** The names announced by the [attribute] children among [n]. *)
Definition attribute_names (n : list xmlNode) : list cstr :=
  map (property_value "name") (filter (named "attribute") n).

(** A [type] property that says [output]. *)
Definition type_output (a : xmlAttr) : bool :=
  (attr_name a =? "type") &&
  match attr_value a with Some v => v =? "output" | None => false end.

(** What the property loop of [create_channel] says about one property. *)
Definition channel_property_events (a : xmlAttr) : list event :=
  if attr_name a =? "name" then []
  else if attr_name a =? "id" then []
  else if attr_name a =? "type" then
    match attr_value a with
    | Some v =>
        if v =? "output" then []
        else if v =? "input" then []
        else [WARNING "Unknown channel type %s" [Some v]]
    | None => []
    end
  else [WARNING "Unknown attribute '%s' in <channel>" [Some (attr_name a)]].

(** What the property loop of [create_device] says about one property. *)
Definition device_property_events (a : xmlAttr) : list event :=
  if attr_name a =? "name" then []
  else if attr_name a =? "id" then []
  else [WARNING "Unknown attribute '%s' in <context>" [Some (attr_name a)]].

(** A property without a value node. *)
Definition valueless (a : xmlAttr) : Prop := attr_children a = None.

(** The two outcomes of a loop carry the object as it then is. *)
Definition flow_value {A} (f : flow A) : A :=
  match f with Next a => a | Goto a => a end.

(** ** The object a node stands for

    These relations follow the words of the specification: which
    channel, device and context a node describes. *)

(** The channel [chn] is the one node [c] describes, under the device
    at address [dev]. *)
Definition channel_built (dev : nat) (c : xmlNode) (chn : iio_channel) : Prop :=
  chn_dev chn = Some dev /\
  (exists id, chn_id chn = Some id /\ property_value "id" c = Some id) /\
  (chn_name chn = None \/ chn_name chn = property_value "name" c) /\
  chn_is_output chn = existsb type_output (node_properties c) /\
  map Some (chn_attrs chn) = attribute_names (node_children c).

(** The device [dev] is the one node [c] describes, under the context
    at address [ctx]. *)
Definition device_built (ctx : nat) (c : xmlNode) (dev : iio_device) : Prop :=
  dev_ctx dev = Some ctx /\
  (exists id, dev_id dev = Some id /\ property_value "id" c = Some id) /\
  (dev_name dev = None \/ dev_name dev = property_value "name" c) /\
  map Some (dev_attrs dev) = attribute_names (node_children c) /\
  Forall2 (channel_built (dev_addr dev)) (channels_of c) (dev_channels dev).

(** The context [ctx] is the one the root node describes. *)
Definition context_built (root : xmlNode) (ctx : iio_context) : Prop :=
  ctx_name ctx = Some "xml" /\
  ctx_ops ctx = Some xml_ops /\
  Forall2 (device_built (ctx_addr ctx)) (devices_of root) (ctx_devices ctx).

(** The back-pointers of a device and of its channels are in place. *)
Definition device_linked (ctx : nat) (dev : iio_device) : Prop :=
  dev_ctx dev = Some ctx /\
  Forall (fun chn => chn_dev chn = Some (dev_addr dev)) (dev_channels dev).

Definition context_linked (ctx : iio_context) : Prop :=
  Forall (device_linked (ctx_addr ctx)) (ctx_devices ctx).


(** A run that only asks for memory and only emits events in [P]. *)
Definition emits {A} (P : event -> bool) (m : M A) : Prop :=
  forall n r n' t,
    m n = Done r n' t -> (n <= n')%nat /\ forallb P t = true.

(** Events other than the release of a channel or of a device. *)
Definition keeps_objects (e : event) : bool :=
  match e with
  | FREE_CHANNEL _ | FREE_DEVICE _ => false
  | _ => true
  end.

(** Events other than the release of a device. *)
Definition keeps_devices (e : event) : bool :=
  match e with
  | FREE_DEVICE _ => false
  | _ => true
  end.



(** ** Well-formed documents

    The document format of the specification: a [context] root, every
    [device] and [channel] with an [id] and with values for all its
    properties, every [attribute] with a [name] that has a value.
    Other elements and other properties may occur anywhere. *)

(** Every property called [key] carries a value. *)
Definition key_valued (key : string) (attr : list xmlAttr) : bool :=
  forallb (fun a => negb (attr_name a =? key) || attr_valued a) attr.

Definition attribute_wf (c : xmlNode) : bool :=
  has_property "name" c && key_valued "name" (node_properties c).

Definition channel_child_wf (c : xmlNode) : bool :=
  if named "attribute" c then attribute_wf c else true.

Definition channel_wf (c : xmlNode) : bool :=
  has_property "id" c && forallb attr_valued (node_properties c) &&
  forallb channel_child_wf (node_children c).

Definition device_child_wf (c : xmlNode) : bool :=
  if named "channel" c then channel_wf c
  else if named "attribute" c then attribute_wf c
  else true.

Definition device_wf (c : xmlNode) : bool :=
  has_property "id" c && forallb attr_valued (node_properties c) &&
  forallb device_child_wf (node_children c).

Definition context_child_wf (c : xmlNode) : bool :=
  if named "device" c then device_wf c else true.

Definition context_wf (root : xmlNode) : bool :=
  named "context" root && forallb context_child_wf (node_children root).

Definition document_wf (doc : xmlDoc) : bool :=
  match xmlDocGetRootElement doc with
  | Some root => context_wf root
  | None => false
  end.

(** The context as the helper has it when it enters its child loop:
    allocated at address [p], named, with its operation table. *)
Definition context_at (p : nat) : iio_context :=
  set_ctx_ops (set_ctx_name (calloc_context p) (Some "xml")) (Some xml_ops).

(** ** Documents that differ by content the walk does not know *)

(** [t'] is [t] with warnings added. *)
Inductive padded : list event -> list event -> Prop :=
| padded_nil : padded [] []
| padded_same e t t' : padded t t' -> padded (e :: t) (e :: t')
| padded_warning fmt args t t' : padded t t' -> padded t (WARNING fmt args :: t').

(** Two runs that differ by warnings only. *)
Definition same_result {A} (o o' : outcome A) : Prop :=
  match o, o' with
  | Crash, Crash => True
  | Done a n t, Done a' n' t' => a = a' /\ n = n' /\ padded t t'
  | _, _ => False
  end.

(** [l'] is [l] with [x] inserted somewhere. *)
Inductive inserted {A} (x : A) : list A -> list A -> Prop :=
| inserted_here l : inserted x l (x :: l)
| inserted_later y l l' : inserted x l l' -> inserted x (y :: l) (y :: l').

(** What the walk takes a node for: that depends on where it is. *)
Inductive kind : Type :=
| K_context | K_device | K_channel | K_attribute | K_ignored.

Definition child_kind (k : kind) (name : string) : kind :=
  match k with
  | K_context => if name =? "device" then K_device else K_ignored
  | K_device =>
      if name =? "channel" then K_channel
      else if name =? "attribute" then K_attribute
      else K_ignored
  | K_channel => if name =? "attribute" then K_attribute else K_ignored
  | K_attribute | K_ignored => K_ignored
  end.

(** A child the loop at that place does not act upon. *)
Definition unknown_child (k : kind) (c : xmlNode) : bool :=
  match child_kind k (node_name c) with
  | K_ignored => true
  | _ => false
  end.

(** A property the loop at that place does not act upon.  On a channel
    it must still have a value node, which that loop reads for every
    property. *)
Definition unknown_property (k : kind) (a : xmlAttr) : bool :=
  match k with
  | K_context | K_ignored => true
  | K_device => negb (attr_name a =? "name") && negb (attr_name a =? "id")
  | K_channel =>
      negb (attr_name a =? "name") && negb (attr_name a =? "id") &&
      negb (attr_name a =? "type") &&
      match attr_children a with Some _ => true | None => false end
  | K_attribute => negb (attr_name a =? "name")
  end.

(** [n'] is [n] with one unknown property or one unknown child element
    inserted, in the node itself or anywhere below it. *)
Inductive extended : kind -> xmlNode -> xmlNode -> Prop :=
| extended_property k name content properties properties' children a :
    unknown_property k a = true ->
    inserted a properties properties' ->
    extended k (XmlNode name content properties children)
               (XmlNode name content properties' children)
| extended_child k name content properties children children' c :
    unknown_child k c = true ->
    inserted c children children' ->
    extended k (XmlNode name content properties children)
               (XmlNode name content properties children')
| extended_below k name content properties children children' :
    extended_in k children children' ->
    extended k (XmlNode name content properties children)
               (XmlNode name content properties children')
with extended_in : kind -> list xmlNode -> list xmlNode -> Prop :=
| extended_in_here k c c' next :
    extended (child_kind k (node_name c)) c c' ->
    extended_in k (c :: next) (c' :: next)
| extended_in_later k c next next' :
    extended_in k next next' ->
    extended_in k (c :: next) (c :: next').

(** ** The warnings a document deserves

    What the walk has to say about content it does not know, in
    document order: the trace of a build that succeeds. *)

Definition attribute_warnings (fmt : string) (owner : cstr) (c : xmlNode)
  : list event :=
  map (fun a => WARNING fmt [Some (attr_name a); owner])
      (filter (fun a => negb (attr_name a =? "name")) (node_properties c)).

Definition channel_child_warnings (owner : cstr) (c : xmlNode) : list event :=
  if node_name c =? "attribute" then
    attribute_warnings "Unknown field '%s' in channel %s" owner c
  else if node_name c =? "text" then []
  else [WARNING "Unknown children '%s' in <device>" [Some (node_name c)]].

Definition channel_warnings (c : xmlNode) : list event :=
  flat_map channel_property_events (node_properties c) ++
  flat_map (channel_child_warnings (property_value "id" c)) (node_children c).

Definition device_child_warnings (owner : cstr) (c : xmlNode) : list event :=
  if node_name c =? "channel" then channel_warnings c
  else if node_name c =? "attribute" then
    attribute_warnings "Unknown field '%s' in device %s" owner c
  else if node_name c =? "text" then []
  else [WARNING "Unknown children '%s' in <device>" [Some (node_name c)]].

Definition device_warnings (c : xmlNode) : list event :=
  flat_map device_property_events (node_properties c) ++
  flat_map (device_child_warnings (property_value "id" c)) (node_children c).

Definition context_child_warnings (c : xmlNode) : list event :=
  if node_name c =? "device" then device_warnings c
  else if node_name c =? "text" then []
  else [WARNING "Unknown children '%s' in <context>" [Some (node_name c)]].

Definition context_warnings (root : xmlNode) : list event :=
  flat_map context_child_warnings (node_children root).

(** ** Required fields

    What the walk insists on: the root is called [context], every
    [device] under it and every [channel] under a device has an [id],
    every [attribute] under a device or a channel has a [name]. *)

Definition channel_child_required (c : xmlNode) : bool :=
  if named "attribute" c then has_property "name" c else true.

Definition channel_required (c : xmlNode) : bool :=
  has_property "id" c && forallb channel_child_required (node_children c).

Definition device_child_required (c : xmlNode) : bool :=
  if named "channel" c then channel_required c
  else if named "attribute" c then has_property "name" c
  else true.

Definition device_required (c : xmlNode) : bool :=
  has_property "id" c && forallb device_child_required (node_children c).

Definition context_child_required (c : xmlNode) : bool :=
  if named "device" c then device_required c else true.

Definition context_required (root : xmlNode) : bool :=
  named "context" root && forallb context_child_required (node_children root).

(** ** Allocation requests

    How many requests the walk makes for a node it builds: one for the
    object, one for each copy of a [name] or [id] value, one for each
    growth of a list. *)

Definition copies (attr : list xmlAttr) : nat :=
  length (filter (fun a => (attr_name a =? "name") || (attr_name a =? "id")) attr).

Definition attribute_requests (c : xmlNode) : nat :=
  length (filter (fun a => attr_name a =? "name") (node_properties c)) + 1.

Definition channel_child_requests (c : xmlNode) : nat :=
  if node_name c =? "attribute" then attribute_requests c else 0.

Definition channel_requests (c : xmlNode) : nat :=
  1 + copies (node_properties c) +
  list_sum (map channel_child_requests (node_children c)).

Definition device_child_requests (c : xmlNode) : nat :=
  if node_name c =? "channel" then channel_requests c + 1
  else if node_name c =? "attribute" then attribute_requests c
  else 0.

Definition device_requests (c : xmlNode) : nat :=
  1 + copies (node_properties c) +
  list_sum (map device_child_requests (node_children c)).

Definition context_child_requests (c : xmlNode) : nat :=
  if node_name c =? "device" then device_requests c + 1 else 0.

Definition context_requests (root : xmlNode) : nat :=
  1 + list_sum (map context_child_requests (node_children root)).

(** ** Documents without their text nodes *)

Definition without_text (cs : list xmlNode) : list xmlNode :=
  filter (fun c => negb (node_name c =? "text")) cs.

Definition set_children (n : xmlNode) (children : list xmlNode) : xmlNode :=
  match n with
  | XmlNode name content properties _ => XmlNode name content properties children
  end.

(** The text children removed wherever the walk looks at children:
    under the root, under its devices, under their channels. *)
Definition strip_channel (c : xmlNode) : xmlNode :=
  set_children c (without_text (node_children c)).

Definition strip_device_child (c : xmlNode) : xmlNode :=
  if node_name c =? "channel" then strip_channel c else c.

Definition strip_device (c : xmlNode) : xmlNode :=
  set_children c (map strip_device_child (without_text (node_children c))).

Definition strip_context_child (c : xmlNode) : xmlNode :=
  if node_name c =? "device" then strip_device c else c.

Definition strip_context (root : xmlNode) : xmlNode :=
  set_children root (map strip_context_child (without_text (node_children root))).

(** ** The order of the properties *)

(** The channel and the device as their property loop leaves them when
    every copy is made. *)
Definition channel_after (attr : list xmlAttr) (chn : iio_channel) : iio_channel :=
  {| chn_addr := chn_addr chn;
     chn_dev := chn_dev chn;
     chn_name := scan_result "name" attr (chn_name chn);
     chn_id := scan_result "id" attr (chn_id chn);
     chn_is_output := chn_is_output chn || existsb type_output attr;
     chn_attrs := chn_attrs chn |}.

Definition device_after (attr : list xmlAttr) (dev : iio_device) : iio_device :=
  {| dev_addr := dev_addr dev;
     dev_ctx := dev_ctx dev;
     dev_name := scan_result "name" attr (dev_name dev);
     dev_id := scan_result "id" attr (dev_id dev);
     dev_attrs := dev_attrs dev;
     dev_channels := dev_channels dev |}.

(** Two runs that end the same way, with the same events in another
    order. *)
Definition same_but_order {A} (o o' : outcome A) : Prop :=
  match o, o' with
  | Crash, Crash => True
  | Done a n t, Done a' n' t' => a = a' /\ n = n' /\ Permutation t t'
  | _, _ => False
  end.

(** ** More children *)

(** The node [c] with the nodes [more] after its own children. *)
Definition append_children (c : xmlNode) (more : list xmlNode) : xmlNode :=
  set_children c (node_children c ++ more).

(** How a child loop goes on after the first children: with the rest
    when it is still running, not at all when it has left by [goto]. *)
Definition resume {A} (rest : A -> M (flow A)) (f : flow A) : M (flow A) :=
  match f with
  | Next a => rest a
  | Goto a => ret (Goto a)
  end.

(** A run that did not return an object. *)
Definition failed {A} (o : outcome (option A)) : Prop :=
  match o with
  | Done (Some _) _ _ => False
  | _ => True
  end.

(** ** Leaving by the error labels *)

(** The events of the labels [err_free_devices] and [err_free_ctx] of
    the helper, for the context as it is when the walk gives up. *)
Definition err_free_devices (ctx : iio_context) : list event :=
  map FREE_DEVICE (ctx_devices ctx) ++
  (if (0 <? ctx_nb_devices ctx)%nat then [FREE (Devices (ctx_devices ctx))]
   else []) ++
  [FREE (Ctx ctx)].

(** ** What the walk reads

    A document cut down to what the walk looks at: the names of the
    elements, the children of the root, of a device and of a channel,
    the properties of a device, a channel and an attribute. *)

Definition bare (c : xmlNode) : xmlNode := XmlNode (node_name c) None [] [].

Definition prune_attribute (c : xmlNode) : xmlNode :=
  XmlNode (node_name c) None (node_properties c) [].

Definition prune_channel_child (c : xmlNode) : xmlNode :=
  if node_name c =? "attribute" then prune_attribute c else bare c.

Definition prune_channel (c : xmlNode) : xmlNode :=
  XmlNode (node_name c) None (node_properties c)
          (map prune_channel_child (node_children c)).

Definition prune_device_child (c : xmlNode) : xmlNode :=
  if node_name c =? "channel" then prune_channel c
  else if node_name c =? "attribute" then prune_attribute c
  else bare c.

Definition prune_device (c : xmlNode) : xmlNode :=
  XmlNode (node_name c) None (node_properties c)
          (map prune_device_child (node_children c)).

Definition prune_context_child (c : xmlNode) : xmlNode :=
  if node_name c =? "device" then prune_device c else bare c.

Definition prune_context (root : xmlNode) : xmlNode :=
  XmlNode (node_name root) None [] (map prune_context_child (node_children root)).

(** ** Reasoning about runs *)

Lemma bind_Done {A B} (m : M A) (k : A -> M B) n b n' t :
  bind m k n = Done b n' t ->
  exists a n1 t1 t2,
    m n = Done a n1 t1 /\ k a n1 = Done b n' t2 /\ t = t1 ++ t2.
Proof.
  unfold bind. destruct (m n) as [|a n1 t1]; [discriminate|].
  destruct (k a n1) as [|b' n2 t2] eqn:Hk; [discriminate|].
  intros H. injection H as -> -> <-. exists a, n1, t1, t2.
  split; [reflexivity|]. split; [exact Hk|reflexivity].
Qed.

Lemma bind_run {A B} (m : M A) (k : A -> M B) n a n1 t1 :
  m n = Done a n1 t1 ->
  bind m k n = match k a n1 with
               | Crash => Crash
               | Done b n2 t2 => Done b n2 (t1 ++ t2)
               end.
Proof. unfold bind. intros ->. reflexivity. Qed.

Lemma bind_crash {A B} (m : M A) (k : A -> M B) n :
  m n = Crash -> bind m k n = Crash.
Proof. unfold bind. intros ->. reflexivity. Qed.

Lemma bind_no_crash {A B} (m : M A) (k : A -> M B) n :
  m n <> Crash ->
  (forall a n1 t1, m n = Done a n1 t1 -> k a n1 <> Crash) ->
  bind m k n <> Crash.
Proof.
  unfold bind. intros Hm Hk. destruct (m n) as [|a n1 t1]; [contradiction|].
  specialize (Hk a n1 t1 eq_refl). destruct (k a n1); [contradiction|discriminate].
Qed.

Lemma ret_Done {A} (a b : A) n n' t :
  ret a n = Done b n' t -> b = a /\ n' = n /\ t = [].
Proof. unfold ret. intros H. injection H as <- <- <-. repeat split. Qed.

Lemma log_Done e n u n' t : log e n = Done u n' t -> n' = n /\ t = [e].
Proof. unfold log. intros H. injection H as _ <- <-. split; reflexivity. Qed.

(** Take a run apart, one bind at a time. *)
Ltac inv_bind H :=
  let a := fresh "a" in
  let n := fresh "n" in
  let t1 := fresh "t" in
  let t2 := fresh "t" in
  let H1 := fresh "Hrun" in
  let Ht := fresh "Htrace" in
  apply bind_Done in H; destruct H as (a & n & t1 & t2 & H1 & H & Ht);
  match type of Ht with ?x = _ => try subst x end.

Ltac inv_ret H :=
  apply ret_Done in H; destruct H as (? & ? & ?); subst.

Ltac inv_log H :=
  apply log_Done in H; destruct H as (? & ?); subst.

Ltac inv_run :=
  repeat match goal with
  | H : bind _ _ _ = Done _ _ _ |- _ => inv_bind H
  | H : ret _ _ = Done _ _ _ |- _ => inv_ret H
  | H : log _ _ = Done _ _ _ |- _ => inv_log H
  | H : crash _ = Done _ _ _ |- _ => discriminate H
  | H : Crash = Done _ _ _ |- _ => discriminate H
  end.

Section Runs.

Variable alloc_ok : nat -> bool.

Lemma alloc_Done n p n' t :
  alloc alloc_ok n = Done p n' t ->
  p = (if alloc_ok n then Some n else None) /\ n' = S n /\ t = [].
Proof. unfold alloc. intros H. injection H as <- <- <-. repeat split. Qed.

Lemma strdup_Done s r n n' t :
  strdup alloc_ok s n = Done r n' t ->
  exists str, s = Some str /\
    r = (if alloc_ok n then Some str else None) /\ n' = S n /\ t = [].
Proof.
  unfold strdup. destruct s as [str|]; [|discriminate].
  intros H. inv_bind H. apply alloc_Done in Hrun. destruct Hrun as (-> & -> & ->).
  inv_ret H. exists str. destruct (alloc_ok n); repeat split.
Qed.

Lemma realloc_Done {A} (l : list A) r n n' t :
  realloc alloc_ok l n = Done r n' t ->
  r = (if alloc_ok n then Some l else None) /\ n' = S n /\ t = [].
Proof.
  unfold realloc. intros H. inv_bind H.
  apply alloc_Done in Hrun. destruct Hrun as (-> & -> & ->).
  inv_ret H. destruct (alloc_ok n); repeat split.
Qed.

Lemma attr_content_Done a c n n' t :
  attr_content a n = Done c n' t ->
  exists text, attr_children a = Some text /\ c = node_content text /\
               n' = n /\ t = [].
Proof.
  unfold attr_content. destruct (attr_children a) as [text|]; [|discriminate].
  intros H. inv_ret H. exists text. repeat split.
Qed.

Lemma strcmp_is_Done c s b n n' t :
  strcmp_is c s n = Done b n' t ->
  exists str, c = Some str /\ b = (str =? s) /\ n' = n /\ t = [].
Proof.
  unfold strcmp_is. destruct c as [str|]; [|discriminate].
  intros H. inv_ret H. exists str. repeat split.
Qed.

End Runs.

(** Equations between values. *)
Ltac inv_eqs :=
  repeat match goal with
  | H : (_, _) = (_, _) |- _ => injection H as ? ?; subst
  | H : Some _ = Some _ |- _ => injection H as ?; subst
  | H : Some _ = None |- _ => discriminate H
  | H : None = Some _ |- _ => discriminate H
  | H : Next _ = Next _ |- _ => injection H as ?; subst
  | H : Goto _ = Goto _ |- _ => injection H as ?; subst
  | H : Next _ = Goto _ |- _ => discriminate H
  | H : Goto _ = Next _ |- _ => discriminate H
  | H : 0%Z = (-1)%Z |- _ => discriminate H
  | H : (-1)%Z = 0%Z |- _ => discriminate H
  end.

(** Take apart the runs of the primitives as well. *)
Ltac inv_prim :=
  repeat match goal with
  | H : alloc _ _ = Done _ _ _ |- _ =>
      apply alloc_Done in H; destruct H as (? & ? & ?); subst
  | H : strdup _ _ _ = Done _ _ _ |- _ =>
      let s := fresh "s" in
      apply strdup_Done in H; destruct H as (s & ? & ? & ? & ?); subst
  | H : realloc _ _ _ = Done _ _ _ |- _ =>
      apply realloc_Done in H; destruct H as (? & ? & ?); subst
  | H : attr_content _ _ = Done _ _ _ |- _ =>
      let x := fresh "text" in
      apply attr_content_Done in H; destruct H as (x & ? & ? & ? & ?); subst
  | H : strcmp_is _ _ _ = Done _ _ _ |- _ =>
      let s := fresh "s" in
      apply strcmp_is_Done in H; destruct H as (s & ? & ? & ? & ?); subst
  | H : free _ _ = Done _ _ _ |- _ => unfold free in H
  | H : free_channel _ _ = Done _ _ _ |- _ => unfold free_channel in H
  | H : free_device _ _ = Done _ _ _ |- _ => unfold free_device in H
  | _ => progress inv_run
  end.

(** ** Null pointers: when the walk is safe *)

Section Safety_primitives.

Variable alloc_ok : nat -> bool.

Lemma attr_content_valued a :
  attr_valued a = true ->
  exists s, attr_value a = Some s /\
            forall n, attr_content a n = Done (Some s) n [].
Proof.
  unfold attr_valued, attr_value, attr_content.
  destruct (attr_children a) as [text|]; [|discriminate].
  destruct (node_content text) as [s|]; [|discriminate].
  intros _. exists s. split; reflexivity.
Qed.

Lemma strdup_safe s n : strdup alloc_ok (Some s) n <> Crash.
Proof. unfold strdup, bind, alloc, ret. discriminate. Qed.

Lemma realloc_safe {A} (l : list A) n : realloc alloc_ok l n <> Crash.
Proof. unfold realloc, bind, alloc, ret. discriminate. Qed.

Lemma log_safe e n : log e n <> Crash.
Proof. discriminate. Qed.

Lemma ret_safe {A} (a : A) n : ret a n <> Crash.
Proof. discriminate. Qed.

End Safety_primitives.

(** One step of a safety proof. *)
Ltac safe_step :=
  match goal with
  | |- ret _ _ <> Crash => apply ret_safe
  | |- log _ _ <> Crash => apply log_safe
  | |- free _ _ <> Crash => apply log_safe
  | |- free_channel _ _ <> Crash => apply log_safe
  | |- free_device _ _ <> Crash => apply log_safe
  | |- strdup _ (Some _) _ <> Crash => apply strdup_safe
  | |- realloc _ _ _ <> Crash => apply realloc_safe
  | |- alloc _ _ <> Crash => discriminate
  | |- bind _ _ _ <> Crash => apply bind_no_crash; [|intros ? ? ? ?]
  | |- (if ?b then _ else _) _ <> Crash => destruct b
  | |- (match ?x with Some _ => _ | None => _ end) _ <> Crash => destruct x
  | |- (match ?x with Next _ => _ | Goto _ => _ end) _ <> Crash => destruct x
  | |- (let (_, _) := ?x in _) _ <> Crash => destruct x
  end.

Section Safety.

Variable alloc_ok : nat -> bool.

Lemma valued_key_valued key attr :
  forallb attr_valued attr = true -> key_valued key attr = true.
Proof.
  unfold key_valued. intros H. rewrite forallb_forall in *.
  intros a Hin. rewrite (H a Hin). apply orb_true_r.
Qed.

Lemma add_attr_properties_safe unknown attr name n :
  key_valued "name" attr = true ->
  add_attr_properties alloc_ok unknown attr name n <> Crash.
Proof.
  unfold key_valued.
  revert name n. induction attr as [|a next IH]; intros name n Hv; simpl in *.
  - discriminate.
  - apply andb_prop in Hv. destruct Hv as [Ha Hnext].
    destruct (attr_name a =? "name").
    + destruct (attr_content_valued a Ha) as (s & _ & Hc).
      rewrite (bind_run _ _ _ _ _ _ (Hc n)).
      assert (H : (name' <- strdup alloc_ok (Some s);;
                   add_attr_properties alloc_ok unknown next name') n <> Crash).
      { repeat safe_step. apply IH, Hnext. }
      destruct (bind _ _ n); [contradiction|discriminate].
    + repeat safe_step. apply IH, Hnext.
Qed.

Lemma add_attr_to_channel_safe chn c n :
  key_valued "name" (node_properties c) = true ->
  add_attr_to_channel alloc_ok chn c n <> Crash.
Proof.
  intros Hv. unfold add_attr_to_channel.
  apply bind_no_crash; [apply add_attr_properties_safe, Hv|].
  intros; repeat safe_step.
Qed.

Lemma add_attr_to_device_safe dev c n :
  key_valued "name" (node_properties c) = true ->
  add_attr_to_device alloc_ok dev c n <> Crash.
Proof.
  intros Hv. unfold add_attr_to_device.
  apply bind_no_crash; [apply add_attr_properties_safe, Hv|].
  intros; repeat safe_step.
Qed.

Lemma node_valued_properties c :
  node_valued c = true -> forallb attr_valued (node_properties c) = true.
Proof. destruct c; simpl. intros H. apply andb_prop in H. apply H. Qed.

Lemma node_valued_children c :
  node_valued c = true -> forallb node_valued (node_children c) = true.
Proof. destruct c; simpl. intros H. apply andb_prop in H. apply H. Qed.

Lemma create_channel_properties_safe attr chn n :
  forallb attr_valued attr = true ->
  create_channel_properties alloc_ok attr chn n <> Crash.
Proof.
  revert chn n. induction attr as [|a next IH]; intros chn n Hv; simpl in *.
  - discriminate.
  - apply andb_prop in Hv. destruct Hv as [Ha Hnext].
    destruct (attr_content_valued a Ha) as (s & _ & Hc).
    rewrite (bind_run _ _ _ _ _ _ (Hc n)).
    match goal with
    | |- match ?m with _ => _ end <> Crash =>
        assert (H : m <> Crash); [|destruct m; [contradiction|discriminate]]
    end.
    unfold strcmp_is.
    repeat (safe_step; try (apply IH, Hnext)).
Qed.

Lemma create_channel_children_safe cs chn n :
  forallb node_valued cs = true ->
  create_channel_children alloc_ok cs chn n <> Crash.
Proof.
  revert chn n. induction cs as [|c next IH]; intros chn n Hv; simpl in *.
  - discriminate.
  - apply andb_prop in Hv. destruct Hv as [Hc Hnext].
    destruct (node_name c =? "attribute").
    + apply bind_no_crash.
      * apply add_attr_to_channel_safe, valued_key_valued,
          node_valued_properties, Hc.
      * intros [status chn'] n1 t1 _.
        destruct (status <? 0)%Z; [discriminate|apply IH, Hnext].
    + repeat (safe_step; try (apply IH, Hnext)).
Qed.

Lemma create_channel_safe dev c n :
  node_valued c = true -> create_channel alloc_ok dev c n <> Crash.
Proof.
  intros Hv. unfold create_channel.
  safe_step; [discriminate|]. safe_step; [|discriminate].
  apply bind_no_crash.
  - apply create_channel_properties_safe, node_valued_properties, Hv.
  - intros chn n2 t2 _. destruct (chn_id chn).
    + apply bind_no_crash.
      * apply create_channel_children_safe, node_valued_children, Hv.
      * intros; repeat safe_step.
    + repeat safe_step.
Qed.

Lemma create_device_properties_safe attr dev n :
  forallb attr_valued attr = true ->
  create_device_properties alloc_ok attr dev n <> Crash.
Proof.
  revert dev n. induction attr as [|a next IH]; intros dev n Hv; simpl in *.
  - discriminate.
  - apply andb_prop in Hv. destruct Hv as [Ha Hnext].
    destruct (attr_content_valued a Ha) as (s & _ & Hc).
    destruct (attr_name a =? "name"); [|destruct (attr_name a =? "id")].
    1,2: rewrite (bind_run _ _ _ _ _ _ (Hc n));
      match goal with
      | |- match ?m with _ => _ end <> Crash =>
          assert (H : m <> Crash); [|destruct m; [contradiction|discriminate]]
      end;
      repeat (safe_step; try (apply IH, Hnext)).
    repeat (safe_step; try (apply IH, Hnext)).
Qed.

Lemma create_device_children_safe cs dev n :
  forallb node_valued cs = true ->
  create_device_children alloc_ok cs dev n <> Crash.
Proof.
  revert dev n. induction cs as [|c next IH]; intros dev n Hv; simpl in *.
  - discriminate.
  - apply andb_prop in Hv. destruct Hv as [Hc Hnext].
    destruct (node_name c =? "channel"); [|destruct (node_name c =? "attribute")].
    + apply bind_no_crash; [apply create_channel_safe, Hc|].
      intros; repeat (safe_step; try (apply IH, Hnext)).
    + apply bind_no_crash.
      * apply add_attr_to_device_safe, valued_key_valued,
          node_valued_properties, Hc.
      * intros [status dev'] n1 t1 _.
        destruct (status <? 0)%Z; [discriminate|apply IH, Hnext].
    + repeat (safe_step; try (apply IH, Hnext)).
Qed.

Lemma create_device_safe ctx c n :
  node_valued c = true -> create_device alloc_ok ctx c n <> Crash.
Proof.
  intros Hv. unfold create_device.
  safe_step; [discriminate|]. safe_step; [|discriminate].
  apply bind_no_crash.
  - apply create_device_properties_safe, node_valued_properties, Hv.
  - intros dev n2 t2 _. destruct (dev_id dev).
    + apply bind_no_crash.
      * apply create_device_children_safe, node_valued_children, Hv.
      * intros; repeat safe_step.
    + repeat safe_step.
Qed.

Lemma context_children_safe cs ctx n :
  forallb node_valued cs = true ->
  context_children alloc_ok cs ctx n <> Crash.
Proof.
  revert ctx n. induction cs as [|c next IH]; intros ctx n Hv; simpl in *.
  - discriminate.
  - apply andb_prop in Hv. destruct Hv as [Hc Hnext].
    destruct (node_name c =? "device"); simpl.
    + apply bind_no_crash; [apply create_device_safe, Hc|].
      intros; repeat (safe_step; try (apply IH, Hnext)).
    + repeat (safe_step; try (apply IH, Hnext)).
Qed.

Lemma free_devices_safe devs n : free_devices devs n <> Crash.
Proof.
  revert n. induction devs as [|d rest IH]; intros n; simpl.
  - discriminate.
  - repeat safe_step. apply IH.
Qed.

Lemma iio_create_xml_context_helper_safe root n :
  node_valued root = true ->
  iio_create_xml_context_helper alloc_ok (document root) n <> Crash.
Proof.
  intros Hv. unfold iio_create_xml_context_helper. simpl.
  safe_step; [discriminate|]. safe_step; [|discriminate].
  destruct (node_name root =? "context"); simpl.
  - apply bind_no_crash.
    + apply context_children_safe, node_valued_children, Hv.
    + intros f n2 t2 _. destruct f; [discriminate|].
      apply bind_no_crash; [apply free_devices_safe|].
      intros; repeat safe_step.
  - repeat safe_step.
Qed.

End Safety.

(** ** Null pointers: when the walk crashes *)

Section Unguarded.

Variable alloc_ok : nat -> bool.

Lemma bind_then_crash {A B} (m : M A) (k : A -> M B) n :
  (forall a n1, k a n1 = Crash) -> bind m k n = Crash.
Proof.
  intros Hk. unfold bind. destruct (m n) as [|a n1 t1]; [reflexivity|].
  rewrite Hk. reflexivity.
Qed.

Lemma attr_content_null a n :
  attr_children a = None -> attr_content a n = Crash.
Proof. unfold attr_content. intros ->. reflexivity. Qed.

Ltac crash_step IH :=
  match goal with
  | |- bind _ (fun _ => ?f _ _ _ _) _ = Crash =>
      apply bind_then_crash; intros; apply IH
  | |- bind _ _ _ = Crash => apply bind_then_crash; intros
  | |- (if ?b then _ else _) _ = Crash => destruct b
  | |- _ => apply IH
  end.

Lemma add_attr_properties_crash unknown attr name n :
  Exists (fun a => attr_name a = "name" /\ valueless a) attr ->
  add_attr_properties alloc_ok unknown attr name n = Crash.
Proof.
  intros H. revert name n.
  induction H as [a next [Hname Hnull]|a next _ IH]; intros name n; simpl.
  - rewrite Hname. simpl. apply bind_crash, attr_content_null, Hnull.
  - destruct (attr_name a =? "name"); repeat crash_step IH.
Qed.

Lemma create_channel_properties_crash attr chn n :
  Exists valueless attr ->
  create_channel_properties alloc_ok attr chn n = Crash.
Proof.
  intros H. revert chn n.
  induction H as [a next Hnull|a next _ IH]; intros chn n; simpl.
  - apply bind_crash, attr_content_null, Hnull.
  - repeat crash_step IH.
Qed.

Lemma create_device_properties_crash attr dev n :
  Exists (fun a => (attr_name a = "name" \/ attr_name a = "id") /\ valueless a)
         attr ->
  create_device_properties alloc_ok attr dev n = Crash.
Proof.
  intros H. revert dev n.
  induction H as [a next [Hname Hnull]|a next _ IH]; intros dev n; simpl.
  - destruct (attr_name a =? "name") eqn:E.
    + apply bind_crash, attr_content_null, Hnull.
    + destruct Hname as [Hname|Hname]; rewrite Hname in *; [discriminate|].
      simpl. apply bind_crash, attr_content_null, Hnull.
  - repeat crash_step IH.
Qed.

Lemma add_attr_to_channel_crash chn c n :
  Exists (fun a => attr_name a = "name" /\ valueless a) (node_properties c) ->
  add_attr_to_channel alloc_ok chn c n = Crash.
Proof.
  intros H. unfold add_attr_to_channel.
  apply bind_crash, add_attr_properties_crash, H.
Qed.

Lemma add_attr_to_device_crash dev c n :
  Exists (fun a => attr_name a = "name" /\ valueless a) (node_properties c) ->
  add_attr_to_device alloc_ok dev c n = Crash.
Proof.
  intros H. unfold add_attr_to_device.
  apply bind_crash, add_attr_properties_crash, H.
Qed.

Lemma create_channel_crash dev c n :
  alloc_ok n = true ->
  Exists valueless (node_properties c) ->
  create_channel alloc_ok dev c n = Crash.
Proof.
  intros Hn H. unfold create_channel, bind at 1, alloc. rewrite Hn.
  rewrite bind_crash; [reflexivity|].
  apply create_channel_properties_crash, H.
Qed.

Lemma create_device_crash ctx c n :
  alloc_ok n = true ->
  Exists (fun a => (attr_name a = "name" \/ attr_name a = "id") /\ valueless a)
         (node_properties c) ->
  create_device alloc_ok ctx c n = Crash.
Proof.
  intros Hn H. unfold create_device, bind at 1, alloc. rewrite Hn.
  rewrite bind_crash; [reflexivity|].
  apply create_device_properties_crash, H.
Qed.

End Unguarded.

(** ** What a run that returns has done *)

Section Results.

Variable alloc_ok : nat -> bool.

Lemma add_attr_properties_Done unknown attr name n r n' t :
  add_attr_properties alloc_ok unknown attr name n = Done r n' t ->
  (n <= n')%nat /\
  t = map unknown (filter (fun a => negb (attr_name a =? "name")) attr) /\
  match last_property "name" attr with
  | None => r = name /\ n' = n
  | Some a =>
      exists s, attr_value a = Some s /\ (n < n')%nat /\
                r = if alloc_ok (pred n') then Some s else None
  end.
Proof.
  revert name n r n' t.
  induction attr as [|a next IH]; intros name n r n' t H; simpl in H |- *.
  - inv_ret H. repeat split. lia.
  - destruct (attr_name a =? "name") eqn:E; simpl; inv_prim.
    + apply IH in H. destruct H as (Hle & -> & Hlast).
      split; [lia|]. split; [reflexivity|].
      destruct (last_property "name" next) as [b|].
      * destruct Hlast as (s' & Hv & Hlt & Hr). exists s'.
        split; [exact Hv|]. split; [lia|exact Hr].
      * destruct Hlast as [-> ->]. exists s. unfold attr_value.
        rewrite H0. split; [symmetry; assumption|]. split; [lia|reflexivity].
    + apply IH in H. destruct H as (Hle & -> & Hlast).
      split; [lia|]. split; [reflexivity|].
      destruct (last_property "name" next) as [b|]; exact Hlast.
Qed.

(** The name the property loop hands over is the value of the last
    [name] property. *)
Lemma add_attr_properties_Some unknown c n s n' t :
  add_attr_properties alloc_ok unknown (node_properties c) None n
    = Done (Some s) n' t ->
  property_value "name" c = Some s.
Proof.
  intros H. apply add_attr_properties_Done in H. destruct H as (_ & _ & H).
  unfold property_value. destruct (last_property "name" (node_properties c)).
  - destruct H as (s' & Hv & _ & Hr). rewrite Hv.
    destruct (alloc_ok (pred n')); congruence.
  - destruct H as [H _]. discriminate.
Qed.

Lemma add_attr_to_channel_Done chn c n status chn' n' t :
  add_attr_to_channel alloc_ok chn c n = Done (status, chn') n' t ->
  (status = 0%Z /\
   exists s, property_value "name" c = Some s /\
             chn' = set_chn_attrs chn (chn_attrs chn ++ [s])) \/
  (status = (-1)%Z /\ chn' = chn).
Proof.
  unfold add_attr_to_channel. intros H. inv_bind H.
  destruct a as [s|].
  - apply add_attr_properties_Some in Hrun. inv_bind H. inv_prim.
    destruct (alloc_ok n0); inv_prim; inv_eqs.
    + left. split; [reflexivity|]. exists s. split; [assumption|reflexivity].
    + right. split; reflexivity.
  - inv_prim. inv_eqs. right. split; reflexivity.
Qed.

Lemma add_attr_to_device_Done dev c n status dev' n' t :
  add_attr_to_device alloc_ok dev c n = Done (status, dev') n' t ->
  (status = 0%Z /\
   exists s, property_value "name" c = Some s /\
             dev' = set_dev_attrs dev (dev_attrs dev ++ [s])) \/
  (status = (-1)%Z /\ dev' = dev).
Proof.
  unfold add_attr_to_device. intros H. inv_bind H.
  destruct a as [s|].
  - apply add_attr_properties_Some in Hrun. inv_bind H. inv_prim.
    destruct (alloc_ok n0); inv_prim; inv_eqs.
    + left. split; [reflexivity|]. exists s. split; [assumption|reflexivity].
    + right. split; reflexivity.
  - inv_prim. inv_eqs. right. split; reflexivity.
Qed.

Lemma scan_result_cons_hit key a next init :
  (attr_name a =? key) = true ->
  forall v, (v = None \/ v = attr_value a) ->
  forall r, (r = None \/ r = scan_result key next v) ->
  r = None \/ r = scan_result key (a :: next) init.
Proof.
  intros E v Hv r Hr. unfold scan_result in *. simpl.
  destruct (last_property key next); [exact Hr|]. rewrite E.
  destruct Hr as [->| ->]; [left; reflexivity|exact Hv].
Qed.

Lemma scan_result_cons_miss key a next init :
  (attr_name a =? key) = false ->
  scan_result key (a :: next) init = scan_result key next init.
Proof.
  intros E. unfold scan_result. simpl.
  destruct (last_property key next); [reflexivity|]. rewrite E. reflexivity.
Qed.

Lemma scan_result_cons_exact key a next init :
  (attr_name a =? key) = true ->
  scan_result key (a :: next) init = scan_result key next (attr_value a).
Proof.
  intros E. unfold scan_result. simpl.
  destruct (last_property key next); [reflexivity|]. rewrite E. reflexivity.
Qed.

Lemma eqb_name_id s : (s =? "name") = true -> (s =? "id") = false.
Proof. intros H. apply String.eqb_eq in H. subst. reflexivity. Qed.

Lemma eqb_name_type s : (s =? "name") = true -> (s =? "type") = false.
Proof. intros H. apply String.eqb_eq in H. subst. reflexivity. Qed.

Lemma eqb_id_type s : (s =? "id") = true -> (s =? "type") = false.
Proof. intros H. apply String.eqb_eq in H. subst. reflexivity. Qed.

Lemma create_channel_properties_Done attr chn n chn' n' t :
  create_channel_properties alloc_ok attr chn n = Done chn' n' t ->
  (n <= n')%nat /\
  chn_addr chn' = chn_addr chn /\
  chn_dev chn' = chn_dev chn /\
  chn_attrs chn' = chn_attrs chn /\
  (chn_id chn' = None \/ chn_id chn' = scan_result "id" attr (chn_id chn)) /\
  (chn_name chn' = None \/ chn_name chn' = scan_result "name" attr (chn_name chn)) /\
  chn_is_output chn' = chn_is_output chn || existsb type_output attr /\
  t = flat_map channel_property_events attr.
Proof.
  revert chn n chn' n' t.
  induction attr as [|a next IH]; intros chn n chn' n' t H; simpl in H.
  - inv_ret H. unfold scan_result. simpl. rewrite orb_false_r.
    repeat split; auto.
  - inv_bind H. inv_prim.
    assert (Hval : attr_value a = node_content text0)
      by (unfold attr_value; rewrite H0; reflexivity).
    cbn [existsb flat_map].
    destruct (attr_name a =? "name") eqn:Ename;
      [|destruct (attr_name a =? "id") eqn:Eid;
        [|destruct (attr_name a =? "type") eqn:Etype]].
    + assert (Hty : type_output a = false)
        by (unfold type_output; rewrite (eqb_name_type _ Ename); reflexivity).
      assert (Hev : channel_property_events a = [])
        by (unfold channel_property_events; rewrite Ename; reflexivity).
      rewrite Hty, Hev. inv_bind H. inv_prim. apply IH in H. simpl in H.
      destruct H as (Hle & -> & -> & -> & Hid & Hname & -> & ->).
      rewrite (scan_result_cons_miss "id") by (apply eqb_name_id, Ename).
      repeat split; auto; try lia.
      eapply scan_result_cons_hit; [exact Ename| |exact Hname].
      rewrite Hval, H1. destruct (alloc_ok n); auto.
    + assert (Hty : type_output a = false)
        by (unfold type_output; rewrite (eqb_id_type _ Eid); reflexivity).
      assert (Hev : channel_property_events a = [])
        by (unfold channel_property_events; rewrite Ename, Eid; reflexivity).
      rewrite Hty, Hev. inv_bind H. inv_prim. apply IH in H. simpl in H.
      destruct H as (Hle & -> & -> & -> & Hid & Hname & -> & ->).
      rewrite (scan_result_cons_miss "name") by exact Ename.
      repeat split; auto; try lia.
      eapply scan_result_cons_hit; [exact Eid| |exact Hid].
      rewrite Hval, H1. destruct (alloc_ok n); auto.
    + rewrite (scan_result_cons_miss "id"), (scan_result_cons_miss "name")
        by assumption.
      unfold type_output at 1, channel_property_events at 1.
      rewrite Ename, Eid, Etype, Hval.
      inv_bind H. inv_prim.
      match goal with Hc : node_content _ = Some _ |- _ => rewrite Hc in * end.
      simpl. destruct (s =? "output") eqn:Eout.
      * apply IH in H. simpl in H.
        destruct H as (Hle & -> & -> & -> & Hid & Hname & -> & ->).
        rewrite orb_true_r. repeat split; auto.
      * inv_bind H. inv_prim. inv_eqs. destruct (s0 =? "input") eqn:Einp.
        -- apply IH in H.
           destruct H as (Hle & -> & -> & -> & Hid & Hname & -> & ->).
           repeat split; auto.
        -- inv_bind H. inv_prim. apply IH in H.
           destruct H as (Hle & -> & -> & -> & Hid & Hname & -> & ->).
           repeat split; auto.
    + rewrite (scan_result_cons_miss "id"), (scan_result_cons_miss "name")
        by assumption.
      unfold type_output at 1, channel_property_events at 1.
      rewrite Ename, Eid, Etype.
      inv_bind H. inv_prim. apply IH in H.
      destruct H as (Hle & -> & -> & -> & Hid & Hname & -> & ->).
      repeat split; auto.
Qed.

Lemma attribute_names_hit c next :
  (node_name c =? "attribute") = true ->
  attribute_names (c :: next) = property_value "name" c :: attribute_names next.
Proof. intros E. unfold attribute_names, named. simpl. rewrite E. reflexivity. Qed.

Lemma attribute_names_miss c next :
  (node_name c =? "attribute") = false ->
  attribute_names (c :: next) = attribute_names next.
Proof. intros E. unfold attribute_names, named. simpl. rewrite E. reflexivity. Qed.

Lemma create_channel_children_Done cs chn n f n' t :
  create_channel_children alloc_ok cs chn n = Done f n' t ->
  chn_addr (flow_value f) = chn_addr chn /\
  chn_dev (flow_value f) = chn_dev chn /\
  chn_name (flow_value f) = chn_name chn /\
  chn_id (flow_value f) = chn_id chn /\
  chn_is_output (flow_value f) = chn_is_output chn /\
  (forall chn', f = Next chn' ->
     map Some (chn_attrs chn') = map Some (chn_attrs chn) ++ attribute_names cs).
Proof.
  revert chn n f n' t.
  induction cs as [|c next IH]; intros chn n f n' t H; simpl in H.
  - inv_ret H. simpl. repeat split; auto.
    intros chn' E. inv_eqs. unfold attribute_names. simpl.
    rewrite app_nil_r. reflexivity.
  - destruct (node_name c =? "attribute") eqn:Eattr.
    + rewrite (attribute_names_hit _ _ Eattr).
      inv_bind H. destruct a as [status chn1].
      apply add_attr_to_channel_Done in Hrun.
      destruct Hrun as [(-> & s & Hs & ->)|(-> & ->)]; simpl in H.
      * apply IH in H. simpl in H.
        destruct H as (-> & -> & -> & -> & -> & Hattrs).
        repeat split; auto. intros chn' E. rewrite (Hattrs _ E).
        rewrite map_app, <- app_assoc, Hs. reflexivity.
      * inv_ret H. simpl. repeat split; auto. intros chn' E. discriminate E.
    + rewrite (attribute_names_miss _ _ Eattr).
      destruct (node_name c =? "text"); simpl in H.
      * apply IH in H. exact H.
      * inv_bind H. inv_prim. apply IH in H. exact H.
Qed.

Lemma property_value_scan key c :
  property_value key c = scan_result key (node_properties c) None.
Proof. reflexivity. Qed.

Lemma create_channel_Done dev c n chn n' t :
  create_channel alloc_ok dev c n = Done (Some chn) n' t ->
  channel_built dev c chn /\ chn_addr chn = n /\ alloc_ok n = true /\
  exists t', t = flat_map channel_property_events (node_properties c) ++ t'.
Proof.
  unfold create_channel. intros H. inv_bind H. inv_prim.
  destruct (alloc_ok n) eqn:Halloc; [|inv_prim; inv_eqs].
  inv_bind H. apply create_channel_properties_Done in Hrun. simpl in Hrun.
  destruct Hrun as (_ & Haddr & Hdev & Hattrs & Hid & Hname & Hout & ->).
  destruct (chn_id a) as [id|] eqn:Eid; [|inv_prim; inv_eqs].
  inv_bind H. apply create_channel_children_Done in Hrun.
  destruct Hrun as (Haddr' & Hdev' & Hname' & Hid' & Hout' & Hattrs').
  destruct a0 as [chn'|chn']; inv_prim; inv_eqs. simpl in *.
  specialize (Hattrs' _ eq_refl). rewrite Hattrs in Hattrs'.
  split; [|split; [congruence|split; [reflexivity|eauto]]].
  unfold channel_built. rewrite Hdev', Hdev, Hid', Hname', Hout', Hout.
  rewrite !property_value_scan.
  split; [reflexivity|]. split.
  { exists id. split; [assumption|]. destruct Hid as [Hid|Hid]; congruence. }
  split; [exact Hname|]. split; [reflexivity|exact Hattrs'].
Qed.

Lemma create_device_properties_Done attr dev n dev' n' t :
  create_device_properties alloc_ok attr dev n = Done dev' n' t ->
  (n <= n')%nat /\
  dev_addr dev' = dev_addr dev /\
  dev_ctx dev' = dev_ctx dev /\
  dev_attrs dev' = dev_attrs dev /\
  dev_channels dev' = dev_channels dev /\
  (dev_id dev' = None \/ dev_id dev' = scan_result "id" attr (dev_id dev)) /\
  (dev_name dev' = None \/ dev_name dev' = scan_result "name" attr (dev_name dev)) /\
  t = flat_map device_property_events attr.
Proof.
  revert dev n dev' n' t.
  induction attr as [|a next IH]; intros dev n dev' n' t H; simpl in H.
  - inv_ret H. unfold scan_result. simpl. repeat split; auto.
  - cbn [flat_map]. unfold device_property_events at 1.
    destruct (attr_name a =? "name") eqn:Ename;
      [|destruct (attr_name a =? "id") eqn:Eid].
    + inv_bind H. inv_prim.
      assert (Hval : attr_value a = Some s)
        by (unfold attr_value;
            match goal with Hc : attr_children a = _ |- _ => rewrite Hc end;
            congruence).
      apply IH in H. simpl in H.
      destruct H as (Hle & -> & -> & -> & -> & Hid & Hname & ->).
      rewrite (scan_result_cons_miss "id") by (apply eqb_name_id, Ename).
      repeat split; auto; try lia.
      eapply scan_result_cons_hit; [exact Ename| |exact Hname].
      rewrite Hval. destruct (alloc_ok n); auto.
    + inv_bind H. inv_prim.
      assert (Hval : attr_value a = Some s)
        by (unfold attr_value;
            match goal with Hc : attr_children a = _ |- _ => rewrite Hc end;
            congruence).
      apply IH in H. simpl in H.
      destruct H as (Hle & -> & -> & -> & -> & Hid & Hname & ->).
      rewrite (scan_result_cons_miss "name") by exact Ename.
      repeat split; auto; try lia.
      eapply scan_result_cons_hit; [exact Eid| |exact Hid].
      rewrite Hval. destruct (alloc_ok n); auto.
    + inv_bind H. inv_prim. apply IH in H.
      destruct H as (Hle & -> & -> & -> & -> & Hid & Hname & ->).
      rewrite (scan_result_cons_miss "id"), (scan_result_cons_miss "name")
        by assumption.
      repeat split; auto.
Qed.

Lemma eqb_channel_attribute s :
  (s =? "channel") = true -> (s =? "attribute") = false.
Proof. intros H. apply String.eqb_eq in H. subst. reflexivity. Qed.

Lemma channels_hit c next :
  (node_name c =? "channel") = true ->
  filter (named "channel") (c :: next) = c :: filter (named "channel") next.
Proof. intros E. unfold named. simpl. rewrite E. reflexivity. Qed.

Lemma channels_miss c next :
  (node_name c =? "channel") = false ->
  filter (named "channel") (c :: next) = filter (named "channel") next.
Proof. intros E. unfold named. simpl. rewrite E. reflexivity. Qed.

Lemma Forall2_snoc {A B} (R : A -> B -> Prop) a l b l' :
  R a b -> Forall2 R l l' -> Forall2 R (a :: l) ([b] ++ l').
Proof. intros. simpl. constructor; assumption. Qed.

Lemma create_device_children_Done cs dev n f n' t :
  create_device_children alloc_ok cs dev n = Done f n' t ->
  dev_addr (flow_value f) = dev_addr dev /\
  dev_ctx (flow_value f) = dev_ctx dev /\
  dev_name (flow_value f) = dev_name dev /\
  dev_id (flow_value f) = dev_id dev /\
  (exists new, dev_channels (flow_value f) = dev_channels dev ++ new /\
               Forall (fun chn => chn_dev chn = Some (dev_addr dev)) new) /\
  (forall dev', f = Next dev' ->
     map Some (dev_attrs dev') = map Some (dev_attrs dev) ++ attribute_names cs /\
     exists new, dev_channels dev' = dev_channels dev ++ new /\
       Forall2 (channel_built (dev_addr dev)) (filter (named "channel") cs) new).
Proof.
  revert dev n f n' t.
  induction cs as [|c next IH]; intros dev n f n' t H; simpl in H.
  - inv_ret H. simpl. repeat split; auto.
    + exists []. rewrite app_nil_r. split; [reflexivity|constructor].
    + inv_eqs. unfold attribute_names. simpl. rewrite app_nil_r. reflexivity.
    + inv_eqs. exists []. rewrite app_nil_r. split; [reflexivity|constructor].
  - destruct (node_name c =? "channel") eqn:Echn;
      [|destruct (node_name c =? "attribute") eqn:Eattr].
    + rewrite (attribute_names_miss _ _ (eqb_channel_attribute _ Echn)).
      rewrite (channels_hit _ _ Echn).
      inv_bind H. destruct a as [chn|].
      * apply create_channel_Done in Hrun. destruct Hrun as (Hbuilt & _).
        inv_bind H. inv_prim. destruct (alloc_ok n0).
        -- apply IH in H. simpl in H.
           destruct H as (-> & -> & -> & -> & (new & -> & Hnew) & Hnext).
           repeat split; auto.
           ++ exists ([chn] ++ new). rewrite app_assoc. split; [reflexivity|].
              simpl. constructor; [apply Hbuilt|exact Hnew].
           ++ apply Hnext, H.
           ++ destruct (Hnext _ H) as (_ & new' & -> & Hnew').
              exists ([chn] ++ new'). rewrite app_assoc. split; [reflexivity|].
              apply Forall2_snoc; assumption.
        -- inv_prim. simpl. repeat split; auto; try discriminate.
           exists []. rewrite app_nil_r. split; [reflexivity|constructor].
      * inv_prim. simpl. repeat split; auto; try discriminate.
        exists []. rewrite app_nil_r. split; [reflexivity|constructor].
    + rewrite (attribute_names_hit _ _ Eattr), (channels_miss _ _ Echn).
      inv_bind H. destruct a as [status dev1].
      apply add_attr_to_device_Done in Hrun.
      destruct Hrun as [(-> & s & Hs & ->)|(-> & ->)]; simpl in H.
      * apply IH in H. simpl in H.
        destruct H as (-> & -> & -> & -> & Hany & Hnext).
        repeat split; auto.
        -- destruct (Hnext _ H) as (-> & _).
           rewrite map_app, <- app_assoc, Hs. reflexivity.
        -- apply Hnext, H.
      * inv_ret H. simpl. repeat split; auto; try discriminate.
        exists []. rewrite app_nil_r. split; [reflexivity|constructor].
    + rewrite (attribute_names_miss _ _ Eattr), (channels_miss _ _ Echn).
      destruct (node_name c =? "text"); simpl in H.
      * apply IH in H. exact H.
      * inv_bind H. inv_prim. apply IH in H. exact H.
Qed.

Lemma create_device_Done ctx c n dev n' t :
  create_device alloc_ok ctx c n = Done (Some dev) n' t ->
  device_built ctx c dev /\ dev_addr dev = n /\ alloc_ok n = true /\
  exists t', t = flat_map device_property_events (node_properties c) ++ t'.
Proof.
  unfold create_device. intros H. inv_bind H. inv_prim.
  destruct (alloc_ok n) eqn:Halloc; [|inv_prim; inv_eqs].
  inv_bind H. apply create_device_properties_Done in Hrun. simpl in Hrun.
  destruct Hrun as (_ & Haddr & Hctx & Hattrs & Hchns & Hid & Hname & ->).
  destruct (dev_id a) as [id|] eqn:Eid; [|inv_prim; inv_eqs].
  inv_bind H. apply create_device_children_Done in Hrun.
  destruct Hrun as (Haddr' & Hctx' & Hname' & Hid' & _ & Hnext).
  destruct a0 as [dev'|dev']; inv_prim; inv_eqs. simpl in *.
  destruct (Hnext _ eq_refl) as (Hattrs' & new & Hchns' & Hnew).
  rewrite Hattrs in Hattrs'. rewrite Hchns in Hchns'. simpl in *.
  split; [|split; [congruence|split; [reflexivity|eauto]]].
  unfold device_built. rewrite Hctx', Hctx, Hid', Hname', Hchns', Haddr'.
  rewrite !property_value_scan.
  split; [reflexivity|]. split.
  { exists id. split; [assumption|]. destruct Hid as [Hid|Hid]; congruence. }
  split; [exact Hname|]. split; [exact Hattrs'|exact Hnew].
Qed.

Lemma device_built_linked ctx c dev :
  device_built ctx c dev -> device_linked ctx dev.
Proof.
  intros (Hctx & _ & _ & _ & Hchns). split; [exact Hctx|].
  induction Hchns as [|c' chn cs chns Hbuilt _ IH]; constructor.
  - apply Hbuilt.
  - exact IH.
Qed.

Lemma devices_hit c next :
  (node_name c =? "device") = true ->
  filter (named "device") (c :: next) = c :: filter (named "device") next.
Proof. intros E. unfold named. simpl. rewrite E. reflexivity. Qed.

Lemma devices_miss c next :
  (node_name c =? "device") = false ->
  filter (named "device") (c :: next) = filter (named "device") next.
Proof. intros E. unfold named. simpl. rewrite E. reflexivity. Qed.

Lemma context_children_Done cs ctx n f n' t :
  context_children alloc_ok cs ctx n = Done f n' t ->
  ctx_addr (flow_value f) = ctx_addr ctx /\
  ctx_name (flow_value f) = ctx_name ctx /\
  ctx_ops (flow_value f) = ctx_ops ctx /\
  (exists new, ctx_devices (flow_value f) = ctx_devices ctx ++ new /\
               Forall (device_linked (ctx_addr ctx)) new) /\
  (forall ctx', f = Next ctx' ->
     exists new, ctx_devices ctx' = ctx_devices ctx ++ new /\
       Forall2 (device_built (ctx_addr ctx)) (filter (named "device") cs) new).
Proof.
  revert ctx n f n' t.
  induction cs as [|c next IH]; intros ctx n f n' t H; simpl in H.
  - inv_ret H. simpl. repeat split; auto.
    + exists []. rewrite app_nil_r. split; [reflexivity|constructor].
    + intros ctx' E. inv_eqs. exists []. rewrite app_nil_r.
      split; [reflexivity|constructor].
  - destruct (node_name c =? "device") eqn:Edev; simpl in H.
    + rewrite (devices_hit _ _ Edev).
      inv_bind H. destruct a as [dev|].
      * apply create_device_Done in Hrun. destruct Hrun as (Hbuilt & _).
        inv_bind H. inv_prim. destruct (alloc_ok n0).
        -- apply IH in H. simpl in H.
           destruct H as (-> & -> & -> & (new & -> & Hnew) & Hnext).
           repeat split; auto.
           ++ exists ([dev] ++ new). rewrite app_assoc. split; [reflexivity|].
              simpl. constructor; [|exact Hnew].
              eapply device_built_linked, Hbuilt.
           ++ intros ctx' E. destruct (Hnext _ E) as (new' & -> & Hnew').
              exists ([dev] ++ new'). rewrite app_assoc. split; [reflexivity|].
              apply Forall2_snoc; assumption.
        -- inv_prim. simpl. repeat split; auto; try discriminate.
           exists []. rewrite app_nil_r. split; [reflexivity|constructor].
      * inv_prim. simpl. repeat split; auto; try discriminate.
        exists []. rewrite app_nil_r. split; [reflexivity|constructor].
    + rewrite (devices_miss _ _ Edev).
      destruct (node_name c =? "text"); simpl in H.
      * apply IH in H. exact H.
      * inv_bind H. inv_prim. apply IH in H. exact H.
Qed.

Lemma free_devices_Done devs n u n' t :
  free_devices devs n = Done u n' t -> n' = n /\ t = map FREE_DEVICE devs.
Proof.
  revert n u n' t. induction devs as [|d rest IH]; intros n u n' t H; simpl in H.
  - inv_ret H. split; reflexivity.
  - inv_bind H. inv_prim. apply IH in H. destruct H as [-> ->].
    split; reflexivity.
Qed.

Lemma iio_create_xml_context_helper_Done doc n ctx n' t :
  iio_create_xml_context_helper alloc_ok doc n = Done (Some ctx) n' t ->
  exists root,
    xmlDocGetRootElement doc = Some root /\ node_name root = "context" /\
    context_built root ctx /\ context_linked ctx /\
    ctx_addr ctx = n /\ alloc_ok n = true.
Proof.
  unfold iio_create_xml_context_helper. intros H. inv_bind H. inv_prim.
  destruct (alloc_ok n) eqn:Halloc; [|inv_prim; inv_eqs].
  destruct (xmlDocGetRootElement doc) as [root|]; [|discriminate].
  exists root. split; [reflexivity|].
  destruct (node_name root =? "context") eqn:Eroot; simpl in H;
    [|inv_prim; inv_eqs].
  apply String.eqb_eq in Eroot. split; [exact Eroot|].
  inv_bind H. apply context_children_Done in Hrun. simpl in Hrun.
  destruct Hrun as (Haddr & Hname & Hops & (new & Hdevs & Hlinked) & Hnext).
  destruct a as [ctx'|ctx']; [|inv_prim; inv_eqs].
  inv_ret H. inv_eqs. simpl in *.
  destruct (Hnext _ eq_refl) as (new' & Hdevs' & Hbuilt).
  unfold context_built, context_linked. rewrite Hname, Hops, Hdevs'.
  repeat split; auto. rewrite <- Hdevs'. exact Hlinked.
Qed.

End Results.

(** ** Which events a run emits *)

Lemma emits_ret {A} P (a : A) : emits P (ret a).
Proof. intros n r n' t H. inv_ret H. split; [lia|reflexivity]. Qed.

Lemma emits_crash {A} P : emits P (@crash A).
Proof. intros n r n' t H. discriminate H. Qed.

Lemma emits_log P e : P e = true -> emits P (log e).
Proof.
  intros He n r n' t H. inv_log H. split; [lia|]. simpl. rewrite He. reflexivity.
Qed.

Lemma emits_bind {A B} P (m : M A) (k : A -> M B) :
  emits P m -> (forall a, emits P (k a)) -> emits P (bind m k).
Proof.
  intros Hm Hk n r n' t H. inv_bind H.
  apply Hm in Hrun. apply Hk in H. destruct Hrun as [Hle Hb], H as [Hle' Hb'].
  split; [lia|]. rewrite forallb_app, Hb, Hb'. reflexivity.
Qed.

Lemma emits_malloc P alloc_ok : emits P (alloc alloc_ok).
Proof.
  intros n r n' t H. apply alloc_Done in H. destruct H as (_ & -> & ->).
  split; [lia|reflexivity].
Qed.

Lemma emits_strdup P alloc_ok s : emits P (strdup alloc_ok s).
Proof.
  intros n r n' t H. apply strdup_Done in H.
  destruct H as (_ & _ & _ & -> & ->). split; [lia|reflexivity].
Qed.

Lemma emits_realloc P alloc_ok {A} (l : list A) : emits P (realloc alloc_ok l).
Proof.
  intros n r n' t H. apply realloc_Done in H. destruct H as (_ & -> & ->).
  split; [lia|reflexivity].
Qed.

Lemma emits_attr_content P a : emits P (attr_content a).
Proof.
  intros n r n' t H. apply attr_content_Done in H.
  destruct H as (_ & _ & _ & -> & ->). split; [lia|reflexivity].
Qed.

Lemma emits_strcmp_is P c s : emits P (strcmp_is c s).
Proof.
  intros n r n' t H. apply strcmp_is_Done in H.
  destruct H as (_ & _ & _ & -> & ->). split; [lia|reflexivity].
Qed.

Ltac emits_step :=
  match goal with
  | |- emits _ (ret _) => apply emits_ret
  | |- emits _ crash => apply emits_crash
  | |- emits _ (log _) => apply emits_log; solve [auto]
  | |- emits _ (free _) => apply emits_log; solve [auto]
  | |- emits _ (free_channel _) => apply emits_log; solve [auto]
  | |- emits _ (free_device _) => apply emits_log; solve [auto]
  | |- emits _ (alloc _) => apply emits_malloc
  | |- emits _ (strdup _ _) => apply emits_strdup
  | |- emits _ (realloc _ _) => apply emits_realloc
  | |- emits _ (attr_content _) => apply emits_attr_content
  | |- emits _ (strcmp_is _ _) => apply emits_strcmp_is
  | |- emits _ (bind _ _) => apply emits_bind; [|intros ?]
  | |- emits _ (if ?b then _ else _) => destruct b
  | |- emits _ (match ?x with Some _ => _ | None => _ end) => destruct x
  | |- emits _ (match ?x with Next _ => _ | Goto _ => _ end) => destruct x
  | |- emits _ (let (_, _) := ?x in _) => destruct x
  end.

(** The loops emit warnings, errors and releases of blocks; building a
    channel also releases channels, building a device also devices. *)
Section Emits.

Variable alloc_ok : nat -> bool.
Variable P : event -> bool.
Hypothesis P_warning : forall fmt args, P (WARNING fmt args) = true.
Hypothesis P_error : forall fmt args, P (ERROR fmt args) = true.
Hypothesis P_free : forall b, P (FREE b) = true.

Lemma emits_add_attr_properties unknown attr name :
  (forall a, P (unknown a) = true) ->
  emits P (add_attr_properties alloc_ok unknown attr name).
Proof.
  intros Hu. revert name. induction attr as [|a next IH]; intros name; simpl.
  - apply emits_ret.
  - destruct (attr_name a =? "name").
    + repeat (emits_step; try apply IH).
    + apply emits_bind; [apply emits_log, Hu|]. intros _. apply IH.
Qed.

Lemma emits_add_attr_to_channel chn c : emits P (add_attr_to_channel alloc_ok chn c).
Proof.
  unfold add_attr_to_channel.
  apply emits_bind; [apply emits_add_attr_properties; auto|].
  intros name. repeat emits_step.
Qed.

Lemma emits_add_attr_to_device dev c : emits P (add_attr_to_device alloc_ok dev c).
Proof.
  unfold add_attr_to_device.
  apply emits_bind; [apply emits_add_attr_properties; auto|].
  intros name. repeat emits_step.
Qed.

Lemma emits_create_channel_properties attr chn :
  emits P (create_channel_properties alloc_ok attr chn).
Proof.
  revert chn. induction attr as [|a next IH]; intros chn; simpl.
  - apply emits_ret.
  - repeat (emits_step; try apply IH).
Qed.

Lemma emits_create_channel_children cs chn :
  emits P (create_channel_children alloc_ok cs chn).
Proof.
  revert chn. induction cs as [|c next IH]; intros chn; simpl.
  - apply emits_ret.
  - destruct (node_name c =? "attribute").
    + apply emits_bind; [apply emits_add_attr_to_channel|].
      intros [status chn']. destruct (status <? 0)%Z; [apply emits_ret|apply IH].
    + repeat (emits_step; try apply IH).
Qed.

Hypothesis P_free_channel : forall chn, P (FREE_CHANNEL chn) = true.

Lemma emits_create_channel dev c : emits P (create_channel alloc_ok dev c).
Proof.
  unfold create_channel. emits_step; [apply emits_malloc|].
  emits_step; [|apply emits_ret].
  apply emits_bind; [apply emits_create_channel_properties|]. intros chn.
  destruct (chn_id chn); [|repeat emits_step].
  apply emits_bind; [apply emits_create_channel_children|]. intros f.
  repeat emits_step.
Qed.

Lemma emits_create_device_properties attr dev :
  emits P (create_device_properties alloc_ok attr dev).
Proof.
  revert dev. induction attr as [|a next IH]; intros dev; simpl.
  - apply emits_ret.
  - repeat (emits_step; try apply IH).
Qed.

Lemma emits_create_device_children cs dev :
  emits P (create_device_children alloc_ok cs dev).
Proof.
  revert dev. induction cs as [|c next IH]; intros dev; simpl.
  - apply emits_ret.
  - destruct (node_name c =? "channel"); [|destruct (node_name c =? "attribute")].
    + apply emits_bind; [apply emits_create_channel|]. intros chn.
      repeat (emits_step; try apply IH).
    + apply emits_bind; [apply emits_add_attr_to_device|].
      intros [status dev']. destruct (status <? 0)%Z; [apply emits_ret|apply IH].
    + repeat (emits_step; try apply IH).
Qed.

Hypothesis P_free_device : forall dev, P (FREE_DEVICE dev) = true.





End Emits.

(** The builder leaves the parser alone. *)
Section Tame.

Variable alloc_ok : nat -> bool.






End Tame.

(** ** With memory to spare, a well-formed document is built *)

Lemma last_property_In key attr a :
  last_property key attr = Some a -> In a attr /\ (attr_name a =? key) = true.
Proof.
  induction attr as [|b next IH]; simpl; [discriminate|].
  destruct (last_property key next) as [a'|].
  - intros H. injection H as ->. destruct (IH eq_refl) as [Hin Hname].
    split; [right; exact Hin|exact Hname].
  - destruct (attr_name b =? key) eqn:E; [|discriminate].
    intros H. injection H as ->. split; [left; reflexivity|exact E].
Qed.

(** A property that is present and valued has a value. *)
Lemma property_value_present key c :
  has_property key c = true ->
  key_valued key (node_properties c) = true ->
  exists s, property_value key c = Some s.
Proof.
  unfold has_property, property_value, key_valued. intros Hhas Hval.
  destruct (last_property key (node_properties c)) as [a|] eqn:E; [|discriminate].
  apply last_property_In in E. destruct E as [Hin Hname].
  rewrite forallb_forall in Hval. specialize (Hval a Hin).
  rewrite Hname in Hval. simpl in Hval.
  unfold attr_valued in Hval. destruct (attr_value a) as [s|]; [|discriminate].
  exists s. reflexivity.
Qed.

Section Plenty.

Variable alloc_ok : nat -> bool.
Hypothesis plentiful : forall i, alloc_ok i = true.

Lemma alloc_plenty n : alloc alloc_ok n = Done (Some n) (S n) [].
Proof. unfold alloc. rewrite plentiful. reflexivity. Qed.

Lemma strdup_plenty s n : strdup alloc_ok (Some s) n = Done (Some s) (S n) [].
Proof. unfold strdup, bind. rewrite alloc_plenty. reflexivity. Qed.

Lemma realloc_plenty {A} (l : list A) n :
  realloc alloc_ok l n = Done (Some l) (S n) [].
Proof. unfold realloc, bind. rewrite alloc_plenty. reflexivity. Qed.

Lemma add_attr_properties_plenty unknown attr name n :
  key_valued "name" attr = true ->
  exists n',
    add_attr_properties alloc_ok unknown attr name n
    = Done (scan_result "name" attr name) n'
           (map unknown (filter (fun a => negb (attr_name a =? "name")) attr)).
Proof.
  intros Hv.
  destruct (add_attr_properties alloc_ok unknown attr name n) as [|r n' t] eqn:E.
  - exfalso. exact (add_attr_properties_safe _ _ _ _ _ Hv E).
  - pose proof (add_attr_properties_Done _ _ _ _ _ _ _ _ E) as (_ & -> & Hlast).
    exists n'. unfold scan_result.
    destruct (last_property "name" attr) as [a|].
    + destruct Hlast as (s & -> & _ & ->). rewrite plentiful. reflexivity.
    + destruct Hlast as [-> ->]. reflexivity.
Qed.

Lemma add_attr_to_channel_plenty chn c n :
  attribute_wf c = true ->
  exists s n' t,
    property_value "name" c = Some s /\
    add_attr_to_channel alloc_ok chn c n
    = Done (0%Z, set_chn_attrs chn (chn_attrs chn ++ [s])) n' t.
Proof.
  unfold attribute_wf. intros H. apply andb_prop in H. destruct H as [Hhas Hv].
  destruct (property_value_present _ _ Hhas Hv) as (s & Hs).
  destruct (add_attr_properties_plenty
              (fun a => WARNING "Unknown field '%s' in channel %s"
                                [Some (attr_name a); chn_id chn])
              _ None n Hv) as (n1 & E).
  rewrite <- property_value_scan, Hs in E.
  exists s. unfold add_attr_to_channel. rewrite (bind_run _ _ _ _ _ _ E).
  rewrite (bind_run _ _ _ _ _ _ (realloc_plenty _ _)). simpl.
  eexists _, _. split; [exact Hs|reflexivity].
Qed.

Lemma add_attr_to_device_plenty dev c n :
  attribute_wf c = true ->
  exists s n' t,
    property_value "name" c = Some s /\
    add_attr_to_device alloc_ok dev c n
    = Done (0%Z, set_dev_attrs dev (dev_attrs dev ++ [s])) n' t.
Proof.
  unfold attribute_wf. intros H. apply andb_prop in H. destruct H as [Hhas Hv].
  destruct (property_value_present _ _ Hhas Hv) as (s & Hs).
  destruct (add_attr_properties_plenty
              (fun a => WARNING "Unknown field '%s' in device %s"
                                [Some (attr_name a); dev_id dev])
              _ None n Hv) as (n1 & E).
  rewrite <- property_value_scan, Hs in E.
  exists s. unfold add_attr_to_device. rewrite (bind_run _ _ _ _ _ _ E).
  rewrite (bind_run _ _ _ _ _ _ (realloc_plenty _ _)). simpl.
  eexists _, _. split; [exact Hs|reflexivity].
Qed.

(** With memory to spare every copy is made, so a member holds the
    value of the last property that wrote it. *)
Lemma create_channel_properties_exact attr chn n chn' n' t :
  create_channel_properties alloc_ok attr chn n = Done chn' n' t ->
  chn_id chn' = scan_result "id" attr (chn_id chn) /\
  chn_name chn' = scan_result "name" attr (chn_name chn).
Proof.
  revert chn n chn' n' t.
  induction attr as [|a next IH]; intros chn n chn' n' t H; simpl in H.
  - inv_ret H. split; reflexivity.
  - inv_bind H. inv_prim.
    assert (Hval : attr_value a = node_content text0)
      by (unfold attr_value;
          match goal with Hc : attr_children a = _ |- _ => rewrite Hc end;
          reflexivity).
    destruct (attr_name a =? "name") eqn:Ename;
      [|destruct (attr_name a =? "id") eqn:Eid;
        [|destruct (attr_name a =? "type") eqn:Etype]].
    + inv_bind H. inv_prim. apply IH in H. simpl in H. destruct H as [-> ->].
      rewrite plentiful.
      rewrite (scan_result_cons_miss "id") by (apply eqb_name_id, Ename).
      rewrite (scan_result_cons_exact "name") by exact Ename.
      split; [reflexivity|congruence].
    + inv_bind H. inv_prim. apply IH in H. simpl in H. destruct H as [-> ->].
      rewrite plentiful.
      rewrite (scan_result_cons_miss "name") by exact Ename.
      rewrite (scan_result_cons_exact "id") by exact Eid.
      split; [congruence|reflexivity].
    + rewrite (scan_result_cons_miss "id"), (scan_result_cons_miss "name")
        by assumption.
      inv_bind H. inv_prim. destruct (s =? "output").
      * apply IH in H. exact H.
      * inv_bind H. inv_prim. destruct (s0 =? "input").
        -- apply IH in H. exact H.
        -- inv_bind H. inv_prim. apply IH in H. exact H.
    + rewrite (scan_result_cons_miss "id"), (scan_result_cons_miss "name")
        by assumption.
      inv_bind H. inv_prim. apply IH in H. exact H.
Qed.

Lemma create_channel_properties_plenty attr chn n :
  forallb attr_valued attr = true ->
  exists chn' n',
    create_channel_properties alloc_ok attr chn n
    = Done chn' n' (flat_map channel_property_events attr) /\
    chn_id chn' = scan_result "id" attr (chn_id chn) /\
    chn_name chn' = scan_result "name" attr (chn_name chn).
Proof.
  intros Hv.
  destruct (create_channel_properties alloc_ok attr chn n) as [|chn' n' t] eqn:E.
  - exfalso. exact (create_channel_properties_safe _ _ _ _ Hv E).
  - exists chn', n'.
    pose proof (create_channel_properties_Done _ _ _ _ _ _ _ E)
      as (_ & _ & _ & _ & _ & _ & _ & ->).
    split; [reflexivity|]. eapply create_channel_properties_exact, E.
Qed.

Lemma create_channel_children_plenty cs chn n :
  forallb channel_child_wf cs = true ->
  exists chn' n' t,
    create_channel_children alloc_ok cs chn n = Done (Next chn') n' t.
Proof.
  revert chn n. induction cs as [|c next IH]; intros chn n Hwf; simpl in *.
  - eexists _, _, _. reflexivity.
  - apply andb_prop in Hwf. destruct Hwf as [Hc Hnext].
    unfold channel_child_wf, named in Hc.
    destruct (node_name c =? "attribute").
    + destruct (add_attr_to_channel_plenty chn c n Hc) as (s & n1 & t1 & _ & E).
      rewrite (bind_run _ _ _ _ _ _ E). simpl.
      destruct (IH (set_chn_attrs chn (chn_attrs chn ++ [s])) n1 Hnext)
        as (chn' & n' & t & ->).
      eexists _, _, _. reflexivity.
    + destruct (node_name c =? "text"); simpl.
      * apply IH, Hnext.
      * unfold bind, log. destruct (IH chn n Hnext) as (chn' & n' & t & ->).
        eexists _, _, _. reflexivity.
Qed.

Lemma create_channel_plenty dev c n :
  channel_wf c = true ->
  exists chn n' t,
    create_channel alloc_ok dev c n = Done (Some chn) n' t /\
    chn_name chn = property_value "name" c.
Proof.
  unfold channel_wf. intros H. apply andb_prop in H. destruct H as [H Hcs].
  apply andb_prop in H. destruct H as [Hhas Hv].
  destruct (property_value_present _ _ Hhas (valued_key_valued _ _ Hv))
    as (id & Hid).
  unfold create_channel. rewrite (bind_run _ _ _ _ _ _ (alloc_plenty n)).
  destruct (create_channel_properties_plenty (node_properties c)
              (set_chn_dev (calloc_channel n) (Some dev)) (S n) Hv)
    as (chn1 & n1 & E1 & Hid1 & Hname1).
  rewrite (bind_run _ _ _ _ _ _ E1). simpl in Hid1, Hname1.
  rewrite <- property_value_scan in Hid1, Hname1. rewrite Hid1, Hid.
  destruct (create_channel_children_plenty (node_children c) chn1 n1 Hcs)
    as (chn2 & n2 & t2 & E2).
  rewrite (bind_run _ _ _ _ _ _ E2). simpl.
  eexists _, _, _. split; [reflexivity|].
  apply create_channel_children_Done in E2. simpl in E2.
  destruct E2 as (_ & _ & -> & _). exact Hname1.
Qed.

Lemma create_device_properties_exact attr dev n dev' n' t :
  create_device_properties alloc_ok attr dev n = Done dev' n' t ->
  dev_id dev' = scan_result "id" attr (dev_id dev) /\
  dev_name dev' = scan_result "name" attr (dev_name dev).
Proof.
  revert dev n dev' n' t.
  induction attr as [|a next IH]; intros dev n dev' n' t H; simpl in H.
  - inv_ret H. split; reflexivity.
  - destruct (attr_name a =? "name") eqn:Ename;
      [|destruct (attr_name a =? "id") eqn:Eid].
    + inv_bind H. inv_prim.
      assert (Hval : attr_value a = Some s)
        by (unfold attr_value;
            match goal with Hc : attr_children a = _ |- _ => rewrite Hc end;
            congruence).
      apply IH in H. simpl in H. destruct H as [-> ->]. rewrite plentiful.
      rewrite (scan_result_cons_miss "id") by (apply eqb_name_id, Ename).
      rewrite (scan_result_cons_exact "name") by exact Ename.
      split; [reflexivity|congruence].
    + inv_bind H. inv_prim.
      assert (Hval : attr_value a = Some s)
        by (unfold attr_value;
            match goal with Hc : attr_children a = _ |- _ => rewrite Hc end;
            congruence).
      apply IH in H. simpl in H. destruct H as [-> ->]. rewrite plentiful.
      rewrite (scan_result_cons_miss "name") by exact Ename.
      rewrite (scan_result_cons_exact "id") by exact Eid.
      split; [congruence|reflexivity].
    + rewrite (scan_result_cons_miss "id"), (scan_result_cons_miss "name")
        by assumption.
      inv_bind H. inv_prim. apply IH in H. exact H.
Qed.

Lemma create_device_properties_plenty attr dev n :
  forallb attr_valued attr = true ->
  exists dev' n',
    create_device_properties alloc_ok attr dev n
    = Done dev' n' (flat_map device_property_events attr) /\
    dev_id dev' = scan_result "id" attr (dev_id dev) /\
    dev_name dev' = scan_result "name" attr (dev_name dev).
Proof.
  intros Hv.
  destruct (create_device_properties alloc_ok attr dev n) as [|dev' n' t] eqn:E.
  - exfalso. exact (create_device_properties_safe _ _ _ _ Hv E).
  - exists dev', n'.
    pose proof (create_device_properties_Done _ _ _ _ _ _ _ E)
      as (_ & _ & _ & _ & _ & _ & _ & ->).
    split; [reflexivity|]. eapply create_device_properties_exact, E.
Qed.

Lemma create_device_children_plenty cs dev n :
  forallb device_child_wf cs = true ->
  exists dev' n' t,
    create_device_children alloc_ok cs dev n = Done (Next dev') n' t.
Proof.
  revert dev n. induction cs as [|c next IH]; intros dev n Hwf; simpl in *.
  - eexists _, _, _. reflexivity.
  - apply andb_prop in Hwf. destruct Hwf as [Hc Hnext].
    unfold device_child_wf, named in Hc.
    destruct (node_name c =? "channel"); [|destruct (node_name c =? "attribute")].
    + destruct (create_channel_plenty (dev_addr dev) c n Hc)
        as (chn & n1 & t1 & E & _).
      rewrite (bind_run _ _ _ _ _ _ E).
      rewrite (bind_run _ _ _ _ _ _ (realloc_plenty _ _)).
      destruct (IH (set_dev_channels dev (dev_channels dev ++ [chn])) (S n1) Hnext)
        as (dev' & n' & t & ->).
      eexists _, _, _. reflexivity.
    + destruct (add_attr_to_device_plenty dev c n Hc) as (s & n1 & t1 & _ & E).
      rewrite (bind_run _ _ _ _ _ _ E). simpl.
      destruct (IH (set_dev_attrs dev (dev_attrs dev ++ [s])) n1 Hnext)
        as (dev' & n' & t & ->).
      eexists _, _, _. reflexivity.
    + destruct (node_name c =? "text"); simpl.
      * apply IH, Hnext.
      * unfold bind, log. destruct (IH dev n Hnext) as (dev' & n' & t & ->).
        eexists _, _, _. reflexivity.
Qed.

Lemma create_device_plenty ctx c n :
  device_wf c = true ->
  exists dev n' t,
    create_device alloc_ok ctx c n = Done (Some dev) n' t /\
    dev_name dev = property_value "name" c.
Proof.
  unfold device_wf. intros H. apply andb_prop in H. destruct H as [H Hcs].
  apply andb_prop in H. destruct H as [Hhas Hv].
  destruct (property_value_present _ _ Hhas (valued_key_valued _ _ Hv))
    as (id & Hid).
  unfold create_device. rewrite (bind_run _ _ _ _ _ _ (alloc_plenty n)).
  destruct (create_device_properties_plenty (node_properties c)
              (set_dev_ctx (calloc_device n) (Some ctx)) (S n) Hv)
    as (dev1 & n1 & E1 & Hid1 & Hname1).
  rewrite (bind_run _ _ _ _ _ _ E1). simpl in Hid1, Hname1.
  rewrite <- property_value_scan in Hid1, Hname1. rewrite Hid1, Hid.
  destruct (create_device_children_plenty (node_children c) dev1 n1 Hcs)
    as (dev2 & n2 & t2 & E2).
  rewrite (bind_run _ _ _ _ _ _ E2). simpl.
  eexists _, _, _. split; [reflexivity|].
  apply create_device_children_Done in E2. simpl in E2.
  destruct E2 as (_ & _ & -> & _). exact Hname1.
Qed.

Lemma context_children_plenty cs ctx n :
  forallb context_child_wf cs = true ->
  exists ctx' n' t,
    context_children alloc_ok cs ctx n = Done (Next ctx') n' t.
Proof.
  revert ctx n. induction cs as [|c next IH]; intros ctx n Hwf; simpl in *.
  - eexists _, _, _. reflexivity.
  - apply andb_prop in Hwf. destruct Hwf as [Hc Hnext].
    unfold context_child_wf, named in Hc.
    destruct (node_name c =? "device"); simpl.
    + destruct (create_device_plenty (ctx_addr ctx) c n Hc)
        as (dev & n1 & t1 & E & _).
      rewrite (bind_run _ _ _ _ _ _ E).
      rewrite (bind_run _ _ _ _ _ _ (realloc_plenty _ _)).
      destruct (IH (set_ctx_devices ctx (ctx_devices ctx ++ [dev])) (S n1) Hnext)
        as (ctx' & n' & t & ->).
      eexists _, _, _. reflexivity.
    + destruct (node_name c =? "text"); simpl.
      * apply IH, Hnext.
      * unfold bind, log. destruct (IH ctx n Hnext) as (ctx' & n' & t & ->).
        eexists _, _, _. reflexivity.
Qed.

Lemma iio_create_xml_context_helper_plenty doc n :
  document_wf doc = true ->
  exists ctx n' t,
    iio_create_xml_context_helper alloc_ok doc n = Done (Some ctx) n' t.
Proof.
  unfold document_wf, iio_create_xml_context_helper.
  destruct (xmlDocGetRootElement doc) as [root|]; [|discriminate].
  unfold context_wf, named. intros H. apply andb_prop in H.
  destruct H as [Hroot Hcs].
  rewrite (bind_run _ _ _ _ _ _ (alloc_plenty n)). rewrite Hroot. simpl.
  destruct (context_children_plenty (node_children root)
              (set_ctx_ops (set_ctx_name (calloc_context n) (Some "xml"))
                           (Some xml_ops)) (S n) Hcs)
    as (ctx' & n' & t & E).
  rewrite (bind_run _ _ _ _ _ _ E). simpl.
  eexists _, _, _. reflexivity.
Qed.

End Plenty.

(** ** Unknown content changes the warnings only *)

Lemma padded_refl t : padded t t.
Proof. induction t; constructor; assumption. Qed.

Lemma padded_app t1 t1' t2 t2' :
  padded t1 t1' -> padded t2 t2' -> padded (t1 ++ t2) (t1' ++ t2').
Proof.
  intros H1 H2. induction H1; simpl.
  - exact H2.
  - constructor. exact IHpadded.
  - constructor. exact IHpadded.
Qed.

Lemma padded_trans t1 t2 t3 : padded t1 t2 -> padded t2 t3 -> padded t1 t3.
Proof.
  intros H12 H23. revert t1 H12.
  induction H23 as [|e t2 t3 _ IH|fmt args t2 t3 _ IH]; intros t1 H12.
  - exact H12.
  - inversion H12; subst.
    + constructor. apply IH. assumption.
    + constructor. apply IH. assumption.
  - constructor. apply IH. exact H12.
Qed.

Lemma same_result_refl {A} (o : outcome A) : same_result o o.
Proof.
  destruct o; simpl; [exact I|]. repeat split. apply padded_refl.
Qed.

Lemma same_result_bind {A B} (m m' : M A) (k k' : A -> M B) n :
  same_result (m n) (m' n) ->
  (forall a n1, same_result (k a n1) (k' a n1)) ->
  same_result (bind m k n) (bind m' k' n).
Proof.
  unfold bind. intros Hm Hk.
  destruct (m n) as [|a n1 t1], (m' n) as [|a' n1' t1']; simpl in Hm;
    try contradiction; [exact I|].
  destruct Hm as (<- & <- & Hpad). specialize (Hk a n1).
  destruct (k a n1) as [|b n2 t2], (k' a n1) as [|b' n2' t2']; simpl in Hk;
    try contradiction; [exact I|].
  destruct Hk as (<- & <- & Hpad'). simpl. repeat split.
  apply padded_app; assumption.
Qed.

(** The same first step, then runs that differ by warnings. *)
Lemma same_result_bind_r {A B} (m : M A) (k k' : A -> M B) n :
  (forall a n1, same_result (k a n1) (k' a n1)) ->
  same_result (bind m k n) (bind m k' n).
Proof. intros Hk. apply same_result_bind; [apply same_result_refl|exact Hk]. Qed.

(** A warning first, then the same run. *)
Lemma same_result_warning {A} (m m' : M A) fmt args n :
  same_result (m n) (m' n) ->
  same_result (m n) ((log (WARNING fmt args);;; m') n).
Proof.
  unfold bind, log. intros H.
  destruct (m n) as [|a n1 t1], (m' n) as [|a' n1' t1']; simpl in *;
    try contradiction; [exact I|].
  destruct H as (<- & <- & Hpad). repeat split. constructor. exact Hpad.
Qed.

Lemma bind_ret {A B} (a : A) (k : A -> M B) n : bind (ret a) k n = k a n.
Proof. unfold bind, ret. destruct (k a n); reflexivity. Qed.

(** One step of a proof that two loops differ by warnings only: the
    same first step on both sides, or the same test. *)
Ltac sim_step IH :=
  match goal with
  | |- same_result (bind ?m _ _) (bind ?m _ _) =>
      apply same_result_bind_r; intros ? ?
  | |- same_result ((if ?b then _ else _) _) ((if ?b then _ else _) _) =>
      destruct b
  | |- same_result ((match ?x with Some _ => _ | None => _ end) _)
                   ((match ?x with Some _ => _ | None => _ end) _) =>
      destruct x
  | |- same_result ((let (_, _) := ?x in _) _) ((let (_, _) := ?x in _) _) =>
      destruct x
  | |- same_result ?o ?o => apply same_result_refl
  | |- _ => apply IH
  end.

Lemma extended_name k c c' : extended k c c' -> node_name c' = node_name c.
Proof. intros H. destruct H; reflexivity. Qed.

Section Tolerance.

Variable alloc_ok : nat -> bool.

Lemma add_attr_properties_inserted unknown a attr attr' name n :
  (attr_name a =? "name") = false ->
  (exists fmt args, unknown a = WARNING fmt args) ->
  inserted a attr attr' ->
  same_result (add_attr_properties alloc_ok unknown attr name n)
              (add_attr_properties alloc_ok unknown attr' name n).
Proof.
  intros Hname (fmt & args & Hu) Hins. revert name n.
  induction Hins as [l|y l l' _ IH]; intros name n.
  - simpl. rewrite Hname, Hu. apply same_result_warning, same_result_refl.
  - simpl. destruct (attr_name y =? "name").
    + apply same_result_bind_r. intros content n1.
      apply same_result_bind_r. intros name' n2. apply IH.
    + apply same_result_bind_r. intros _ n1. apply IH.
Qed.

Lemma add_attr_to_channel_extended chn c c' n :
  extended K_attribute c c' ->
  same_result (add_attr_to_channel alloc_ok chn c n)
              (add_attr_to_channel alloc_ok chn c' n).
Proof.
  intros H. inversion H; subst; try apply same_result_refl.
  unfold add_attr_to_channel. simpl node_properties.
  apply same_result_bind.
  - match goal with
    | Hu : unknown_property _ _ = true |- _ =>
        simpl in Hu; apply negb_true_iff in Hu
    end.
    eapply add_attr_properties_inserted; eauto.
  - intros r n1. apply same_result_refl.
Qed.

Lemma add_attr_to_device_extended dev c c' n :
  extended K_attribute c c' ->
  same_result (add_attr_to_device alloc_ok dev c n)
              (add_attr_to_device alloc_ok dev c' n).
Proof.
  intros H. inversion H; subst; try apply same_result_refl.
  unfold add_attr_to_device. simpl node_properties.
  apply same_result_bind.
  - match goal with
    | Hu : unknown_property _ _ = true |- _ =>
        simpl in Hu; apply negb_true_iff in Hu
    end.
    eapply add_attr_properties_inserted; eauto.
  - intros r n1. apply same_result_refl.
Qed.

Lemma create_channel_properties_inserted a attr attr' chn n :
  unknown_property K_channel a = true ->
  inserted a attr attr' ->
  same_result (create_channel_properties alloc_ok attr chn n)
              (create_channel_properties alloc_ok attr' chn n).
Proof.
  intros Hu Hins. simpl in Hu.
  apply andb_prop in Hu. destruct Hu as [Hu Hval].
  apply andb_prop in Hu. destruct Hu as [Hu Htype].
  apply andb_prop in Hu. destruct Hu as [Hname Hid].
  apply negb_true_iff in Hname, Hid, Htype.
  revert chn n. induction Hins as [l|y l l' _ IH]; intros chn n.
  - simpl. unfold attr_content.
    destruct (attr_children a) as [text|]; [|discriminate].
    rewrite bind_ret, Hname, Hid, Htype.
    apply same_result_warning, same_result_refl.
  - simpl. repeat sim_step IH.
Qed.

Lemma create_channel_children_inserted c cs cs' chn n :
  unknown_child K_channel c = true ->
  inserted c cs cs' ->
  same_result (create_channel_children alloc_ok cs chn n)
              (create_channel_children alloc_ok cs' chn n).
Proof.
  intros Hu Hins. unfold unknown_child in Hu. simpl in Hu.
  destruct (node_name c =? "attribute") eqn:Ename; [discriminate|].
  revert chn n. induction Hins as [l|y l l' _ IH]; intros chn n.
  - simpl. rewrite Ename. destruct (node_name c =? "text"); simpl.
    + apply same_result_refl.
    + apply same_result_warning, same_result_refl.
  - simpl. repeat sim_step IH.
Qed.

Lemma create_channel_children_extended cs cs' chn n :
  extended_in K_channel cs cs' ->
  same_result (create_channel_children alloc_ok cs chn n)
              (create_channel_children alloc_ok cs' chn n).
Proof.
  intros H. remember K_channel as k eqn:Ek. revert chn n.
  induction H as [k c c' next Hext|k c next next' _ IH]; intros chn n; subst k.
  - simpl. rewrite (extended_name _ _ _ Hext). simpl in Hext.
    destruct (node_name c =? "attribute").
    + apply same_result_bind.
      * apply add_attr_to_channel_extended, Hext.
      * intros r n1. apply same_result_refl.
    + apply same_result_refl.
  - simpl. specialize (IH eq_refl). repeat sim_step IH.
Qed.

Lemma create_channel_extended dev c c' n :
  extended K_channel c c' ->
  same_result (create_channel alloc_ok dev c n)
              (create_channel alloc_ok dev c' n).
Proof.
  intros H. inversion H; subst; unfold create_channel;
    simpl node_properties; simpl node_children.
  - apply same_result_bind_r. intros p n1. destruct p; [|apply same_result_refl].
    apply same_result_bind.
    + eapply create_channel_properties_inserted; eassumption.
    + intros r n2. apply same_result_refl.
  - apply same_result_bind_r. intros p n1. destruct p; [|apply same_result_refl].
    apply same_result_bind_r. intros chn n2.
    destruct (chn_id chn); [|apply same_result_refl].
    apply same_result_bind.
    + eapply create_channel_children_inserted; eassumption.
    + intros r n3. apply same_result_refl.
  - apply same_result_bind_r. intros p n1. destruct p; [|apply same_result_refl].
    apply same_result_bind_r. intros chn n2.
    destruct (chn_id chn); [|apply same_result_refl].
    apply same_result_bind.
    + apply create_channel_children_extended. assumption.
    + intros r n3. apply same_result_refl.
Qed.

Lemma create_device_properties_inserted a attr attr' dev n :
  unknown_property K_device a = true ->
  inserted a attr attr' ->
  same_result (create_device_properties alloc_ok attr dev n)
              (create_device_properties alloc_ok attr' dev n).
Proof.
  intros Hu Hins. simpl in Hu.
  apply andb_prop in Hu. destruct Hu as [Hname Hid].
  apply negb_true_iff in Hname, Hid.
  revert dev n. induction Hins as [l|y l l' _ IH]; intros dev n.
  - simpl. rewrite Hname, Hid. apply same_result_warning, same_result_refl.
  - simpl. repeat sim_step IH.
Qed.

Lemma create_device_children_inserted c cs cs' dev n :
  unknown_child K_device c = true ->
  inserted c cs cs' ->
  same_result (create_device_children alloc_ok cs dev n)
              (create_device_children alloc_ok cs' dev n).
Proof.
  intros Hu Hins. unfold unknown_child in Hu. simpl in Hu.
  destruct (node_name c =? "channel") eqn:Echn; [discriminate|].
  destruct (node_name c =? "attribute") eqn:Eattr; [discriminate|].
  revert dev n. induction Hins as [l|y l l' _ IH]; intros dev n.
  - simpl. rewrite Echn, Eattr. destruct (node_name c =? "text"); simpl.
    + apply same_result_refl.
    + apply same_result_warning, same_result_refl.
  - simpl. repeat sim_step IH.
Qed.

Lemma create_device_children_extended cs cs' dev n :
  extended_in K_device cs cs' ->
  same_result (create_device_children alloc_ok cs dev n)
              (create_device_children alloc_ok cs' dev n).
Proof.
  intros H. remember K_device as k eqn:Ek. revert dev n.
  induction H as [k c c' next Hext|k c next next' _ IH]; intros dev n; subst k.
  - simpl. rewrite (extended_name _ _ _ Hext). simpl in Hext.
    destruct (node_name c =? "channel");
      [|destruct (node_name c =? "attribute")].
    + apply same_result_bind.
      * apply create_channel_extended, Hext.
      * intros r n1. apply same_result_refl.
    + apply same_result_bind.
      * apply add_attr_to_device_extended, Hext.
      * intros r n1. apply same_result_refl.
    + apply same_result_refl.
  - simpl. specialize (IH eq_refl). repeat sim_step IH.
Qed.

Lemma create_device_extended ctx c c' n :
  extended K_device c c' ->
  same_result (create_device alloc_ok ctx c n)
              (create_device alloc_ok ctx c' n).
Proof.
  intros H. inversion H; subst; unfold create_device;
    simpl node_properties; simpl node_children.
  - apply same_result_bind_r. intros p n1. destruct p; [|apply same_result_refl].
    apply same_result_bind.
    + eapply create_device_properties_inserted; eassumption.
    + intros r n2. apply same_result_refl.
  - apply same_result_bind_r. intros p n1. destruct p; [|apply same_result_refl].
    apply same_result_bind_r. intros dev n2.
    destruct (dev_id dev); [|apply same_result_refl].
    apply same_result_bind.
    + eapply create_device_children_inserted; eassumption.
    + intros r n3. apply same_result_refl.
  - apply same_result_bind_r. intros p n1. destruct p; [|apply same_result_refl].
    apply same_result_bind_r. intros dev n2.
    destruct (dev_id dev); [|apply same_result_refl].
    apply same_result_bind.
    + apply create_device_children_extended. assumption.
    + intros r n3. apply same_result_refl.
Qed.

Lemma context_children_inserted c cs cs' ctx n :
  unknown_child K_context c = true ->
  inserted c cs cs' ->
  same_result (context_children alloc_ok cs ctx n)
              (context_children alloc_ok cs' ctx n).
Proof.
  intros Hu Hins. unfold unknown_child in Hu. simpl in Hu.
  destruct (node_name c =? "device") eqn:Edev; [discriminate|].
  revert ctx n. induction Hins as [l|y l l' _ IH]; intros ctx n.
  - simpl. rewrite Edev. simpl. destruct (node_name c =? "text"); simpl.
    + apply same_result_refl.
    + apply same_result_warning, same_result_refl.
  - simpl. repeat sim_step IH.
Qed.

Lemma context_children_extended cs cs' ctx n :
  extended_in K_context cs cs' ->
  same_result (context_children alloc_ok cs ctx n)
              (context_children alloc_ok cs' ctx n).
Proof.
  intros H. remember K_context as k eqn:Ek. revert ctx n.
  induction H as [k c c' next Hext|k c next next' _ IH]; intros ctx n; subst k.
  - simpl. rewrite (extended_name _ _ _ Hext). simpl in Hext.
    destruct (node_name c =? "device"); simpl.
    + apply same_result_bind.
      * apply create_device_extended, Hext.
      * intros r n1. apply same_result_refl.
    + apply same_result_refl.
  - simpl. specialize (IH eq_refl). repeat sim_step IH.
Qed.

Lemma iio_create_xml_context_helper_extended root root' n :
  extended K_context root root' ->
  same_result (iio_create_xml_context_helper alloc_ok (document root) n)
              (iio_create_xml_context_helper alloc_ok (document root') n).
Proof.
  intros H. inversion H; subst; unfold iio_create_xml_context_helper;
    cbn [xmlDocGetRootElement document node_name node_children].
  - apply same_result_refl.
  - apply same_result_bind_r. intros p n1. destruct p; [|apply same_result_refl].
    destruct (negb (name =? "context")); [apply same_result_refl|].
    apply same_result_bind.
    + eapply context_children_inserted; eassumption.
    + intros r n2. apply same_result_refl.
  - apply same_result_bind_r. intros p n1. destruct p; [|apply same_result_refl].
    destruct (negb (name =? "context")); [apply same_result_refl|].
    apply same_result_bind.
    + apply context_children_extended. assumption.
    + intros r n2. apply same_result_refl.
Qed.

End Tolerance.

(** ** What is released *)

Lemma emitted_In (P : event -> bool) t e :
  forallb P t = true -> In e t -> P e = true.
Proof. intros H Hin. rewrite forallb_forall in H. apply H, Hin. Qed.

Section Releases.

Variable alloc_ok : nat -> bool.

(** Every channel handed to [free_channel] points back to the device. *)
Lemma create_channel_releases dev c n r n' t chn :
  create_channel alloc_ok dev c n = Done r n' t ->
  In (FREE_CHANNEL chn) t -> chn_dev chn = Some dev.
Proof.
  unfold create_channel. intros H Hin. inv_bind H. inv_prim.
  destruct (alloc_ok n); [|inv_prim; simpl in Hin; contradiction].
  inv_bind H. simpl in Hin.
  pose proof (create_channel_properties_Done _ _ _ _ _ _ _ Hrun)
    as (_ & _ & Hdev & _).
  apply (emits_create_channel_properties alloc_ok keeps_objects) in Hrun;
    try reflexivity.
  destruct Hrun as [_ Hprops].
  apply in_app_or in Hin. destruct Hin as [Hin|Hin].
  { apply (emitted_In _ _ _ Hprops) in Hin. discriminate Hin. }
  destruct (chn_id a).
  - inv_bind H.
    pose proof (create_channel_children_Done _ _ _ _ _ _ _ Hrun)
      as (_ & Hdev' & _).
    apply (emits_create_channel_children alloc_ok keeps_objects) in Hrun;
      try reflexivity.
    destruct Hrun as [_ Hchildren].
    apply in_app_or in Hin. destruct Hin as [Hin|Hin].
    { apply (emitted_In _ _ _ Hchildren) in Hin. discriminate Hin. }
    destruct a0 as [chn'|chn']; inv_prim; simpl in Hin.
    + contradiction.
    + destruct Hin as [Hin|[]]. injection Hin as <-. simpl in *. congruence.
  - inv_prim. simpl in Hin. destruct Hin as [Hin|[Hin|[]]]; [discriminate|].
    injection Hin as <-. exact Hdev.
Qed.

(** Every device handed to [free_device] points back to the context,
    and its channels to it. *)
Lemma create_device_releases ctx c n r n' t dev :
  create_device alloc_ok ctx c n = Done r n' t ->
  In (FREE_DEVICE dev) t -> device_linked ctx dev.
Proof.
  unfold create_device. intros H Hin. inv_bind H. inv_prim.
  destruct (alloc_ok n); [|inv_prim; simpl in Hin; contradiction].
  inv_bind H. simpl in Hin.
  pose proof (create_device_properties_Done _ _ _ _ _ _ _ Hrun)
    as (_ & _ & Hctx & _ & Hchns & _).
  apply (emits_create_device_properties alloc_ok keeps_objects) in Hrun;
    try reflexivity.
  destruct Hrun as [_ Hprops].
  apply in_app_or in Hin. destruct Hin as [Hin|Hin].
  { apply (emitted_In _ _ _ Hprops) in Hin. discriminate Hin. }
  destruct (dev_id a).
  - inv_bind H.
    pose proof (create_device_children_Done _ _ _ _ _ _ _ Hrun)
      as (Haddr' & Hctx' & _ & _ & (new & Hnew & Hlinked) & _).
    apply (emits_create_device_children alloc_ok keeps_devices) in Hrun;
      try reflexivity.
    destruct Hrun as [_ Hchildren].
    apply in_app_or in Hin. destruct Hin as [Hin|Hin].
    { apply (emitted_In _ _ _ Hchildren) in Hin. discriminate Hin. }
    destruct a0 as [dev'|dev']; inv_prim; simpl in Hin.
    + contradiction.
    + destruct Hin as [Hin|[]]. injection Hin as <-. simpl in *.
      split; [congruence|]. rewrite Hnew, Hchns, Haddr'. exact Hlinked.
  - inv_prim. simpl in Hin. destruct Hin as [Hin|[Hin|[]]]; [discriminate|].
    injection Hin as <-. split; [exact Hctx|]. rewrite Hchns. constructor.
Qed.

Lemma context_children_releases cs ctx n f n' t dev :
  context_children alloc_ok cs ctx n = Done f n' t ->
  In (FREE_DEVICE dev) t -> device_linked (ctx_addr ctx) dev.
Proof.
  revert ctx n f n' t.
  induction cs as [|c next IH]; intros ctx n f n' t H Hin; simpl in H.
  - inv_ret H. contradiction.
  - destruct (node_name c =? "device"); simpl in H.
    + inv_bind H. apply in_app_or in Hin. destruct Hin as [Hin|Hin].
      { eapply create_device_releases; eassumption. }
      destruct a as [dev'|].
      * inv_bind H. inv_prim. simpl in Hin. destruct (alloc_ok n0).
        -- eapply (IH _ _ _ _ _ H) in Hin. exact Hin.
        -- inv_prim. simpl in Hin. destruct Hin as [Hin|[Hin|[]]]; discriminate.
      * inv_prim. simpl in Hin. destruct Hin as [Hin|[]]. discriminate.
    + destruct (node_name c =? "text"); simpl in H.
      * eapply IH; eassumption.
      * inv_bind H. inv_prim. simpl in Hin. destruct Hin as [Hin|Hin]; [discriminate|].
        eapply IH; eassumption.
Qed.

Lemma iio_create_xml_context_helper_releases doc n r n' t dev :
  iio_create_xml_context_helper alloc_ok doc n = Done r n' t ->
  In (FREE_DEVICE dev) t -> device_linked n dev.
Proof.
  unfold iio_create_xml_context_helper. intros H Hin. inv_bind H. inv_prim.
  destruct (alloc_ok n); [|inv_prim; simpl in Hin; contradiction].
  destruct (xmlDocGetRootElement doc) as [root|]; [|discriminate].
  simpl in Hin.
  destruct (negb (node_name root =? "context")).
  { inv_prim. simpl in Hin. destruct Hin as [Hin|[Hin|[]]]; discriminate. }
  inv_bind H.
  pose proof (context_children_Done _ _ _ _ _ _ _ Hrun)
    as (_ & _ & _ & (new & Hnew & Hlinked) & _).
  apply in_app_or in Hin. destruct Hin as [Hin|Hin].
  { eapply context_children_releases in Hin; [|eassumption]. exact Hin. }
  destruct a as [ctx|ctx]; [inv_ret H; contradiction|].
  inv_bind H. apply free_devices_Done in Hrun0. destruct Hrun0 as [-> ->].
  apply in_app_or in Hin. destruct Hin as [Hin|Hin].
  - apply in_map_iff in Hin. destruct Hin as (d & E & Hd). injection E as ->.
    simpl in Hnew, Hlinked. rewrite Hnew in Hd. rewrite Forall_forall in Hlinked.
    apply Hlinked, Hd.
  - destruct (0 <? ctx_nb_devices ctx)%nat; inv_prim; simpl in Hin.
    + destruct Hin as [Hin|[Hin|[]]]; discriminate.
    + destruct Hin as [Hin|[]]; discriminate.
Qed.

(** ** A device without [id] makes the whole build fail *)

Lemma create_device_missing_id ctx c n :
  has_property "id" c = false ->
  forallb attr_valued (node_properties c) = true ->
  exists n' t, create_device alloc_ok ctx c n = Done None n' t.
Proof.
  intros Hid Hv. unfold create_device.
  rewrite (bind_run _ _ _ _ _ _ eq_refl).
  destruct (alloc_ok n); [|eexists _, _; reflexivity].
  destruct (create_device_properties alloc_ok (node_properties c)
              (set_dev_ctx (calloc_device n) (Some ctx)) (S n))
    as [|dev n1 t1] eqn:E.
  { exfalso. exact (create_device_properties_safe _ _ _ _ Hv E). }
  rewrite (bind_run _ _ _ _ _ _ E).
  apply create_device_properties_Done in E.
  destruct E as (_ & _ & _ & _ & _ & Hdev & _). simpl in Hdev.
  unfold has_property in Hid. unfold scan_result in Hdev.
  destruct (last_property "id" (node_properties c)); [discriminate|].
  assert (E : dev_id dev = None) by (destruct Hdev; assumption).
  rewrite E. eexists _, _. reflexivity.
Qed.

(** The child loop, cut after its first children. *)
Lemma context_children_app pre rest ctx n ctx1 n1 t1 :
  context_children alloc_ok pre ctx n = Done (Next ctx1) n1 t1 ->
  context_children alloc_ok (pre ++ rest) ctx n
  = match context_children alloc_ok rest ctx1 n1 with
    | Crash => Crash
    | Done f n2 t2 => Done f n2 (t1 ++ t2)
    end.
Proof.
  revert ctx n ctx1 n1 t1.
  induction pre as [|c next IH]; intros ctx n ctx1 n1 t1 H; simpl in H |- *.
  - inv_ret H. inv_eqs. destruct (context_children alloc_ok rest _ _); reflexivity.
  - destruct (node_name c =? "device"); simpl in H |- *.
    + inv_bind H. rewrite (bind_run _ _ _ _ _ _ Hrun).
      destruct a as [dev|]; [|inv_prim; inv_eqs].
      inv_bind H. rewrite (bind_run _ _ _ _ _ _ Hrun0).
      destruct a as [devs|]; [|inv_prim; inv_eqs].
      rewrite (IH _ _ _ _ _ H).
      destruct (context_children alloc_ok rest ctx1 n1); [reflexivity|].
      rewrite !app_assoc. reflexivity.
    + destruct (node_name c =? "text"); simpl in H |- *.
      * apply IH, H.
      * inv_bind H. inv_prim. unfold bind at 1, log.
        rewrite (IH _ _ _ _ _ H).
        destruct (context_children alloc_ok rest ctx1 n1); reflexivity.
Qed.

Lemma context_children_missing_id pre bad post ctx n :
  forallb node_valued (pre ++ bad :: post) = true ->
  node_name bad = "device" ->
  has_property "id" bad = false ->
  exists ctx' n' t,
    context_children alloc_ok (pre ++ bad :: post) ctx n = Done (Goto ctx') n' t.
Proof.
  intros Hv Hname Hid. revert ctx n.
  induction pre as [|c next IH]; intros ctx n; simpl in Hv |- *;
    apply andb_prop in Hv; destruct Hv as [Hc Hnext].
  - rewrite Hname. simpl.
    destruct (create_device_missing_id (ctx_addr ctx) bad n Hid
                (node_valued_properties _ Hc)) as (n' & t & E).
    rewrite (bind_run _ _ _ _ _ _ E). simpl. eexists _, _, _. reflexivity.
  - specialize (IH Hnext).
    destruct (node_name c =? "device"); simpl.
    + destruct (create_device alloc_ok (ctx_addr ctx) c n) as [|r n1 t1] eqn:E.
      { exfalso. exact (create_device_safe _ _ _ _ Hc E). }
      rewrite (bind_run _ _ _ _ _ _ E).
      destruct r as [dev|]; [|eexists _, _, _; reflexivity].
      rewrite (bind_run _ _ _ _ _ _ eq_refl). unfold realloc, bind at 1, alloc, ret.
      destruct (alloc_ok n1); simpl; [|eexists _, _, _; reflexivity].
      destruct (IH (set_ctx_devices ctx (ctx_devices ctx ++ [dev])) (S n1))
        as (ctx' & n' & t & ->).
      eexists _, _, _. reflexivity.
    + destruct (node_name c =? "text"); simpl.
      * apply IH.
      * unfold bind, log. destruct (IH ctx n) as (ctx' & n' & t & ->).
        eexists _, _, _. reflexivity.
Qed.

End Releases.

(** ** The trace of a build that succeeds *)

Section Warnings.

Variable alloc_ok : nat -> bool.

Lemma add_attr_to_channel_trace chn c n chn' n' t :
  add_attr_to_channel alloc_ok chn c n = Done (0%Z, chn') n' t ->
  t = attribute_warnings "Unknown field '%s' in channel %s" (chn_id chn) c.
Proof.
  unfold add_attr_to_channel. intros H. inv_bind H.
  apply add_attr_properties_Done in Hrun. destruct Hrun as (_ & -> & _).
  destruct a; inv_prim; inv_eqs.
  destruct (alloc_ok n0); inv_prim; inv_eqs.
  rewrite !app_nil_r. reflexivity.
Qed.

Lemma add_attr_to_device_trace dev c n dev' n' t :
  add_attr_to_device alloc_ok dev c n = Done (0%Z, dev') n' t ->
  t = attribute_warnings "Unknown field '%s' in device %s" (dev_id dev) c.
Proof.
  unfold add_attr_to_device. intros H. inv_bind H.
  apply add_attr_properties_Done in Hrun. destruct Hrun as (_ & -> & _).
  destruct a; inv_prim; inv_eqs.
  destruct (alloc_ok n0); inv_prim; inv_eqs.
  rewrite !app_nil_r. reflexivity.
Qed.

Lemma create_channel_children_trace cs chn n chn' n' t :
  create_channel_children alloc_ok cs chn n = Done (Next chn') n' t ->
  t = flat_map (channel_child_warnings (chn_id chn)) cs.
Proof.
  revert chn n chn' n' t.
  induction cs as [|c next IH]; intros chn n chn' n' t H; simpl in H.
  - inv_ret H. reflexivity.
  - cbn [flat_map]. unfold channel_child_warnings at 1.
    destruct (node_name c =? "attribute").
    + inv_bind H. destruct a as [status chn1].
      pose proof (add_attr_to_channel_Done _ _ _ _ _ _ _ _ Hrun)
        as [(-> & s & _ & ->)|(-> & _)]; simpl in H; [|inv_ret H; inv_eqs].
      apply add_attr_to_channel_trace in Hrun. subst t0.
      apply IH in H. simpl in H. rewrite H. reflexivity.
    + destruct (node_name c =? "text"); simpl in H.
      * apply IH in H. exact H.
      * inv_bind H. inv_prim. apply IH in H. rewrite H. reflexivity.
Qed.

Lemma create_channel_trace dev c n chn n' t :
  create_channel alloc_ok dev c n = Done (Some chn) n' t ->
  t = channel_warnings c.
Proof.
  unfold create_channel. intros H. inv_bind H. inv_prim.
  destruct (alloc_ok n); [|inv_prim; inv_eqs].
  inv_bind H. apply create_channel_properties_Done in Hrun. simpl in Hrun.
  destruct Hrun as (_ & _ & _ & _ & Hid & _ & _ & ->).
  destruct (chn_id a) as [id|] eqn:Eid; [|inv_prim; inv_eqs].
  inv_bind H. destruct a0 as [chn'|chn']; [|inv_prim; inv_eqs].
  apply create_channel_children_trace in Hrun. inv_ret H. inv_eqs.
  unfold channel_warnings. rewrite Eid, property_value_scan. simpl.
  rewrite app_nil_r. destruct Hid as [Hid|Hid]; [discriminate|].
  rewrite <- Hid. reflexivity.
Qed.

Lemma create_device_children_trace cs dev n dev' n' t :
  create_device_children alloc_ok cs dev n = Done (Next dev') n' t ->
  t = flat_map (device_child_warnings (dev_id dev)) cs.
Proof.
  revert dev n dev' n' t.
  induction cs as [|c next IH]; intros dev n dev' n' t H; simpl in H.
  - inv_ret H. reflexivity.
  - cbn [flat_map]. unfold device_child_warnings at 1.
    destruct (node_name c =? "channel");
      [|destruct (node_name c =? "attribute")].
    + inv_bind H. destruct a as [chn|]; [|inv_prim; inv_eqs].
      apply create_channel_trace in Hrun. subst t0.
      inv_bind H. inv_prim. destruct (alloc_ok n0); [|inv_prim; inv_eqs].
      apply IH in H. simpl in H. rewrite H. reflexivity.
    + inv_bind H. destruct a as [status dev1].
      pose proof (add_attr_to_device_Done _ _ _ _ _ _ _ _ Hrun)
        as [(-> & s & _ & ->)|(-> & _)]; simpl in H; [|inv_ret H; inv_eqs].
      apply add_attr_to_device_trace in Hrun. subst t0.
      apply IH in H. simpl in H. rewrite H. reflexivity.
    + destruct (node_name c =? "text"); simpl in H.
      * apply IH in H. exact H.
      * inv_bind H. inv_prim. apply IH in H. rewrite H. reflexivity.
Qed.

Lemma create_device_trace ctx c n dev n' t :
  create_device alloc_ok ctx c n = Done (Some dev) n' t ->
  t = device_warnings c.
Proof.
  unfold create_device. intros H. inv_bind H. inv_prim.
  destruct (alloc_ok n); [|inv_prim; inv_eqs].
  inv_bind H. apply create_device_properties_Done in Hrun. simpl in Hrun.
  destruct Hrun as (_ & _ & _ & _ & _ & Hid & _ & ->).
  destruct (dev_id a) as [id|] eqn:Eid; [|inv_prim; inv_eqs].
  inv_bind H. destruct a0 as [dev'|dev']; [|inv_prim; inv_eqs].
  apply create_device_children_trace in Hrun. inv_ret H. inv_eqs.
  unfold device_warnings. rewrite Eid, property_value_scan. simpl.
  rewrite app_nil_r. destruct Hid as [Hid|Hid]; [discriminate|].
  rewrite <- Hid. reflexivity.
Qed.

Lemma context_children_trace cs ctx n ctx' n' t :
  context_children alloc_ok cs ctx n = Done (Next ctx') n' t ->
  t = flat_map context_child_warnings cs.
Proof.
  revert ctx n ctx' n' t.
  induction cs as [|c next IH]; intros ctx n ctx' n' t H; simpl in H.
  - inv_ret H. reflexivity.
  - cbn [flat_map]. unfold context_child_warnings at 1.
    destruct (node_name c =? "device"); simpl in H.
    + inv_bind H. destruct a as [dev|]; [|inv_prim; inv_eqs].
      apply create_device_trace in Hrun. subst t0.
      inv_bind H. inv_prim. destruct (alloc_ok n0); [|inv_prim; inv_eqs].
      apply IH in H. simpl in H. rewrite H. reflexivity.
    + destruct (node_name c =? "text"); simpl in H.
      * apply IH in H. exact H.
      * inv_bind H. inv_prim. apply IH in H. rewrite H. reflexivity.
Qed.

(** A build that succeeds says exactly what the document deserves. *)
Lemma iio_create_xml_context_helper_trace root n ctx n' t :
  iio_create_xml_context_helper alloc_ok (document root) n
  = Done (Some ctx) n' t ->
  t = context_warnings root.
Proof.
  unfold iio_create_xml_context_helper. simpl. intros H. inv_bind H. inv_prim.
  destruct (alloc_ok n); [|inv_prim; inv_eqs].
  destruct (negb (node_name root =? "context")); [inv_prim; inv_eqs|].
  inv_bind H. destruct a as [ctx'|ctx']; [|inv_prim; inv_eqs].
  apply context_children_trace in Hrun. subst t. inv_ret H.
  simpl. rewrite app_nil_r. reflexivity.
Qed.

End Warnings.

(** * The claims *)

(** ** The two scenarios of the specification, run *)

Example scenario_A_built :
  iio_create_xml_context_helper plenty scenario_A 0
  = Done (Some
      {| ctx_addr := 0; ctx_name := Some "xml"; ctx_ops := Some xml_ops;
         ctx_devices :=
           [{| dev_addr := 1; dev_ctx := Some 0; dev_name := None;
               dev_id := Some "dev0"; dev_attrs := ["calibbias"];
               dev_channels :=
                 [{| chn_addr := 3; chn_dev := Some 1; chn_name := None;
                     chn_id := Some "voltage0"; chn_is_output := true;
                     chn_attrs := ["scale"] |}] |}] |})
      11 [].
Proof. reflexivity. Qed.

Example scenario_B_fails :
  iio_create_xml_context_helper plenty scenario_B 0
  = Done None 2
      [ERROR "Unable to read device ID" [];
       FREE_DEVICE (set_dev_ctx (calloc_device 1) (Some 0));
       ERROR "Unable to create device" [];
       FREE (Ctx (context_at 0))].
Proof. reflexivity. Qed.

(** C1.  Rollback on a missing device id: when a [device] child of the
    root has no [id] property, the helper and both entry points return
    no result, whatever came before it; and every device the walk over
    the earlier children had put into the context is handed to
    [free_device]. *)
Theorem rollback_on_missing_device_id
    alloc_ok xmlReadFile xmlReadMemory doc root pre bad post n :
  xmlDocGetRootElement doc = Some root ->
  node_name root = "context" ->
  node_valued root = true ->
  node_children root = pre ++ bad :: post ->
  node_name bad = "device" ->
  has_property "id" bad = false ->
  (exists n' t,
     iio_create_xml_context_helper alloc_ok doc n = Done None n' t /\
     forall ctx1 n1 t1,
       alloc_ok n = true ->
       context_children alloc_ok pre (context_at n) (S n)
       = Done (Next ctx1) n1 t1 ->
       Forall (fun dev => In (FREE_DEVICE dev) t) (ctx_devices ctx1)) /\
  (forall xml_file,
     xmlReadFile xml_file None XML_PARSE_DTDVALID = Some doc ->
     exists n' t,
       iio_create_xml_context alloc_ok xmlReadFile xml_file n = Done None n' t) /\
  (forall xml len,
     xmlReadMemory xml len None None XML_PARSE_DTDVALID = Some doc ->
     exists n' t,
       iio_create_xml_context_mem alloc_ok xmlReadMemory xml len n
       = Done None n' t).
Proof.
  intros Hroot Hname Hv Hcs Hbad Hid.
  assert (Hhelper : exists n' t,
    iio_create_xml_context_helper alloc_ok doc n = Done None n' t /\
    forall ctx1 n1 t1,
      alloc_ok n = true ->
      context_children alloc_ok pre (context_at n) (S n)
      = Done (Next ctx1) n1 t1 ->
      Forall (fun dev => In (FREE_DEVICE dev) t) (ctx_devices ctx1)).
  { unfold iio_create_xml_context_helper.
    rewrite (bind_run _ _ _ _ _ _ eq_refl). rewrite Hroot.
    destruct (alloc_ok n) eqn:Halloc.
    2:{ eexists _, _. split; [reflexivity|]. intros; discriminate. }
    rewrite Hname. simpl. fold (context_at n).
    apply node_valued_children in Hv. rewrite Hcs in *.
    destruct (context_children_missing_id alloc_ok pre bad post (context_at n)
                (S n) Hv Hbad Hid) as (ctx' & n' & t & E).
    rewrite (bind_run _ _ _ _ _ _ E).
    destruct (free_devices (ctx_devices ctx') n') as [|u n2 t2] eqn:Efree.
    { exfalso. exact (free_devices_safe _ _ Efree). }
    rewrite (bind_run _ _ _ _ _ _ Efree).
    apply free_devices_Done in Efree. destruct Efree as [-> ->].
    assert (Hrest : exists t3,
      ((if (0 <? ctx_nb_devices ctx')%nat
        then free (Devices (ctx_devices ctx')) else ret tt);;;
       free (Ctx ctx');;; ret None) n' = Done (@None iio_context) n' t3).
    { destruct (0 <? ctx_nb_devices ctx')%nat; eexists; reflexivity. }
    destruct Hrest as (t3 & ->). simpl.
    eexists _, _. split; [reflexivity|].
    intros ctx1 n1 t1 _ Hpre.
    rewrite (context_children_app _ _ _ _ _ _ _ _ Hpre) in E.
    destruct (context_children alloc_ok (bad :: post) ctx1 n1)
      as [|f n3 t4] eqn:Erest; [discriminate|].
    injection E as -> -> <-.
    apply context_children_Done in Erest. simpl in Erest.
    destruct Erest as (_ & _ & _ & (new & -> & _) & _).
    apply Forall_forall. intros dev Hdev.
    apply in_or_app. right. apply in_or_app. left.
    apply in_map, in_or_app. left. exact Hdev. }
  split; [exact Hhelper|].
  destruct Hhelper as (n' & t & E & _).
  split.
  - intros xml_file Hparse. unfold iio_create_xml_context.
    rewrite Hparse. unfold bind at 1, log.
    rewrite (bind_run _ _ _ _ _ _ E). simpl. eexists _, _. reflexivity.
  - intros xml len Hparse. unfold iio_create_xml_context_mem.
    rewrite Hparse. unfold bind at 1, log.
    rewrite (bind_run _ _ _ _ _ _ E). simpl. eexists _, _. reflexivity.
Qed.

Lemma Forall2_In_r {A B} (R : A -> B -> Prop) l l' y :
  Forall2 R l l' -> In y l' -> exists x, In x l /\ R x y.
Proof.
  induction 1 as [|x y' l l' Hxy _ IH]; intros Hin; [contradiction|].
  destruct Hin as [<-|Hin].
  - exists x. split; [left; reflexivity|exact Hxy].
  - destruct (IH Hin) as (x' & Hx' & HR). exists x'. split; [right|]; assumption.
Qed.

Lemma map_Some_length {A} (l : list A) (l' : list (option A)) :
  map Some l = l' -> length l = length l'.
Proof. intros <-. rewrite length_map. reflexivity. Qed.

(** C2.  Round-trip structure: for a well-formed document with [N]
    devices, each with [M] channels and [K] attributes, each channel
    with [J] attributes, whatever context the helper returns has the
    [N] devices in document order, each with its [K] attribute names
    and [M] channels in document order, each channel with its [J]
    attribute names in document order ([context_built] is that
    correspondence, position by position); and with memory to spare the
    helper does return one. *)
Theorem round_trip_structure alloc_ok doc root N M K J n :
  xmlDocGetRootElement doc = Some root ->
  document_wf doc = true ->
  length (devices_of root) = N ->
  (forall d, In d (devices_of root) ->
     length (channels_of d) = M /\ length (attributes_of d) = K /\
     forall c, In c (channels_of d) -> length (attributes_of c) = J) ->
  (forall ctx n' t,
     iio_create_xml_context_helper alloc_ok doc n = Done (Some ctx) n' t ->
     context_built root ctx /\
     length (ctx_devices ctx) = N /\
     forall dev, In dev (ctx_devices ctx) ->
       length (dev_attrs dev) = K /\ length (dev_channels dev) = M /\
       forall chn, In chn (dev_channels dev) -> length (chn_attrs chn) = J) /\
  ((forall i, alloc_ok i = true) ->
   exists ctx n' t,
     iio_create_xml_context_helper alloc_ok doc n = Done (Some ctx) n' t).
Proof.
  intros Hroot Hwf HN Hshape. split.
  - intros ctx n' t H. apply iio_create_xml_context_helper_Done in H.
    destruct H as (root' & Hroot' & _ & Hbuilt & _).
    rewrite Hroot in Hroot'. injection Hroot' as <-.
    split; [exact Hbuilt|]. destruct Hbuilt as (_ & _ & Hdevs).
    split.
    { rewrite <- HN. symmetry. eapply Forall2_length, Hdevs. }
    intros dev Hdev.
    destruct (Forall2_In_r _ _ _ _ Hdevs Hdev) as (d & Hd & Hbuilt).
    destruct (Hshape d Hd) as (HM & HK & HJ).
    destruct Hbuilt as (_ & _ & _ & Hattrs & Hchns).
    split.
    { rewrite (map_Some_length _ _ Hattrs). unfold attribute_names.
      rewrite length_map. exact HK. }
    split.
    { rewrite <- HM. symmetry. eapply Forall2_length, Hchns. }
    intros chn Hchn.
    destruct (Forall2_In_r _ _ _ _ Hchns Hchn) as (c & Hc & Hcbuilt).
    destruct Hcbuilt as (_ & _ & _ & _ & Hcattrs).
    rewrite (map_Some_length _ _ Hcattrs). unfold attribute_names.
    rewrite length_map. exact (HJ c Hc).
  - intros Hplenty. apply iio_create_xml_context_helper_plenty; assumption.
Qed.

(** C3.  Root tag validation: when the root element is not called
    [context], the helper returns no result after a single allocation
    request, the one for the context itself, which it releases; nothing
    else happens, whatever the children of the root are. *)
Theorem root_tag_validation alloc_ok doc root n :
  xmlDocGetRootElement doc = Some root ->
  node_name root <> "context" ->
  iio_create_xml_context_helper alloc_ok doc n
  = Done None (S n)
      (if alloc_ok n
       then [ERROR "Unrecognized XML file" []; FREE (Ctx (context_at n))]
       else []).
Proof.
  intros Hroot Hname. unfold iio_create_xml_context_helper.
  rewrite (bind_run _ _ _ _ _ _ eq_refl). rewrite Hroot.
  destruct (alloc_ok n); [|reflexivity].
  apply String.eqb_neq in Hname. rewrite Hname. reflexivity.
Qed.











Lemma last_property_None key attr a :
  last_property key attr = None -> In a attr -> (attr_name a =? key) = false.
Proof.
  induction attr as [|b next IH]; simpl; [contradiction|].
  destruct (last_property key next); [discriminate|].
  destruct (attr_name b =? key) eqn:E; [discriminate|].
  intros _ [<-|Hin]; [exact E|apply IH; [reflexivity|exact Hin]].
Qed.

Lemma existsb_type_output_false attr :
  (forall a, In a attr -> attr_name a = "type" -> attr_value a <> Some "output") ->
  existsb type_output attr = false.
Proof.
  intros H. apply not_true_is_false. intros E.
  apply existsb_exists in E. destruct E as (a & Hin & Ha).
  unfold type_output in Ha. apply andb_prop in Ha. destruct Ha as [Hname Hval].
  apply String.eqb_eq in Hname. specialize (H a Hin Hname).
  destruct (attr_value a) as [v|]; [|discriminate].
  apply String.eqb_eq in Hval. subst v. apply H. reflexivity.
Qed.

Lemma In_flat_map_event {A} (f : A -> list event) l a e :
  In a l -> In e (f a) -> In e (flat_map f l).
Proof. intros Ha He. apply in_flat_map. exists a. split; assumption. Qed.

(** C5.  Direction of a channel that was built: input when the node
    has no [type] property; output when a [type] property says
    [output]; and a [type] property with any value other than [output]
    and [input] puts the warning into the trace and leaves the
    direction alone, so that the channel is an input unless another
    [type] property says [output]. *)
Theorem channel_direction alloc_ok dev c n chn n' t :
  create_channel alloc_ok dev c n = Done (Some chn) n' t ->
  (has_property "type" c = false -> chn_is_output chn = false) /\
  (forall a, In a (node_properties c) ->
     attr_name a = "type" -> attr_value a = Some "output" ->
     chn_is_output chn = true) /\
  (forall a v, In a (node_properties c) ->
     attr_name a = "type" -> attr_value a = Some v ->
     v <> "output" -> v <> "input" ->
     In (WARNING "Unknown channel type %s" [Some v]) t /\
     ((forall b, In b (node_properties c) -> attr_name b = "type" ->
                 attr_value b <> Some "output") ->
      chn_is_output chn = false)).
Proof.
  intros H. apply create_channel_Done in H.
  destruct H as ((_ & _ & _ & Hout & _) & _ & _ & (t' & ->)).
  split; [|split].
  - intros Htype. rewrite Hout. apply existsb_type_output_false.
    intros a Hin Hname. unfold has_property in Htype.
    destruct (last_property "type" (node_properties c)) eqn:E; [discriminate|].
    apply (last_property_None _ _ _ E) in Hin. apply String.eqb_neq in Hin.
    contradiction.
  - intros a Hin Hname Hval. rewrite Hout. apply existsb_exists.
    exists a. split; [exact Hin|]. unfold type_output. rewrite Hname, Hval.
    reflexivity.
  - intros a v Hin Hname Hval Hnot_out Hnot_in. split.
    + apply in_or_app. left. apply (In_flat_map_event _ _ a); [exact Hin|].
      unfold channel_property_events. rewrite Hname, Hval. simpl.
      apply String.eqb_neq in Hnot_out, Hnot_in. rewrite Hnot_out, Hnot_in.
      left. reflexivity.
    + intros Hnone. rewrite Hout. apply existsb_type_output_false, Hnone.
Qed.

Section Collector.

Variable alloc_ok : nat -> bool.

Lemma add_attr_properties_no_name unknown attr name n :
  last_property "name" attr = None ->
  add_attr_properties alloc_ok unknown attr name n
  = Done name n (map unknown attr).
Proof.
  revert name n. induction attr as [|a next IH]; intros name n; simpl.
  - reflexivity.
  - destruct (last_property "name" next); [discriminate|].
    destruct (attr_name a =? "name"); [discriminate|].
    intros _. unfold bind, log. rewrite (IH name n eq_refl). reflexivity.
Qed.

Lemma add_attr_to_channel_no_name chn c n :
  has_property "name" c = false ->
  add_attr_to_channel alloc_ok chn c n
  = Done ((-1)%Z, chn) n
      (map (fun a => WARNING "Unknown field '%s' in channel %s"
                             [Some (attr_name a); chn_id chn])
           (node_properties c)
       ++ [ERROR "Incomplete attribute in channel %s" [chn_id chn]]).
Proof.
  unfold has_property. intros H.
  destruct (last_property "name" (node_properties c)) eqn:E; [discriminate|].
  unfold add_attr_to_channel.
  rewrite (bind_run _ _ _ _ _ _ (add_attr_properties_no_name _ _ _ _ E)).
  reflexivity.
Qed.

Lemma add_attr_to_device_no_name dev c n :
  has_property "name" c = false ->
  add_attr_to_device alloc_ok dev c n
  = Done ((-1)%Z, dev) n
      (map (fun a => WARNING "Unknown field '%s' in device %s"
                             [Some (attr_name a); dev_id dev])
           (node_properties c)
       ++ [ERROR "Incomplete attribute in device %s" [dev_id dev]]).
Proof.
  unfold has_property. intros H.
  destruct (last_property "name" (node_properties c)) eqn:E; [discriminate|].
  unfold add_attr_to_device.
  rewrite (bind_run _ _ _ _ _ _ (add_attr_properties_no_name _ _ _ _ E)).
  reflexivity.
Qed.

End Collector.

(** C6, as the code has it.  Without a [name] property the call fails,
    with the error in the trace, no allocation request and the owner
    unchanged.  With a [name] property, every [name] property carrying
    a value and the allocation requests granted (the copy of the name,
    the growth of the list), the call succeeds and the owner's list is
    the old one followed by the value of the last [name] property.  In
    every case the call either appends exactly that one name or leaves
    the owner as it was. *)
Theorem attribute_collector alloc_ok chn dev c n :
  (has_property "name" c = false ->
   (exists t,
      add_attr_to_channel alloc_ok chn c n = Done ((-1)%Z, chn) n t /\
      In (ERROR "Incomplete attribute in channel %s" [chn_id chn]) t) /\
   (exists t,
      add_attr_to_device alloc_ok dev c n = Done ((-1)%Z, dev) n t /\
      In (ERROR "Incomplete attribute in device %s" [dev_id dev]) t)) /\
  (has_property "name" c = true ->
   key_valued "name" (node_properties c) = true ->
   (forall i, alloc_ok i = true) ->
   exists s,
     property_value "name" c = Some s /\
     (exists n' t,
        add_attr_to_channel alloc_ok chn c n
        = Done (0%Z, set_chn_attrs chn (chn_attrs chn ++ [s])) n' t) /\
     (exists n' t,
        add_attr_to_device alloc_ok dev c n
        = Done (0%Z, set_dev_attrs dev (dev_attrs dev ++ [s])) n' t)) /\
  (forall status chn' n' t,
     add_attr_to_channel alloc_ok chn c n = Done (status, chn') n' t ->
     (status = 0%Z /\
      exists s, property_value "name" c = Some s /\
                chn' = set_chn_attrs chn (chn_attrs chn ++ [s])) \/
     (status = (-1)%Z /\ chn' = chn)) /\
  (forall status dev' n' t,
     add_attr_to_device alloc_ok dev c n = Done (status, dev') n' t ->
     (status = 0%Z /\
      exists s, property_value "name" c = Some s /\
                dev' = set_dev_attrs dev (dev_attrs dev ++ [s])) \/
     (status = (-1)%Z /\ dev' = dev)).
Proof.
  split; [|split; [|split]].
  - intros Hname. split.
    + eexists. split; [apply add_attr_to_channel_no_name, Hname|].
      apply in_or_app. right. left. reflexivity.
    + eexists. split; [apply add_attr_to_device_no_name, Hname|].
      apply in_or_app. right. left. reflexivity.
  - intros Hname Hv Hplenty.
    assert (Hwf : attribute_wf c = true)
      by (unfold attribute_wf; rewrite Hname, Hv; reflexivity).
    destruct (add_attr_to_channel_plenty alloc_ok Hplenty chn c n Hwf)
      as (s & n1 & t1 & Hs & E1).
    destruct (add_attr_to_device_plenty alloc_ok Hplenty dev c n Hwf)
      as (s' & n2 & t2 & Hs' & E2).
    rewrite Hs in Hs'. injection Hs' as <-.
    exists s. split; [exact Hs|]. split; eexists _, _; eassumption.
  - intros status chn' n' t. apply add_attr_to_channel_Done.
  - intros status dev' n' t. apply add_attr_to_device_Done.
Qed.

(** C6, as the specification words it, fails: a [name] property does
    not make the call succeed when the allocator refuses the growth of
    the list. *)
Lemma attribute_collector_needs_memory :
  add_attr_to_channel (refuse 1) (calloc_channel 0)
    (element "attribute" [prop "name" "scale"] []) 0
  = Done ((-1)%Z, calloc_channel 0) 2 [FREE (Str "scale")] /\
  ~ (forall alloc_ok chn c n,
       has_property "name" c = true ->
       exists s n' t,
         add_attr_to_channel alloc_ok chn c n
         = Done (0%Z, set_chn_attrs chn (chn_attrs chn ++ [s])) n' t).
Proof.
  split; [reflexivity|]. intros H.
  destruct (H (refuse 1) (calloc_channel 0)
              (element "attribute" [prop "name" "scale"] []) 0%nat eq_refl)
    as (s & n' & t & E).
  discriminate E.
Qed.

Section Exact.

Variable alloc_ok : nat -> bool.
Hypothesis plentiful : forall i, alloc_ok i = true.



End Exact.



Lemma inserted_In {A} (x : A) l l' : inserted x l l' -> In x l'.
Proof. induction 1; [left; reflexivity|right; assumption]. Qed.

(** C8.  Unknown content is tolerated.  Let the document [root'] be
    [root] with one unknown child element or one unknown property
    inserted anywhere (on a channel the property has a value node, as
    every property there must).  Then the two builds end the same way:
    the same result, the same allocation requests, and traces that
    differ by warnings only.  So when [root] is built, [root'] is built
    into the same context, and each trace is exactly the list of
    warnings its document deserves; with memory to spare a well-formed
    [root] is built; and an unknown element under the root, other than
    text, does leave its warning in the trace. *)
Theorem unknown_content_tolerance alloc_ok root root' n :
  extended K_context root root' ->
  same_result (iio_create_xml_context_helper alloc_ok (document root) n)
              (iio_create_xml_context_helper alloc_ok (document root') n) /\
  (forall ctx n' t,
     iio_create_xml_context_helper alloc_ok (document root) n
     = Done (Some ctx) n' t ->
     t = context_warnings root /\
     iio_create_xml_context_helper alloc_ok (document root') n
     = Done (Some ctx) n' (context_warnings root') /\
     padded (context_warnings root) (context_warnings root')) /\
  (document_wf (document root) = true ->
   (forall i, alloc_ok i = true) ->
   exists ctx n',
     iio_create_xml_context_helper alloc_ok (document root) n
     = Done (Some ctx) n' (context_warnings root) /\
     iio_create_xml_context_helper alloc_ok (document root') n
     = Done (Some ctx) n' (context_warnings root')) /\
  (forall c ctx n' t',
     inserted c (node_children root) (node_children root') ->
     unknown_child K_context c = true ->
     node_name c <> "text" ->
     iio_create_xml_context_helper alloc_ok (document root') n
     = Done (Some ctx) n' t' ->
     In (WARNING "Unknown children '%s' in <context>" [Some (node_name c)]) t').
Proof.
  intros Hext.
  pose proof (iio_create_xml_context_helper_extended alloc_ok root root' n Hext)
    as Hsame.
  assert (Hbuilt : forall ctx n' t,
    iio_create_xml_context_helper alloc_ok (document root) n
    = Done (Some ctx) n' t ->
    t = context_warnings root /\
    iio_create_xml_context_helper alloc_ok (document root') n
    = Done (Some ctx) n' (context_warnings root') /\
    padded (context_warnings root) (context_warnings root')).
  { intros ctx n' t E.
    pose proof (iio_create_xml_context_helper_trace _ _ _ _ _ _ E) as ->.
    split; [reflexivity|]. rewrite E in Hsame.
    destruct (iio_create_xml_context_helper alloc_ok (document root') n)
      as [|r n2 t2] eqn:E'; simpl in Hsame; [contradiction|].
    destruct Hsame as (<- & <- & Hpad).
    pose proof (iio_create_xml_context_helper_trace _ _ _ _ _ _ E') as ->.
    split; [reflexivity|exact Hpad]. }
  split; [exact Hsame|]. split; [exact Hbuilt|]. split.
  - intros Hwf Hplenty.
    destruct (iio_create_xml_context_helper_plenty alloc_ok Hplenty _ n Hwf)
      as (ctx & n' & t & E).
    destruct (Hbuilt _ _ _ E) as (-> & E' & _).
    exists ctx, n'. split; assumption.
  - intros c ctx n' t' Hins Hu Htext H.
    apply iio_create_xml_context_helper_trace in H. subst t'.
    unfold context_warnings. apply in_flat_map. exists c.
    split; [eapply inserted_In, Hins|].
    unfold unknown_child in Hu. simpl in Hu. unfold context_child_warnings.
    destruct (node_name c =? "device"); [discriminate|].
    apply String.eqb_neq in Htext. rewrite Htext. left. reflexivity.
Qed.

(** C9.  Back-pointers.  In a context the helper returns, every device
    points back to the context and every channel to its device.  The
    same holds for every channel and device the run ever shows to the
    outside, returned or handed to [free_channel] or [free_device] on a
    failure half-way; and no loop that runs after the assignment
    changes the back-pointer or the address. *)
Theorem back_references alloc_ok :
  (forall doc n ctx n' t,
     iio_create_xml_context_helper alloc_ok doc n = Done (Some ctx) n' t ->
     ctx_addr ctx = n /\ context_linked ctx) /\
  (forall doc n r n' t dev,
     iio_create_xml_context_helper alloc_ok doc n = Done r n' t ->
     In (FREE_DEVICE dev) t -> device_linked n dev) /\
  (forall ctx c n r n' t dev,
     create_device alloc_ok ctx c n = Done r n' t ->
     r = Some dev \/ In (FREE_DEVICE dev) t -> device_linked ctx dev) /\
  (forall dev c n r n' t chn,
     create_channel alloc_ok dev c n = Done r n' t ->
     r = Some chn \/ In (FREE_CHANNEL chn) t -> chn_dev chn = Some dev) /\
  (forall attr chn n chn' n' t,
     create_channel_properties alloc_ok attr chn n = Done chn' n' t ->
     chn_dev chn' = chn_dev chn /\ chn_addr chn' = chn_addr chn) /\
  (forall cs chn n f n' t,
     create_channel_children alloc_ok cs chn n = Done f n' t ->
     chn_dev (flow_value f) = chn_dev chn /\
     chn_addr (flow_value f) = chn_addr chn) /\
  (forall attr dev n dev' n' t,
     create_device_properties alloc_ok attr dev n = Done dev' n' t ->
     dev_ctx dev' = dev_ctx dev /\ dev_addr dev' = dev_addr dev) /\
  (forall cs dev n f n' t,
     create_device_children alloc_ok cs dev n = Done f n' t ->
     dev_ctx (flow_value f) = dev_ctx dev /\
     dev_addr (flow_value f) = dev_addr dev) /\
  (forall cs ctx n f n' t,
     context_children alloc_ok cs ctx n = Done f n' t ->
     ctx_addr (flow_value f) = ctx_addr ctx).
Proof.
  repeat match goal with |- _ /\ _ => split end.
  - intros doc n ctx n' t H. apply iio_create_xml_context_helper_Done in H.
    destruct H as (root & _ & _ & _ & Hlinked & Haddr & _).
    split; assumption.
  - intros doc n r n' t dev. apply iio_create_xml_context_helper_releases.
  - intros ctx c n r n' t dev H [->|Hin].
    + apply create_device_Done in H. destruct H as (Hbuilt & _).
      eapply device_built_linked, Hbuilt.
    + eapply create_device_releases; eassumption.
  - intros dev c n r n' t chn H [->|Hin].
    + apply create_channel_Done in H. destruct H as ((Hdev & _) & _).
      exact Hdev.
    + eapply create_channel_releases; eassumption.
  - intros attr chn n chn' n' t H. apply create_channel_properties_Done in H.
    destruct H as (_ & Haddr & Hdev & _). split; assumption.
  - intros cs chn n f n' t H. apply create_channel_children_Done in H.
    destruct H as (Haddr & Hdev & _). split; assumption.
  - intros attr dev n dev' n' t H. apply create_device_properties_Done in H.
    destruct H as (_ & Haddr & Hctx & _). split; assumption.
  - intros cs dev n f n' t H. apply create_device_children_Done in H.
    destruct H as (Haddr & Hctx & _). split; assumption.
  - intros cs ctx n f n' t H. apply context_children_Done in H.
    destruct H as (Haddr & _). exact Haddr.
Qed.

(** C10.  The value of a property is read without a check.  On a node
    whose properties, and those of the nodes below it, all carry a
    value, none of the four functions reads a null pointer.  A property
    without a value node is outside that precondition, and the read
    does happen: [create_channel] crashes on any such property,
    [create_device] on one called [name] or [id], the two collectors on
    one called [name]. *)
Theorem property_reads_are_unguarded alloc_ok c :
  (node_valued c = true ->
   forall dev ctx chn d n,
     create_channel alloc_ok dev c n <> Crash /\
     create_device alloc_ok ctx c n <> Crash /\
     add_attr_to_channel alloc_ok chn c n <> Crash /\
     add_attr_to_device alloc_ok d c n <> Crash) /\
  (forall a,
     In a (node_properties c) -> valueless a ->
     attr_valued a = false /\
     node_valued c = false /\
     (forall dev n, alloc_ok n = true ->
        create_channel alloc_ok dev c n = Crash) /\
     (attr_name a = "name" \/ attr_name a = "id" ->
      forall ctx n, alloc_ok n = true ->
        create_device alloc_ok ctx c n = Crash) /\
     (attr_name a = "name" ->
      forall chn d n,
        add_attr_to_channel alloc_ok chn c n = Crash /\
        add_attr_to_device alloc_ok d c n = Crash)).
Proof.
  split.
  - intros Hv dev ctx chn d n.
    pose proof (node_valued_properties _ Hv) as Hprops.
    split; [apply create_channel_safe, Hv|].
    split; [apply create_device_safe, Hv|].
    split; [apply add_attr_to_channel_safe, valued_key_valued, Hprops
           |apply add_attr_to_device_safe, valued_key_valued, Hprops].
  - intros a Hin Hnull.
    assert (Hnot : attr_valued a = false)
      by (unfold attr_valued, attr_value; rewrite Hnull; reflexivity).
    split; [exact Hnot|]. split.
    { apply not_true_is_false. intros Hv.
      apply node_valued_properties in Hv. rewrite forallb_forall in Hv.
      rewrite (Hv a Hin) in Hnot. discriminate. }
    split.
    { intros dev n Halloc. apply create_channel_crash; [exact Halloc|].
      apply Exists_exists. exists a. split; assumption. }
    split.
    { intros Hname ctx n Halloc. apply create_device_crash; [exact Halloc|].
      apply Exists_exists. exists a. split; [exact Hin|split; assumption]. }
    intros Hname chn d n.
    assert (E : Exists (fun a => attr_name a = "name" /\ valueless a)
                       (node_properties c))
      by (apply Exists_exists; exists a; split; [exact Hin|split; assumption]).
    split; [apply add_attr_to_channel_crash|apply add_attr_to_device_crash];
      exact E.
Qed.

(** * The claims at concrete documents *)

Lemma plenty_plentiful i : plenty i = true.
Proof. reflexivity. Defined.

Lemma rollback_on_missing_device_id_witness :
  exists n' t,
    iio_create_xml_context_helper plenty (document rollback_root) 0
    = Done None n' t /\
    In (FREE_DEVICE
          {| dev_addr := 1; dev_ctx := Some 0; dev_name := None;
             dev_id := Some "dev0"; dev_attrs := []; dev_channels := [] |}) t.
Proof.
  destruct (rollback_on_missing_device_id plenty read_file_A read_memory_A
              (document rollback_root) rollback_root
              [good_device] scenario_B_device [] 0
              eq_refl eq_refl eq_refl eq_refl eq_refl eq_refl)
    as ((n' & t & E & Hfree) & _).
  exists n', t. split; [exact E|].
  specialize (Hfree _ _ _ eq_refl eq_refl).
  inversion Hfree. assumption.
Defined.

Lemma round_trip_structure_witness :
  exists ctx n' t,
    iio_create_xml_context_helper plenty scenario_A 0 = Done (Some ctx) n' t /\
    context_built scenario_A_root ctx /\
    length (ctx_devices ctx) = 1%nat.
Proof.
  destruct (round_trip_structure plenty scenario_A scenario_A_root 1 1 1 1 0
              eq_refl eq_refl eq_refl) as [Hshape Hbuilds].
  { intros d [<-|[]]. split; [reflexivity|]. split; [reflexivity|].
    intros c [<-|[]]. reflexivity. }
  destruct (Hbuilds plenty_plentiful) as (ctx & n' & t & E).
  exists ctx, n', t. split; [exact E|].
  destruct (Hshape _ _ _ E) as (Hbuilt & Hlen & _). split; assumption.
Defined.

Lemma root_tag_validation_witness :
  iio_create_xml_context_helper plenty (document wrong_root) 0
  = Done None 1
      [ERROR "Unrecognized XML file" []; FREE (Ctx (context_at 0))].
Proof.
  apply (root_tag_validation plenty (document wrong_root) wrong_root 0);
    [reflexivity|discriminate].
Defined.


Lemma channel_direction_witness :
  exists chn n' t,
    create_channel plenty 1 garbage_channel 3 = Done (Some chn) n' t /\
    chn_is_output chn = false /\
    In (WARNING "Unknown channel type %s" [Some "garbage"]) t.
Proof.
  eexists _, _, _. split; [reflexivity|].
  destruct (channel_direction plenty 1 garbage_channel 3 _ _ _ eq_refl)
    as (_ & _ & Hgarbage).
  destruct (Hgarbage (prop "type" "garbage") "garbage"
              (or_intror (or_introl eq_refl)) eq_refl eq_refl)
    as [Hwarn Hinput]; [discriminate|discriminate|].
  split; [|exact Hwarn]. apply Hinput.
  intros b [<-|[<-|[]]]; discriminate.
Defined.

Lemma attribute_collector_witness :
  exists n' t,
    add_attr_to_channel plenty (calloc_channel 0)
      (element "attribute" [prop "name" "scale"] []) 1
    = Done (0%Z, set_chn_attrs (calloc_channel 0) ["scale"]) n' t.
Proof.
  destruct (attribute_collector plenty (calloc_channel 0) (calloc_device 0)
              (element "attribute" [prop "name" "scale"] []) 1)
    as (_ & Hnamed & _).
  destruct (Hnamed eq_refl eq_refl plenty_plentiful)
    as (s & Hs & (n' & t & E) & _).
  injection Hs as <-. exists n', t. exact E.
Defined.


Lemma unknown_content_tolerance_witness :
  exists ctx n',
    iio_create_xml_context_helper plenty scenario_A 0 = Done (Some ctx) n' [] /\
    iio_create_xml_context_helper plenty (document scenario_A_extended) 0
    = Done (Some ctx) n'
        [WARNING "Unknown children '%s' in <context>" [Some "comment"]].
Proof.
  assert (Hext : extended K_context scenario_A_root scenario_A_extended).
  { apply (extended_child K_context "context" None [] _ _
             (element "comment" [] [])); [reflexivity|constructor]. }
  destruct (unknown_content_tolerance plenty scenario_A_root
              scenario_A_extended 0 Hext) as (_ & _ & Hwf & _).
  apply Hwf; [reflexivity|exact plenty_plentiful].
Defined.

Lemma back_references_witness :
  exists ctx n' t,
    iio_create_xml_context_helper plenty scenario_A 0 = Done (Some ctx) n' t /\
    ctx_addr ctx = 0%nat /\ context_linked ctx.
Proof.
  eexists _, _, _. split; [reflexivity|].
  destruct (back_references plenty) as (Hctx & _).
  exact (Hctx scenario_A 0%nat _ _ _ eq_refl).
Defined.

Lemma property_reads_are_unguarded_witness :
  create_channel plenty 1 twice_channel 3 <> Crash /\
  create_channel plenty 1 valueless_channel 3 = Crash.
Proof.
  split.
  - destruct (property_reads_are_unguarded plenty twice_channel) as (Hsafe & _).
    exact (proj1 (Hsafe eq_refl 1%nat 0%nat (calloc_channel 0)
                    (calloc_device 0) 3%nat)).
  - destruct (property_reads_are_unguarded plenty valueless_channel)
      as (_ & Hnull).
    destruct (Hnull (XmlAttr "name" None) (or_intror (or_introl eq_refl))
                eq_refl) as (_ & _ & Hcrash & _).
    apply Hcrash. reflexivity.
Defined.

(** * Further properties of xml.c *)

(** ** Which documents are built *)

Lemma property_value_has key c s :
  property_value key c = Some s -> has_property key c = true.
Proof.
  unfold property_value, has_property.
  destruct (last_property key (node_properties c)); [reflexivity|discriminate].
Qed.

Lemma map_Some_values {A B} (f : B -> option A) (l : list A) (l' : list B) :
  map Some l = map f l' -> forall x, In x l' -> exists s, f x = Some s.
Proof.
  revert l. induction l' as [|y l' IH]; intros l H x Hin; [contradiction|].
  destruct l as [|a l]; [discriminate|]. simpl in H. injection H as Ha Hl.
  destruct Hin as [<-|Hin]; [exists a; symmetry; exact Ha|].
  eapply IH; eassumption.
Qed.

Lemma attribute_names_required cs (l : list string) :
  map Some l = attribute_names cs ->
  forall c, In c cs -> named "attribute" c = true -> has_property "name" c = true.
Proof.
  unfold attribute_names. intros H c Hin Hname.
  destruct (map_Some_values _ _ _ H c) as (s & Hs).
  { apply filter_In. split; assumption. }
  eapply property_value_has, Hs.
Qed.

Lemma Forall2_In_l {A B} (R : A -> B -> Prop) l l' x :
  Forall2 R l l' -> In x l -> exists y, In y l' /\ R x y.
Proof.
  induction 1 as [|x' y l l' Hxy _ IH]; intros Hin; [contradiction|].
  destruct Hin as [<-|Hin].
  - exists y. split; [left; reflexivity|exact Hxy].
  - destruct (IH Hin) as (y' & Hy' & HR). exists y'. split; [right|]; assumption.
Qed.

Lemma channel_built_required dev c chn :
  channel_built dev c chn -> channel_required c = true.
Proof.
  intros (_ & (id & _ & Hid) & _ & _ & Hattrs). unfold channel_required.
  rewrite (property_value_has _ _ _ Hid). simpl.
  apply forallb_forall. intros a Hin. unfold channel_child_required.
  destruct (named "attribute" a) eqn:E; [|reflexivity].
  eapply attribute_names_required; eassumption.
Qed.

Lemma device_built_required ctx c dev :
  device_built ctx c dev -> device_required c = true.
Proof.
  intros (_ & (id & _ & Hid) & _ & Hattrs & Hchns). unfold device_required.
  rewrite (property_value_has _ _ _ Hid). simpl.
  apply forallb_forall. intros a Hin. unfold device_child_required.
  destruct (named "channel" a) eqn:Echn.
  - destruct (Forall2_In_l _ _ _ a Hchns) as (chn & _ & Hbuilt).
    { apply filter_In. split; assumption. }
    eapply channel_built_required, Hbuilt.
  - destruct (named "attribute" a) eqn:Eattr; [|reflexivity].
    eapply attribute_names_required; eassumption.
Qed.

Lemma context_built_required root ctx :
  context_built root ctx ->
  forallb context_child_required (node_children root) = true.
Proof.
  intros (_ & _ & Hdevs). apply forallb_forall. intros d Hin.
  unfold context_child_required. destruct (named "device" d) eqn:E; [|reflexivity].
  destruct (Forall2_In_l _ _ _ d Hdevs) as (dev & _ & Hbuilt).
  { apply filter_In. split; assumption. }
  eapply device_built_required, Hbuilt.
Qed.

(** With every property valued, the required fields make a document
    well-formed. *)
Lemma valued_required_wf root :
  node_valued root = true -> context_required root = true ->
  document_wf (document root) = true.
Proof.
  unfold document_wf, context_required, context_wf. simpl. intros Hv H.
  apply andb_prop in H. destruct H as [-> H]. simpl.
  apply node_valued_children in Hv. rewrite forallb_forall in *.
  intros d Hd. specialize (H d Hd). specialize (Hv d Hd).
  unfold context_child_required in H. unfold context_child_wf.
  destruct (named "device" d); [|reflexivity].
  unfold device_required in H. unfold device_wf.
  apply andb_prop in H. destruct H as [-> H].
  rewrite (node_valued_properties _ Hv). simpl.
  apply node_valued_children in Hv. rewrite forallb_forall in *.
  intros c Hc. specialize (H c Hc). specialize (Hv c Hc).
  unfold device_child_required in H. unfold device_child_wf.
  destruct (named "channel" c).
  - unfold channel_required in H. unfold channel_wf.
    apply andb_prop in H. destruct H as [-> H].
    rewrite (node_valued_properties _ Hv). simpl.
    apply node_valued_children in Hv. rewrite forallb_forall in *.
    intros a Ha. specialize (H a Ha). specialize (Hv a Ha).
    unfold channel_child_required in H. unfold channel_child_wf.
    destruct (named "attribute" a); [|reflexivity].
    unfold attribute_wf. rewrite H. simpl.
    apply valued_key_valued, node_valued_properties, Hv.
  - destruct (named "attribute" c); [|reflexivity].
    unfold attribute_wf. rewrite H. simpl.
    apply valued_key_valued, node_valued_properties, Hv.
Qed.

(** X1.  The helper builds a document exactly when its required fields
    are there.  Whatever the allocator does, a document that is built
    has them; a document that lacks one and whose properties all carry
    values yields no result; and with memory to spare a document that
    has them and whose properties all carry values is built. *)
Theorem built_iff_required_fields alloc_ok root n :
  (forall ctx n' t,
     iio_create_xml_context_helper alloc_ok (document root) n
     = Done (Some ctx) n' t ->
     context_required root = true) /\
  (node_valued root = true ->
   context_required root = false ->
   exists n' t,
     iio_create_xml_context_helper alloc_ok (document root) n = Done None n' t) /\
  (node_valued root = true ->
   context_required root = true ->
   (forall i, alloc_ok i = true) ->
   exists ctx n' t,
     iio_create_xml_context_helper alloc_ok (document root) n
     = Done (Some ctx) n' t).
Proof.
  assert (Hbuilt : forall ctx n' t,
    iio_create_xml_context_helper alloc_ok (document root) n
    = Done (Some ctx) n' t ->
    context_required root = true).
  { intros ctx n' t H. apply iio_create_xml_context_helper_Done in H.
    destruct H as (root' & Hroot & Hname & Hb & _).
    simpl in Hroot. injection Hroot as <-.
    unfold context_required, named. rewrite Hname. simpl.
    eapply context_built_required, Hb. }
  split; [exact Hbuilt|]. split.
  - intros Hv Hreq.
    destruct (iio_create_xml_context_helper alloc_ok (document root) n)
      as [|r n' t] eqn:E.
    { exfalso. exact (iio_create_xml_context_helper_safe _ _ _ Hv E). }
    destruct r as [ctx|]; [|eexists _, _; reflexivity].
    rewrite (Hbuilt _ _ _ eq_refl) in Hreq. discriminate.
  - intros Hv Hreq Hplenty.
    apply iio_create_xml_context_helper_plenty; [exact Hplenty|].
    apply valued_required_wf; assumption.
Qed.

Lemma built_iff_required_fields_witness :
  (exists n' t,
     iio_create_xml_context_helper (refuse 7) scenario_B 0 = Done None n' t) /\
  (exists ctx n' t,
     iio_create_xml_context_helper plenty scenario_A 0 = Done (Some ctx) n' t).
Proof.
  split.
  - destruct (built_iff_required_fields (refuse 7)
                (element "context" [] [scenario_B_device]) 0) as (_ & Hnone & _).
    apply Hnone; reflexivity.
  - destruct (built_iff_required_fields plenty scenario_A_root 0)
      as (_ & _ & Hsome).
    apply Hsome; [reflexivity|reflexivity|exact plenty_plentiful].
Defined.

(** ** Null pointers, at the top *)



(** ** What a failing builder does last *)

Section Failure.

Variable alloc_ok : nat -> bool.

Lemma create_channel_None dev c n n' t :
  create_channel alloc_ok dev c n = Done None n' t ->
  if alloc_ok n then
    exists t0 chn,
      t = t0 ++ [FREE_CHANNEL chn] /\ chn_addr chn = n /\
      forallb keeps_objects t0 = true
  else n' = S n /\ t = [].
Proof.
  unfold create_channel. intros H. inv_bind H. inv_prim.
  destruct (alloc_ok n); [|inv_prim; split; reflexivity].
  inv_bind H.
  pose proof (create_channel_properties_Done _ _ _ _ _ _ _ Hrun)
    as (_ & Haddr & _).
  apply (emits_create_channel_properties alloc_ok keeps_objects) in Hrun;
    try reflexivity.
  destruct Hrun as [_ Hprops]. simpl in Haddr.
  destruct (chn_id a).
  - inv_bind H.
    pose proof (create_channel_children_Done _ _ _ _ _ _ _ Hrun)
      as (Haddr' & _).
    apply (emits_create_channel_children alloc_ok keeps_objects) in Hrun;
      try reflexivity.
    destruct Hrun as [_ Hchildren].
    destruct a0 as [chn'|chn']; inv_prim; inv_eqs.
    simpl in Haddr'. eexists _, chn'.
    split; [simpl; rewrite ?app_nil_r, !app_assoc; reflexivity|].
    split; [first [congruence|reflexivity]|].
    rewrite forallb_app, Hprops, Hchildren. reflexivity.
  - inv_prim. 
    eexists _, a.
    split; [simpl; rewrite ?app_nil_r;
            change [ERROR "Incomplete <attribute>" []; FREE_CHANNEL a]
              with ([ERROR "Incomplete <attribute>" []] ++ [FREE_CHANNEL a]);
            rewrite !app_assoc; reflexivity|].
    split; [first [exact Haddr|reflexivity]|].
    rewrite forallb_app, Hprops. reflexivity.
Qed.

Lemma create_device_None ctx c n n' t :
  create_device alloc_ok ctx c n = Done None n' t ->
  if alloc_ok n then
    exists t0 dev,
      t = t0 ++ [FREE_DEVICE dev] /\ dev_addr dev = n /\
      forallb keeps_devices t0 = true
  else n' = S n /\ t = [].
Proof.
  unfold create_device. intros H. inv_bind H. inv_prim.
  destruct (alloc_ok n); [|inv_prim; split; reflexivity].
  inv_bind H.
  pose proof (create_device_properties_Done _ _ _ _ _ _ _ Hrun)
    as (_ & Haddr & _).
  apply (emits_create_device_properties alloc_ok keeps_devices) in Hrun;
    try reflexivity.
  destruct Hrun as [_ Hprops]. simpl in Haddr.
  destruct (dev_id a).
  - inv_bind H.
    pose proof (create_device_children_Done _ _ _ _ _ _ _ Hrun)
      as (Haddr' & _).
    apply (emits_create_device_children alloc_ok keeps_devices) in Hrun;
      try reflexivity.
    destruct Hrun as [_ Hchildren].
    destruct a0 as [dev'|dev']; inv_prim; inv_eqs.
    simpl in Haddr'. eexists _, dev'.
    split; [simpl; rewrite ?app_nil_r, !app_assoc; reflexivity|].
    split; [first [congruence|reflexivity]|].
    rewrite forallb_app, Hprops, Hchildren. reflexivity.
  - inv_prim.
    eexists _, a.
    split; [simpl; rewrite ?app_nil_r;
            change [ERROR "Unable to read device ID" []; FREE_DEVICE a]
              with ([ERROR "Unable to read device ID" []] ++ [FREE_DEVICE a]);
            rewrite !app_assoc; reflexivity|].
    split; [first [exact Haddr|reflexivity]|].
    rewrite forallb_app, Hprops. reflexivity.
Qed.

(** Leaving the child loop of the helper through the [goto] says why. *)
Lemma context_children_Goto cs ctx n ctx' n' t :
  context_children alloc_ok cs ctx n = Done (Goto ctx') n' t ->
  exists fmt args, In (ERROR fmt args) t.
Proof.
  revert ctx n ctx' n' t.
  induction cs as [|c next IH]; intros ctx n ctx' n' t H; simpl in H.
  - inv_ret H. inv_eqs.
  - destruct (node_name c =? "device"); simpl in H.
    + inv_bind H. destruct a as [dev|].
      * inv_bind H. inv_prim. destruct (alloc_ok n0).
        -- apply IH in H. destruct H as (fmt & args & Hin).
           exists fmt, args. apply in_or_app. right. simpl. exact Hin.
        -- inv_prim. eexists _, _. apply in_or_app. right. left. reflexivity.
      * inv_prim. eexists _, _. apply in_or_app. right. left. reflexivity.
    + destruct (node_name c =? "text"); simpl in H.
      * eapply IH, H.
      * inv_bind H. inv_prim. apply IH in H. destruct H as (fmt & args & Hin).
        exists fmt, args. right. exact Hin.
Qed.

Lemma iio_create_xml_context_helper_None doc n n' t :
  iio_create_xml_context_helper alloc_ok doc n = Done None n' t ->
  if alloc_ok n then
    exists t0 ctx,
      t = t0 ++ [FREE (Ctx ctx)] /\ ctx_addr ctx = n /\
      exists fmt args, In (ERROR fmt args) t0
  else n' = S n /\ t = [].
Proof.
  unfold iio_create_xml_context_helper. intros H. inv_bind H. inv_prim.
  destruct (alloc_ok n); [|inv_prim; split; reflexivity].
  destruct (xmlDocGetRootElement doc) as [root|]; [|discriminate].
  destruct (negb (node_name root =? "context")).
  - inv_prim. eexists [_], _. split; [reflexivity|]. split; [reflexivity|].
    eexists _, _. left. reflexivity.
  - inv_bind H.
    pose proof (context_children_Done _ _ _ _ _ _ _ Hrun) as (Haddr & _).
    destruct a as [ctx'|ctx']; [inv_ret H; inv_eqs|].
    apply context_children_Goto in Hrun. destruct Hrun as (fmt & args & Hin).
    inv_bind H. inv_bind H. inv_prim. simpl in Haddr.
    eexists _, ctx'.
    split; [simpl; rewrite ?app_nil_r, !app_assoc; reflexivity|].
    split; [first [exact Haddr|reflexivity]|]. exists fmt, args.
    apply in_or_app. left. apply in_or_app. left. exact Hin.
Qed.

End Failure.

(** X3.  A builder that fails after it got its object releases that
    object, and does so last: [create_channel] ends with [free_channel]
    on the channel it allocated, having released no other channel or
    device; [create_device] ends with [free_device] on the device it
    allocated, having released no other device; the helper ends with
    [free] on the context it allocated, after at least one error
    message.  A builder whose own allocation is refused returns no
    result after that single request and says nothing. *)
Theorem failure_releases_own_object alloc_ok n :
  (forall dev c n' t,
     create_channel alloc_ok dev c n = Done None n' t ->
     if alloc_ok n then
       exists t0 chn,
         t = t0 ++ [FREE_CHANNEL chn] /\ chn_addr chn = n /\
         forallb keeps_objects t0 = true
     else n' = S n /\ t = []) /\
  (forall ctx c n' t,
     create_device alloc_ok ctx c n = Done None n' t ->
     if alloc_ok n then
       exists t0 dev,
         t = t0 ++ [FREE_DEVICE dev] /\ dev_addr dev = n /\
         forallb keeps_devices t0 = true
     else n' = S n /\ t = []) /\
  (forall doc n' t,
     iio_create_xml_context_helper alloc_ok doc n = Done None n' t ->
     if alloc_ok n then
       exists t0 ctx,
         t = t0 ++ [FREE (Ctx ctx)] /\ ctx_addr ctx = n /\
         exists fmt args, In (ERROR fmt args) t0
     else n' = S n /\ t = []).
Proof.
  split; [|split].
  - intros dev c n' t. apply create_channel_None.
  - intros ctx c n' t. apply create_device_None.
  - intros doc n' t. apply iio_create_xml_context_helper_None.
Qed.

Lemma failure_releases_own_object_witness :
  exists t0 dev,
    [ERROR "Unable to read device ID" [];
     FREE_DEVICE (set_dev_ctx (calloc_device 1) (Some 0))]
    = t0 ++ [FREE_DEVICE dev] /\ dev_addr dev = 1%nat /\
    forallb keeps_devices t0 = true.
Proof.
  destruct (failure_releases_own_object plenty 1) as (_ & Hdev & _).
  exact (Hdev 0%nat scenario_B_device 2%nat _ eq_refl).
Defined.

(** ** How much memory a build asks for *)

(** Split on the answer of the allocator that a run depends on. *)
Ltac case_alloc :=
  match goal with
  | H : context [if ?f ?x then _ else _] |- _ => destruct (f x) eqn:?
  end.

Section Requests.

Variable alloc_ok : nat -> bool.

Lemma add_attr_properties_requests unknown attr name n r n' t :
  add_attr_properties alloc_ok unknown attr name n = Done r n' t ->
  n' = n + length (filter (fun a => attr_name a =? "name") attr).
Proof.
  revert name n r n' t.
  induction attr as [|a next IH]; intros name n r n' t H; simpl in H |- *.
  - inv_ret H. lia.
  - destruct (attr_name a =? "name"); inv_prim; apply IH in H; simpl; lia.
Qed.

Lemma add_attr_to_channel_requests chn c n chn' n' t :
  add_attr_to_channel alloc_ok chn c n = Done (0%Z, chn') n' t ->
  n' = (n + attribute_requests c)%nat.
Proof.
  unfold add_attr_to_channel, attribute_requests. intros H. inv_bind H.
  apply add_attr_properties_requests in Hrun.
  destruct a; inv_prim; inv_eqs.
  case_alloc; inv_prim; inv_eqs; lia.
Qed.

Lemma add_attr_to_device_requests dev c n dev' n' t :
  add_attr_to_device alloc_ok dev c n = Done (0%Z, dev') n' t ->
  n' = (n + attribute_requests c)%nat.
Proof.
  unfold add_attr_to_device, attribute_requests. intros H. inv_bind H.
  apply add_attr_properties_requests in Hrun.
  destruct a; inv_prim; inv_eqs.
  case_alloc; inv_prim; inv_eqs; lia.
Qed.

Lemma create_channel_properties_requests attr chn n chn' n' t :
  create_channel_properties alloc_ok attr chn n = Done chn' n' t ->
  n' = (n + copies attr)%nat.
Proof.
  unfold copies. revert chn n chn' n' t.
  induction attr as [|a next IH]; intros chn n chn' n' t H; simpl in H |- *.
  - inv_ret H. lia.
  - inv_bind H. inv_prim.
    destruct (attr_name a =? "name");
      [|destruct (attr_name a =? "id");
        [|destruct (attr_name a =? "type")]]; simpl.
    + inv_bind H. inv_prim. apply IH in H. lia.
    + inv_bind H. inv_prim. apply IH in H. lia.
    + inv_bind H. inv_prim. destruct (s =? "output").
      * apply IH in H. lia.
      * inv_bind H. inv_prim. destruct (s0 =? "input").
        -- apply IH in H. lia.
        -- inv_bind H. inv_prim. apply IH in H. lia.
    + inv_bind H. inv_prim. apply IH in H. lia.
Qed.

Lemma create_channel_children_requests cs chn n chn' n' t :
  create_channel_children alloc_ok cs chn n = Done (Next chn') n' t ->
  n' = (n + list_sum (map channel_child_requests cs))%nat.
Proof.
  revert chn n chn' n' t.
  induction cs as [|c next IH]; intros chn n chn' n' t H; simpl in H |- *.
  - inv_ret H. lia.
  - unfold channel_child_requests at 1.
    destruct (node_name c =? "attribute").
    + inv_bind H. destruct a as [status chn1].
      pose proof (add_attr_to_channel_Done _ _ _ _ _ _ _ _ Hrun)
        as [(-> & _)|(-> & _)]; simpl in H; [|inv_ret H; inv_eqs].
      apply add_attr_to_channel_requests in Hrun. apply IH in H. lia.
    + destruct (node_name c =? "text"); simpl in H.
      * apply IH in H. lia.
      * inv_bind H. inv_prim. apply IH in H. lia.
Qed.

Lemma create_channel_requests dev c n chn n' t :
  create_channel alloc_ok dev c n = Done (Some chn) n' t ->
  n' = (n + channel_requests c)%nat.
Proof.
  unfold create_channel, channel_requests. intros H. inv_bind H. inv_prim.
  destruct (alloc_ok n); [|inv_prim; inv_eqs].
  inv_bind H. apply create_channel_properties_requests in Hrun.
  rename Hrun into Hprops.
  destruct (chn_id a); [|inv_prim; inv_eqs].
  inv_bind H. destruct a0 as [chn'|chn']; [|inv_prim; inv_eqs].
  apply create_channel_children_requests in Hrun. inv_ret H. lia.
Qed.

Lemma create_device_properties_requests attr dev n dev' n' t :
  create_device_properties alloc_ok attr dev n = Done dev' n' t ->
  n' = (n + copies attr)%nat.
Proof.
  unfold copies. revert dev n dev' n' t.
  induction attr as [|a next IH]; intros dev n dev' n' t H; simpl in H |- *.
  - inv_ret H. lia.
  - destruct (attr_name a =? "name"); [|destruct (attr_name a =? "id")]; simpl.
    + inv_bind H. inv_prim. apply IH in H. lia.
    + inv_bind H. inv_prim. apply IH in H. lia.
    + inv_bind H. inv_prim. apply IH in H. lia.
Qed.

Lemma create_device_children_requests cs dev n dev' n' t :
  create_device_children alloc_ok cs dev n = Done (Next dev') n' t ->
  n' = (n + list_sum (map device_child_requests cs))%nat.
Proof.
  revert dev n dev' n' t.
  induction cs as [|c next IH]; intros dev n dev' n' t H; simpl in H |- *.
  - inv_ret H. lia.
  - unfold device_child_requests at 1.
    destruct (node_name c =? "channel");
      [|destruct (node_name c =? "attribute")].
    + inv_bind H. destruct a as [chn|]; [|inv_prim; inv_eqs].
      apply create_channel_requests in Hrun. rename Hrun into Hchn.
      inv_bind H. inv_prim. case_alloc; [|inv_prim; inv_eqs].
      apply IH in H. lia.
    + inv_bind H. destruct a as [status dev1].
      pose proof (add_attr_to_device_Done _ _ _ _ _ _ _ _ Hrun)
        as [(-> & _)|(-> & _)]; simpl in H; [|inv_ret H; inv_eqs].
      apply add_attr_to_device_requests in Hrun. apply IH in H. lia.
    + destruct (node_name c =? "text"); simpl in H.
      * apply IH in H. lia.
      * inv_bind H. inv_prim. apply IH in H. lia.
Qed.

Lemma create_device_requests ctx c n dev n' t :
  create_device alloc_ok ctx c n = Done (Some dev) n' t ->
  n' = (n + device_requests c)%nat.
Proof.
  unfold create_device, device_requests. intros H. inv_bind H. inv_prim.
  destruct (alloc_ok n); [|inv_prim; inv_eqs].
  inv_bind H. apply create_device_properties_requests in Hrun.
  rename Hrun into Hprops.
  destruct (dev_id a); [|inv_prim; inv_eqs].
  inv_bind H. destruct a0 as [dev'|dev']; [|inv_prim; inv_eqs].
  apply create_device_children_requests in Hrun. inv_ret H. lia.
Qed.

Lemma context_children_requests cs ctx n ctx' n' t :
  context_children alloc_ok cs ctx n = Done (Next ctx') n' t ->
  n' = (n + list_sum (map context_child_requests cs))%nat.
Proof.
  revert ctx n ctx' n' t.
  induction cs as [|c next IH]; intros ctx n ctx' n' t H; simpl in H |- *.
  - inv_ret H. lia.
  - unfold context_child_requests at 1.
    destruct (node_name c =? "device"); simpl in H.
    + inv_bind H. destruct a as [dev|]; [|inv_prim; inv_eqs].
      apply create_device_requests in Hrun. rename Hrun into Hdev.
      inv_bind H. inv_prim. case_alloc; [|inv_prim; inv_eqs].
      apply IH in H. lia.
    + destruct (node_name c =? "text"); simpl in H.
      * apply IH in H. lia.
      * inv_bind H. inv_prim. apply IH in H. lia.
Qed.

End Requests.

(** X4.  The memory a build asks for is fixed by the document.  A
    channel, a device or a context that is built took exactly the
    requests its node determines: one for the object, one for each copy
    of a [name] or [id] value, one for each growth of an attribute,
    channel or device list. *)
Theorem requests_of_a_build alloc_ok n :
  (forall dev c chn n' t,
     create_channel alloc_ok dev c n = Done (Some chn) n' t ->
     n' = (n + channel_requests c)%nat) /\
  (forall ctx c dev n' t,
     create_device alloc_ok ctx c n = Done (Some dev) n' t ->
     n' = (n + device_requests c)%nat) /\
  (forall root ctx n' t,
     iio_create_xml_context_helper alloc_ok (document root) n
     = Done (Some ctx) n' t ->
     n' = (n + context_requests root)%nat).
Proof.
  split; [|split].
  - intros dev c chn n' t. apply create_channel_requests.
  - intros ctx c dev n' t. apply create_device_requests.
  - intros root ctx n' t H. unfold iio_create_xml_context_helper in H.
    simpl in H. inv_bind H. inv_prim.
    destruct (alloc_ok n); [|inv_prim; inv_eqs].
    destruct (negb (node_name root =? "context")); [inv_prim; inv_eqs|].
    inv_bind H. destruct a as [ctx'|ctx']; [|inv_prim; inv_eqs].
    apply context_children_requests in Hrun. inv_ret H.
    unfold context_requests. lia.
Qed.

Lemma requests_of_a_build_witness :
  (11 = 0 + context_requests scenario_A_root)%nat.
Proof.
  destruct (requests_of_a_build plenty 0) as (_ & _ & Hctx).
  exact (Hctx scenario_A_root _ _ _ eq_refl).
Defined.

(** ** Text nodes do not matter *)

Lemma bind_ext {A B} (m : M A) (k k' : A -> M B) n :
  (forall a n1, k a n1 = k' a n1) -> bind m k n = bind m k' n.
Proof.
  intros H. unfold bind. destruct (m n) as [|a n1 t1]; [reflexivity|].
  rewrite H. reflexivity.
Qed.

Lemma bind_cong {A B} (m m' : M A) (k k' : A -> M B) n :
  m n = m' n -> (forall a n1, k a n1 = k' a n1) -> bind m k n = bind m' k' n.
Proof.
  intros Hm H. unfold bind. rewrite Hm.
  destruct (m' n) as [|a n1 t1]; [reflexivity|]. rewrite H. reflexivity.
Qed.

Lemma set_children_name c cs : node_name (set_children c cs) = node_name c.
Proof. destruct c; reflexivity. Qed.

Lemma set_children_properties c cs :
  node_properties (set_children c cs) = node_properties c.
Proof. destruct c; reflexivity. Qed.

Lemma set_children_children c cs : node_children (set_children c cs) = cs.
Proof. destruct c; reflexivity. Qed.

Lemma eqb_text_attribute s : (s =? "text") = true -> (s =? "attribute") = false.
Proof. intros H. apply String.eqb_eq in H. subst. reflexivity. Qed.

Lemma eqb_text_channel s : (s =? "text") = true -> (s =? "channel") = false.
Proof. intros H. apply String.eqb_eq in H. subst. reflexivity. Qed.

Lemma eqb_text_device s : (s =? "text") = true -> (s =? "device") = false.
Proof. intros H. apply String.eqb_eq in H. subst. reflexivity. Qed.

Section Text.

Variable alloc_ok : nat -> bool.

Lemma create_channel_children_without_text cs chn n :
  create_channel_children alloc_ok (without_text cs) chn n
  = create_channel_children alloc_ok cs chn n.
Proof.
  revert chn n. induction cs as [|c next IH]; intros chn n; [reflexivity|].
  unfold without_text in *. simpl.
  destruct (node_name c =? "text") eqn:Etext; simpl.
  - rewrite (eqb_text_attribute _ Etext). apply IH.
  - destruct (node_name c =? "attribute").
    + apply bind_ext. intros [status chn'] n1.
      destruct (status <? 0)%Z; [reflexivity|apply IH].
    + rewrite Etext. simpl. apply bind_ext. intros _ n1. apply IH.
Qed.

Lemma create_channel_strip dev c n :
  create_channel alloc_ok dev (strip_channel c) n = create_channel alloc_ok dev c n.
Proof.
  unfold create_channel, strip_channel.
  rewrite set_children_properties, set_children_children.
  apply bind_ext. intros p n1. destruct p; [|reflexivity].
  apply bind_ext. intros chn n2. destruct (chn_id chn); [|reflexivity].
  apply bind_cong; [apply create_channel_children_without_text|reflexivity].
Qed.

Lemma create_device_children_strip cs dev n :
  create_device_children alloc_ok (map strip_device_child (without_text cs)) dev n
  = create_device_children alloc_ok cs dev n.
Proof.
  revert dev n. induction cs as [|c next IH]; intros dev n; [reflexivity|].
  unfold without_text in *. simpl.
  destruct (node_name c =? "text") eqn:Etext; simpl.
  - rewrite (eqb_text_channel _ Etext), (eqb_text_attribute _ Etext). apply IH.
  - destruct (node_name c =? "channel") eqn:Echn.
    + assert (Hs : strip_device_child c = strip_channel c)
        by (unfold strip_device_child; rewrite Echn; reflexivity).
      rewrite Hs. unfold strip_channel at 1. rewrite set_children_name, Echn.
      apply bind_cong; [apply create_channel_strip|].
      intros [chn|] n1; [|reflexivity].
      apply bind_ext. intros [chns|] n2; [apply IH|reflexivity].
    + assert (Hs : strip_device_child c = c)
        by (unfold strip_device_child; rewrite Echn; reflexivity).
      rewrite Hs, Echn. destruct (node_name c =? "attribute").
      * apply bind_ext. intros [status dev'] n1.
        destruct (status <? 0)%Z; [reflexivity|apply IH].
      * rewrite Etext. simpl. apply bind_ext. intros _ n1. apply IH.
Qed.

Lemma create_device_strip ctx c n :
  create_device alloc_ok ctx (strip_device c) n = create_device alloc_ok ctx c n.
Proof.
  unfold create_device, strip_device.
  rewrite set_children_properties, set_children_children.
  apply bind_ext. intros p n1. destruct p; [|reflexivity].
  apply bind_ext. intros dev n2. destruct (dev_id dev); [|reflexivity].
  apply bind_cong; [apply create_device_children_strip|reflexivity].
Qed.

Lemma context_children_strip cs ctx n :
  context_children alloc_ok (map strip_context_child (without_text cs)) ctx n
  = context_children alloc_ok cs ctx n.
Proof.
  revert ctx n. induction cs as [|c next IH]; intros ctx n; [reflexivity|].
  unfold without_text in *. simpl.
  destruct (node_name c =? "text") eqn:Etext; simpl.
  - rewrite (eqb_text_device _ Etext). simpl. apply IH.
  - destruct (node_name c =? "device") eqn:Edev.
    + assert (Hs : strip_context_child c = strip_device c)
        by (unfold strip_context_child; rewrite Edev; reflexivity).
      rewrite Hs. unfold strip_device at 1. rewrite set_children_name, Edev.
      simpl. apply bind_cong; [apply create_device_strip|].
      intros [dev|] n1; [|reflexivity].
      apply bind_ext. intros [devs|] n2; [apply IH|reflexivity].
    + assert (Hs : strip_context_child c = c)
        by (unfold strip_context_child; rewrite Edev; reflexivity).
      rewrite Hs, Edev, Etext. simpl. apply bind_ext. intros _ n1. apply IH.
Qed.

End Text.

(** X5.  Text nodes do not matter.  The walk skips the children called
    [text] under the root, under a device and under a channel without a
    word, so a document and the same document without them (the
    white space between the elements, say) end the same way: the same
    result, the same allocation requests, the same trace, whatever the
    allocator does. *)
Theorem text_nodes_do_not_matter alloc_ok root n :
  iio_create_xml_context_helper alloc_ok (document (strip_context root)) n
  = iio_create_xml_context_helper alloc_ok (document root) n.
Proof.
  unfold iio_create_xml_context_helper, strip_context. simpl.
  rewrite set_children_name, set_children_children.
  apply bind_ext. intros p n1. destruct p; [|reflexivity].
  destruct (negb (node_name root =? "context")); [reflexivity|].
  apply bind_cong; [apply context_children_strip|reflexivity].
Qed.

(** ** The order of the properties does not matter *)

Lemma last_property_unique key attr a :
  NoDup (map attr_name attr) ->
  In a attr -> (attr_name a =? key) = true ->
  last_property key attr = Some a.
Proof.
  induction attr as [|b next IH]; intros Hnd Hin Hname; [contradiction|].
  simpl in Hnd. inversion Hnd as [|x l Hnotin Hnd']; subst. simpl.
  destruct Hin as [->|Hin].
  - destruct (last_property key next) as [b'|] eqn:E.
    + exfalso. apply last_property_In in E. destruct E as [Hin' Hname'].
      apply String.eqb_eq in Hname, Hname'. apply Hnotin.
      rewrite Hname, <- Hname'. apply in_map, Hin'.
    + rewrite Hname. reflexivity.
  - rewrite (IH Hnd' Hin Hname). reflexivity.
Qed.

Lemma last_property_absent key attr :
  (forall a, In a attr -> (attr_name a =? key) = false) ->
  last_property key attr = None.
Proof.
  induction attr as [|b next IH]; intros H; [reflexivity|]. simpl.
  rewrite IH by (intros a Ha; apply H; right; exact Ha).
  rewrite (H b (or_introl eq_refl)). reflexivity.
Qed.

Lemma last_property_Permutation key attr attr' :
  Permutation attr attr' ->
  NoDup (map attr_name attr) ->
  last_property key attr' = last_property key attr.
Proof.
  intros Hperm Hnd.
  assert (Hnd' : NoDup (map attr_name attr'))
    by (eapply Permutation_NoDup; [apply Permutation_map, Hperm|exact Hnd]).
  destruct (last_property key attr) as [a|] eqn:E.
  - apply last_property_In in E. destruct E as [Hin Hname].
    apply last_property_unique; [exact Hnd'| |exact Hname].
    eapply Permutation_in; eassumption.
  - apply last_property_absent. intros a Hin.
    eapply last_property_None; [exact E|].
    eapply Permutation_in; [apply Permutation_sym, Hperm|exact Hin].
Qed.

Lemma existsb_Permutation {A} (f : A -> bool) l l' :
  Permutation l l' -> existsb f l' = existsb f l.
Proof.
  intros Hperm. induction Hperm; simpl.
  - reflexivity.
  - rewrite IHHperm. reflexivity.
  - destruct (f x), (f y); reflexivity.
  - congruence.
Qed.

Lemma filter_length_Permutation {A} (f : A -> bool) l l' :
  Permutation l l' -> length (filter f l') = length (filter f l).
Proof.
  intros Hperm. induction Hperm; simpl.
  - reflexivity.
  - destruct (f x); simpl; rewrite IHHperm; reflexivity.
  - destruct (f x), (f y); reflexivity.
  - congruence.
Qed.

Lemma forallb_Permutation {A} (f : A -> bool) l l' :
  Permutation l l' -> forallb f l = true -> forallb f l' = true.
Proof.
  intros Hperm H. rewrite forallb_forall in *. intros x Hx.
  apply H. eapply Permutation_in; [apply Permutation_sym, Hperm|exact Hx].
Qed.

Section Order.

Variable alloc_ok : nat -> bool.
Hypothesis plentiful : forall i, alloc_ok i = true.

Lemma create_channel_properties_run attr chn n :
  forallb attr_valued attr = true ->
  create_channel_properties alloc_ok attr chn n
  = Done (channel_after attr chn) (n + copies attr)
         (flat_map channel_property_events attr).
Proof.
  intros Hv.
  destruct (create_channel_properties_plenty alloc_ok plentiful attr chn n Hv)
    as (chn' & n' & E & Hid & Hname).
  pose proof (create_channel_properties_Done _ _ _ _ _ _ _ E)
    as (_ & Haddr & Hdev & Hattrs & _ & _ & Hout & _).
  pose proof (create_channel_properties_requests _ _ _ _ _ _ _ E) as ->.
  rewrite E. f_equal. unfold channel_after.
  rewrite <- Haddr, <- Hdev, <- Hattrs, <- Hid, <- Hname, <- Hout.
  destruct chn'. reflexivity.
Qed.

Lemma create_device_properties_run attr dev n :
  forallb attr_valued attr = true ->
  create_device_properties alloc_ok attr dev n
  = Done (device_after attr dev) (n + copies attr)
         (flat_map device_property_events attr).
Proof.
  intros Hv.
  destruct (create_device_properties_plenty alloc_ok plentiful attr dev n Hv)
    as (dev' & n' & E & Hid & Hname).
  pose proof (create_device_properties_Done _ _ _ _ _ _ _ E)
    as (_ & Haddr & Hctx & Hattrs & Hchns & _).
  pose proof (create_device_properties_requests _ _ _ _ _ _ _ E) as ->.
  rewrite E. f_equal. unfold device_after.
  rewrite <- Haddr, <- Hctx, <- Hattrs, <- Hchns, <- Hid, <- Hname.
  destruct dev'. reflexivity.
Qed.

Lemma channel_after_Permutation attr attr' chn :
  Permutation attr attr' -> NoDup (map attr_name attr) ->
  channel_after attr' chn = channel_after attr chn.
Proof.
  intros Hperm Hnd. unfold channel_after, scan_result.
  rewrite !(last_property_Permutation _ _ _ Hperm Hnd).
  rewrite (existsb_Permutation _ _ _ Hperm). reflexivity.
Qed.

Lemma device_after_Permutation attr attr' dev :
  Permutation attr attr' -> NoDup (map attr_name attr) ->
  device_after attr' dev = device_after attr dev.
Proof.
  intros Hperm Hnd. unfold device_after, scan_result.
  rewrite !(last_property_Permutation _ _ _ Hperm Hnd). reflexivity.
Qed.

Lemma same_but_order_bind {A B} (m m' : M A) (k : A -> M B) n :
  same_but_order (m n) (m' n) -> same_but_order (bind m k n) (bind m' k n).
Proof.
  unfold bind. intros H.
  destruct (m n) as [|a n1 t1], (m' n) as [|a' n1' t1']; simpl in H;
    try contradiction; [exact I|].
  destruct H as (<- & <- & Hperm).
  destruct (k a n1) as [|b n2 t2]; [exact I|]. simpl.
  repeat split. apply Permutation_app_tail, Hperm.
Qed.

Lemma same_but_order_bind_r {A B} (m : M A) (k k' : A -> M B) n :
  (forall a n1, same_but_order (k a n1) (k' a n1)) ->
  same_but_order (bind m k n) (bind m k' n).
Proof.
  unfold bind. intros H. destruct (m n) as [|a n1 t1]; [exact I|].
  specialize (H a n1).
  destruct (k a n1) as [|b n2 t2], (k' a n1) as [|b' n2' t2']; simpl in H;
    try contradiction; [exact I|].
  destruct H as (<- & <- & Hperm). simpl. repeat split.
  apply Permutation_app_head, Hperm.
Qed.

Lemma same_but_order_refl {A} (o : outcome A) : same_but_order o o.
Proof. destruct o; simpl; [exact I|]. repeat split. apply Permutation_refl. Qed.

End Order.

(** X6.  The order of the properties does not matter.  Take a node
    whose properties all carry values and have distinct names, and the
    same node with its properties in another order.  With memory to
    spare, [create_channel] ends the same way on both, and so does
    [create_device]: the same object or the same failure, the same
    allocation requests, the same events up to their order. *)
Theorem property_order_does_not_matter
    alloc_ok name content properties properties' children owner n :
  (forall i, alloc_ok i = true) ->
  Permutation properties properties' ->
  NoDup (map attr_name properties) ->
  forallb attr_valued properties = true ->
  same_but_order
    (create_channel alloc_ok owner (XmlNode name content properties children) n)
    (create_channel alloc_ok owner (XmlNode name content properties' children) n) /\
  same_but_order
    (create_device alloc_ok owner (XmlNode name content properties children) n)
    (create_device alloc_ok owner (XmlNode name content properties' children) n).
Proof.
  intros Hplenty Hperm Hnd Hv.
  pose proof (forallb_Permutation _ _ _ Hperm Hv) as Hv'.
  split.
  - unfold create_channel. cbn [node_properties node_children].
    apply same_but_order_bind_r. intros [p|] n1; [|apply same_but_order_refl].
    apply same_but_order_bind.
    rewrite !(create_channel_properties_run alloc_ok Hplenty) by assumption.
    simpl. split; [symmetry; apply channel_after_Permutation; assumption|].
    split.
    + unfold copies. rewrite (filter_length_Permutation _ _ _ Hperm). reflexivity.
    + apply Permutation_flat_map, Hperm.
  - unfold create_device. cbn [node_properties node_children].
    apply same_but_order_bind_r. intros [p|] n1; [|apply same_but_order_refl].
    apply same_but_order_bind.
    rewrite !(create_device_properties_run alloc_ok Hplenty) by assumption.
    simpl. split; [symmetry; apply device_after_Permutation; assumption|].
    split.
    + unfold copies. rewrite (filter_length_Permutation _ _ _ Hperm). reflexivity.
    + apply Permutation_flat_map, Hperm.
Qed.

Lemma property_order_does_not_matter_witness :
  same_but_order
    (create_channel plenty 1
       (XmlNode "channel" None
          [prop "id" "voltage0"; prop "x" "1"; prop "type" "output"] []) 3)
    (create_channel plenty 1
       (XmlNode "channel" None
          [prop "type" "output"; prop "x" "1"; prop "id" "voltage0"] []) 3).
Proof.
  refine (proj1 (property_order_does_not_matter plenty "channel" None
                   [prop "id" "voltage0"; prop "x" "1"; prop "type" "output"]
                   [prop "type" "output"; prop "x" "1"; prop "id" "voltage0"]
                   [] 1 3 plenty_plentiful _ _ eq_refl)).
  - apply perm_trans with
      [prop "x" "1"; prop "id" "voltage0"; prop "type" "output"].
    + apply perm_swap.
    + apply perm_trans with
        [prop "x" "1"; prop "type" "output"; prop "id" "voltage0"].
      * apply perm_skip, perm_swap.
      * apply perm_swap.
  - repeat constructor; simpl; intuition discriminate.
Defined.

(** ** The child loops, one child after the other *)

Lemma bind_assoc {A B C} (m : M A) (k : A -> M B) (h : B -> M C) n :
  bind (bind m k) h n = bind m (fun a => bind (k a) h) n.
Proof.
  unfold bind. destruct (m n) as [|a n1 t1]; [reflexivity|].
  destruct (k a n1) as [|b n2 t2]; [reflexivity|].
  destruct (h b n2) as [|c n3 t3]; [reflexivity|].
  rewrite app_assoc. reflexivity.
Qed.

Lemma bind_ret_l {A B} (a : A) (k : A -> M B) n : bind (ret a) k n = k a n.
Proof. unfold bind, ret. destruct (k a n); reflexivity. Qed.

Lemma bind_ret_r {A} (m : M A) n : bind m (fun a => ret a) n = m n.
Proof.
  unfold bind, ret. destruct (m n); [reflexivity|].
  rewrite app_nil_r. reflexivity.
Qed.

Lemma append_children_name c more :
  node_name (append_children c more) = node_name c.
Proof. apply set_children_name. Qed.

Lemma append_children_properties c more :
  node_properties (append_children c more) = node_properties c.
Proof. apply set_children_properties. Qed.

Lemma append_children_children c more :
  node_children (append_children c more) = node_children c ++ more.
Proof. apply set_children_children. Qed.

Ltac resume_step :=
  repeat (rewrite bind_assoc; apply bind_ext; intros ? ?);
  rewrite bind_ret_l; reflexivity.

Section Resume.

Variable alloc_ok : nat -> bool.

Lemma create_channel_children_resume pre rest chn n :
  create_channel_children alloc_ok (pre ++ rest) chn n
  = bind (create_channel_children alloc_ok pre chn)
         (resume (create_channel_children alloc_ok rest)) n.
Proof.
  revert chn n. induction pre as [|c next IH]; intros chn n; simpl.
  - rewrite bind_ret_l. reflexivity.
  - destruct (node_name c =? "attribute").
    + rewrite bind_assoc. apply bind_ext. intros [status chn'] n1.
      destruct (status <? 0)%Z; [rewrite bind_ret_l; reflexivity|apply IH].
    + destruct (negb (node_name c =? "text")); [|apply IH].
      rewrite bind_assoc. apply bind_ext. intros _ n1. apply IH.
Qed.

Lemma create_device_children_resume pre rest dev n :
  create_device_children alloc_ok (pre ++ rest) dev n
  = bind (create_device_children alloc_ok pre dev)
         (resume (create_device_children alloc_ok rest)) n.
Proof.
  revert dev n. induction pre as [|c next IH]; intros dev n; simpl.
  - rewrite bind_ret_l. reflexivity.
  - destruct (node_name c =? "channel"); [|destruct (node_name c =? "attribute")].
    + rewrite bind_assoc. apply bind_ext. intros [chn|] n1; [|resume_step].
      rewrite bind_assoc. apply bind_ext. intros [chns|] n2; [apply IH|].
      resume_step.
    + rewrite bind_assoc. apply bind_ext. intros [status dev'] n1.
      destruct (status <? 0)%Z; [rewrite bind_ret_l; reflexivity|apply IH].
    + destruct (negb (node_name c =? "text")); [|apply IH].
      rewrite bind_assoc. apply bind_ext. intros _ n1. apply IH.
Qed.

Lemma context_children_resume pre rest ctx n :
  context_children alloc_ok (pre ++ rest) ctx n
  = bind (context_children alloc_ok pre ctx)
         (resume (context_children alloc_ok rest)) n.
Proof.
  revert ctx n. induction pre as [|c next IH]; intros ctx n; simpl.
  - rewrite bind_ret_l. reflexivity.
  - destruct (negb (node_name c =? "device")).
    + destruct (negb (node_name c =? "text")); [|apply IH].
      rewrite bind_assoc. apply bind_ext. intros _ n1. apply IH.
    + rewrite bind_assoc. apply bind_ext. intros [dev|] n1; [|resume_step].
      rewrite bind_assoc. apply bind_ext. intros [devs|] n2; [apply IH|].
      resume_step.
Qed.

End Resume.

(** A run that failed before the continuation changed fails the same
    way. *)
Lemma failed_bind {A B} (m : M A) (k k' : A -> M (option B)) n :
  (forall a n1, failed (k a n1) -> k' a n1 = k a n1) ->
  failed (bind m k n) -> bind m k' n = bind m k n.
Proof.
  unfold bind. destruct (m n) as [|a n1 t1]; [reflexivity|].
  intros Hk H. rewrite Hk; [reflexivity|].
  destruct (k a n1) as [|[b|] n2 t2]; simpl in *; auto.
Qed.

(** A loop that has left by [goto], or has read a null pointer, is not
    changed by what follows. *)
Lemma failed_loop {A B} (m : M (flow A)) rest (k : flow A -> M (option B)) n :
  (forall a n1, ~ failed (k (Next a) n1)) ->
  failed (bind m k n) -> bind (bind m (resume rest)) k n = bind m k n.
Proof.
  intros Hk. unfold bind. destruct (m n) as [|[a|a] n1 t1]; [reflexivity| |].
  - intros H. exfalso. apply (Hk a n1).
    destruct (k (Next a) n1) as [|[b|] n2 t2]; simpl in *; auto.
  - intros _. simpl. destruct (k (Goto a) n1) as [|b n2 t2]; [reflexivity|].
    rewrite app_nil_r. reflexivity.
Qed.

Section Final.

Variable alloc_ok : nat -> bool.

Lemma create_channel_final owner c more n :
  failed (create_channel alloc_ok owner c n) ->
  create_channel alloc_ok owner (append_children c more) n
  = create_channel alloc_ok owner c n.
Proof.
  unfold create_channel.
  rewrite append_children_properties, append_children_children.
  apply failed_bind. intros [p|] n1; [|reflexivity].
  apply failed_bind. intros chn n2. destruct (chn_id chn); [|reflexivity].
  intros H.
  etransitivity; [apply bind_cong; [apply create_channel_children_resume|reflexivity]|].
  apply failed_loop; [intros a n' H'; exact H'|exact H].
Qed.

Lemma create_device_final owner c more n :
  failed (create_device alloc_ok owner c n) ->
  create_device alloc_ok owner (append_children c more) n
  = create_device alloc_ok owner c n.
Proof.
  unfold create_device.
  rewrite append_children_properties, append_children_children.
  apply failed_bind. intros [p|] n1; [|reflexivity].
  apply failed_bind. intros dev n2. destruct (dev_id dev); [|reflexivity].
  intros H.
  etransitivity; [apply bind_cong; [apply create_device_children_resume|reflexivity]|].
  apply failed_loop; [intros a n' H'; exact H'|exact H].
Qed.

Lemma iio_create_xml_context_helper_final root more n :
  failed (iio_create_xml_context_helper alloc_ok (document root) n) ->
  iio_create_xml_context_helper alloc_ok (document (append_children root more)) n
  = iio_create_xml_context_helper alloc_ok (document root) n.
Proof.
  unfold iio_create_xml_context_helper. cbn [xmlDocGetRootElement document].
  rewrite append_children_name, append_children_children.
  apply failed_bind. intros [p|] n1; [|reflexivity].
  destruct (negb (node_name root =? "context")); [reflexivity|].
  intros H.
  etransitivity; [apply bind_cong; [apply context_children_resume|reflexivity]|].
  apply failed_loop; [intros a n' H'; exact H'|exact H].
Qed.

End Final.

(** X7.  A failure is final.  Once [create_channel], [create_device] or
    the helper has failed on a node (it returned no object, or it read
    a null pointer), the children that follow are never looked at: the
    same node with any further children at the end gives the same
    outcome, request for request and event for event, for every
    allocator. *)
Theorem failure_is_final alloc_ok c more owner n :
  (failed (create_channel alloc_ok owner c n) ->
   create_channel alloc_ok owner (append_children c more) n
   = create_channel alloc_ok owner c n) /\
  (failed (create_device alloc_ok owner c n) ->
   create_device alloc_ok owner (append_children c more) n
   = create_device alloc_ok owner c n) /\
  (failed (iio_create_xml_context_helper alloc_ok (document c) n) ->
   iio_create_xml_context_helper alloc_ok (document (append_children c more)) n
   = iio_create_xml_context_helper alloc_ok (document c) n).
Proof.
  split; [|split].
  - apply create_channel_final.
  - apply create_device_final.
  - apply iio_create_xml_context_helper_final.
Qed.

Lemma failure_is_final_witness :
  iio_create_xml_context_helper plenty
    (document (append_children (element "context" [] [scenario_B_device])
                               [good_device; element "device" [XmlAttr "id" None] []])) 0
  = iio_create_xml_context_helper plenty scenario_B 0.
Proof.
  refine (proj2 (proj2 (failure_is_final plenty
    (element "context" [] [scenario_B_device])
    [good_device; element "device" [XmlAttr "id" None] []] 0%nat 0%nat)) _).
  vm_compute. exact I.
Defined.

(** ** Building is incremental *)

Section Incremental.

Variable alloc_ok : nat -> bool.

Lemma create_device_children_split pre rest dev n dev' n' t :
  create_device_children alloc_ok (pre ++ rest) dev n = Done (Next dev') n' t ->
  exists dev1 n1 t1 t2,
    create_device_children alloc_ok pre dev n = Done (Next dev1) n1 t1 /\
    create_device_children alloc_ok rest dev1 n1 = Done (Next dev') n' t2 /\
    t = t1 ++ t2.
Proof.
  intros H. rewrite create_device_children_resume in H.
  apply bind_Done in H. destruct H as ([dev1|dev1] & n1 & t1 & t2 & H1 & H2 & ->);
    simpl in H2; [|inv_ret H2; inv_eqs].
  exists dev1, n1, t1, t2. repeat split; assumption.
Qed.

Lemma context_children_split pre rest ctx n ctx' n' t :
  context_children alloc_ok (pre ++ rest) ctx n = Done (Next ctx') n' t ->
  exists ctx1 n1 t1 t2,
    context_children alloc_ok pre ctx n = Done (Next ctx1) n1 t1 /\
    context_children alloc_ok rest ctx1 n1 = Done (Next ctx') n' t2 /\
    t = t1 ++ t2.
Proof.
  intros H. rewrite context_children_resume in H.
  apply bind_Done in H. destruct H as ([ctx1|ctx1] & n1 & t1 & t2 & H1 & H2 & ->);
    simpl in H2; [|inv_ret H2; inv_eqs].
  exists ctx1, n1, t1, t2. repeat split; assumption.
Qed.

Lemma create_device_incremental owner c more n dev n' t :
  create_device alloc_ok owner (append_children c more) n = Done (Some dev) n' t ->
  exists dev0 n0 t0 chns,
    create_device alloc_ok owner c n = Done (Some dev0) n0 t0 /\
    t = t0 ++ flat_map (device_child_warnings (dev_id dev0)) more /\
    n' = (n0 + list_sum (map device_child_requests more))%nat /\
    dev_addr dev = dev_addr dev0 /\
    dev_id dev = dev_id dev0 /\
    dev_name dev = dev_name dev0 /\
    dev_channels dev = dev_channels dev0 ++ chns /\
    Forall2 (channel_built (dev_addr dev0)) (filter (named "channel") more) chns /\
    map Some (dev_attrs dev) = map Some (dev_attrs dev0) ++ attribute_names more.
Proof.
  unfold create_device.
  rewrite append_children_properties, append_children_children.
  intros H. inv_bind H. rewrite (bind_run _ _ _ _ _ _ Hrun). clear Hrun.
  destruct a as [p|]; [|inv_ret H; inv_eqs].
  inv_bind H. rewrite (bind_run _ _ _ _ _ _ Hrun). clear Hrun.
  destruct (dev_id a) as [id|]; [|inv_prim; inv_eqs].
  inv_bind H. destruct a0 as [dev'|dev']; [|inv_prim; inv_eqs].
  inv_ret H. inv_eqs.
  apply create_device_children_split in Hrun.
  destruct Hrun as (dev1 & m1 & u1 & u2 & H1 & H2 & ->).
  rewrite (bind_run _ _ _ _ _ _ H1). simpl.
  pose proof (create_device_children_Done _ _ _ _ _ _ _ H2)
    as (Haddr & _ & Hname & Hid & _ & Hnext).
  simpl in Haddr, Hname, Hid.
  destruct (Hnext dev' eq_refl) as (Hattrs & chns & Hchns & Hbuilt).
  pose proof (create_device_children_trace _ _ _ _ _ _ _ H2) as ->.
  apply create_device_children_requests in H2.
  exists dev1, m1, (t0 ++ t ++ u1 ++ []), chns.
  split; [reflexivity|].
  split; [rewrite !app_nil_r, !app_assoc; reflexivity|].
  repeat (split; [assumption|]). assumption.
Qed.

Lemma iio_create_xml_context_helper_incremental root more n ctx n' t :
  iio_create_xml_context_helper alloc_ok (document (append_children root more)) n
  = Done (Some ctx) n' t ->
  exists ctx0 n0 t0 devs,
    iio_create_xml_context_helper alloc_ok (document root) n
    = Done (Some ctx0) n0 t0 /\
    t = t0 ++ flat_map context_child_warnings more /\
    n' = (n0 + list_sum (map context_child_requests more))%nat /\
    ctx_addr ctx = ctx_addr ctx0 /\
    ctx_devices ctx = ctx_devices ctx0 ++ devs /\
    Forall2 (device_built (ctx_addr ctx0)) (filter (named "device") more) devs.
Proof.
  unfold iio_create_xml_context_helper. cbn [xmlDocGetRootElement document].
  rewrite append_children_name, append_children_children.
  intros H. inv_bind H. rewrite (bind_run _ _ _ _ _ _ Hrun). clear Hrun.
  destruct a as [p|]; [|inv_ret H; inv_eqs].
  destruct (negb (node_name root =? "context")); [inv_prim; inv_eqs|].
  inv_bind H. destruct a as [ctx'|ctx']; [|inv_prim; inv_eqs].
  inv_ret H. inv_eqs.
  apply context_children_split in Hrun.
  destruct Hrun as (ctx1 & m1 & u1 & u2 & H1 & H2 & ->).
  rewrite (bind_run _ _ _ _ _ _ H1). simpl.
  pose proof (context_children_Done _ _ _ _ _ _ _ H2)
    as (Haddr & _ & _ & _ & Hnext).
  simpl in Haddr.
  destruct (Hnext ctx' eq_refl) as (devs & Hdevs & Hbuilt).
  pose proof (context_children_trace _ _ _ _ _ _ _ H2) as ->.
  apply context_children_requests in H2.
  exists ctx1, m1, (t0 ++ u1 ++ []), devs.
  split; [reflexivity|].
  split; [rewrite !app_nil_r, !app_assoc; reflexivity|].
  repeat (split; [assumption|]). assumption.
Qed.

End Incremental.

(** X8.  Building is incremental.  When a device node, or a root, with
    further children at its end is built, the node without them is
    built as well, and the larger object extends the smaller one: the
    same address, id and name, the earlier channels, attributes and
    devices unchanged at the front of the lists.  The further children
    account exactly for the rest: the channels, attribute names and
    devices that follow are the ones they describe, the further
    allocation requests are theirs, and the further events are the
    warnings they deserve, neither more nor fewer. *)
Theorem building_is_incremental alloc_ok c more owner n :
  (forall dev n' t,
     create_device alloc_ok owner (append_children c more) n
     = Done (Some dev) n' t ->
     exists dev0 n0 t0 chns,
       create_device alloc_ok owner c n = Done (Some dev0) n0 t0 /\
       t = t0 ++ flat_map (device_child_warnings (dev_id dev0)) more /\
       n' = (n0 + list_sum (map device_child_requests more))%nat /\
       dev_addr dev = dev_addr dev0 /\
       dev_id dev = dev_id dev0 /\
       dev_name dev = dev_name dev0 /\
       dev_channels dev = dev_channels dev0 ++ chns /\
       Forall2 (channel_built (dev_addr dev0))
               (filter (named "channel") more) chns /\
       map Some (dev_attrs dev) = map Some (dev_attrs dev0) ++ attribute_names more) /\
  (forall ctx n' t,
     iio_create_xml_context_helper alloc_ok (document (append_children c more)) n
     = Done (Some ctx) n' t ->
     exists ctx0 n0 t0 devs,
       iio_create_xml_context_helper alloc_ok (document c) n
       = Done (Some ctx0) n0 t0 /\
       t = t0 ++ flat_map context_child_warnings more /\
       n' = (n0 + list_sum (map context_child_requests more))%nat /\
       ctx_addr ctx = ctx_addr ctx0 /\
       ctx_devices ctx = ctx_devices ctx0 ++ devs /\
       Forall2 (device_built (ctx_addr ctx0)) (filter (named "device") more) devs).
Proof.
  split.
  - intros dev n' t. apply create_device_incremental.
  - intros ctx n' t. apply iio_create_xml_context_helper_incremental.
Qed.

Lemma building_is_incremental_witness :
  exists ctx0 n0 t0 devs,
    iio_create_xml_context_helper plenty scenario_A 0 = Done (Some ctx0) n0 t0 /\
    [WARNING "Unknown children '%s' in <context>" [Some "comment"]]
    = t0 ++ flat_map context_child_warnings
              [element "comment" [] []; good_device] /\
    (14 = n0 + list_sum (map context_child_requests
                           [element "comment" [] []; good_device]))%nat /\
    Forall2 (device_built (ctx_addr ctx0)) [good_device] devs.
Proof.
  destruct (proj2 (building_is_incremental plenty scenario_A_root
                     [element "comment" [] []; good_device] 0%nat 0%nat)
                  _ _ _ eq_refl)
    as (ctx0 & n0 & t0 & devs & H & Ht & Hn & _ & _ & Hbuilt).
  exists ctx0, n0, t0, devs.
  split; [exact H|]. split; [exact Ht|]. split; [exact Hn|exact Hbuilt].
Defined.

(** ** What a failing child costs *)

Lemma free_devices_run devs n :
  free_devices devs n = Done tt n (map FREE_DEVICE devs).
Proof.
  induction devs as [|d rest IH]; [reflexivity|]. simpl.
  unfold bind, free_device, log. rewrite IH. reflexivity.
Qed.

Section Rollback.

Variable alloc_ok : nat -> bool.

Lemma iio_create_xml_context_helper_loop root n ctx n' t :
  iio_create_xml_context_helper alloc_ok (document root) n = Done (Some ctx) n' t ->
  alloc_ok n = true /\ (node_name root =? "context") = true /\
  context_children alloc_ok (node_children root)
    (set_ctx_ops (set_ctx_name (calloc_context n) (Some "xml")) (Some xml_ops))
    (S n)
  = Done (Next ctx) n' t.
Proof.
  unfold iio_create_xml_context_helper. cbn [xmlDocGetRootElement document].
  intros H. inv_bind H. inv_prim.
  destruct (alloc_ok n); [|inv_prim; inv_eqs].
  destruct (node_name root =? "context"); simpl in H; [|inv_prim; inv_eqs].
  inv_bind H. destruct a as [ctx'|ctx']; [|inv_prim; inv_eqs].
  inv_ret H. inv_eqs. simpl. rewrite app_nil_r. repeat split. exact Hrun.
Qed.

Lemma helper_after_failed_device root child more n ctx0 n0 t0 n1 t1 :
  iio_create_xml_context_helper alloc_ok (document root) n
  = Done (Some ctx0) n0 t0 ->
  node_name child = "device" ->
  create_device alloc_ok (ctx_addr ctx0) child n0 = Done None n1 t1 ->
  iio_create_xml_context_helper alloc_ok
    (document (append_children root (child :: more))) n
  = Done None n1
      (t0 ++ t1 ++ [ERROR "Unable to create device" []] ++ err_free_devices ctx0).
Proof.
  intros H Hname Hdev.
  apply iio_create_xml_context_helper_loop in H. destruct H as (Ha & Hroot & H).
  unfold iio_create_xml_context_helper. cbn [xmlDocGetRootElement document].
  rewrite append_children_name, append_children_children, Hroot.
  unfold bind at 1, alloc. rewrite Ha. cbn [negb].
  unfold bind at 1. rewrite context_children_resume.
  rewrite (bind_run _ _ _ _ _ _ H). cbn [resume context_children].
  rewrite Hname. cbn [String.eqb Ascii.eqb Bool.eqb negb].
  rewrite (bind_run _ _ _ _ _ _ Hdev).
  unfold bind, log, ret, free, err_free_devices. rewrite free_devices_run.
  destruct (0 <? ctx_nb_devices ctx0)%nat; simpl;
    rewrite ?app_nil_r, <- ?app_assoc; reflexivity.
Qed.

Lemma helper_after_refused_growth root child more n ctx0 n0 t0 dev n1 t1 :
  iio_create_xml_context_helper alloc_ok (document root) n
  = Done (Some ctx0) n0 t0 ->
  node_name child = "device" ->
  create_device alloc_ok (ctx_addr ctx0) child n0 = Done (Some dev) n1 t1 ->
  alloc_ok n1 = false ->
  iio_create_xml_context_helper alloc_ok
    (document (append_children root (child :: more))) n
  = Done None (S n1)
      (t0 ++ t1 ++ [ERROR "Unable to allocate memory" []; FREE (Dev dev)] ++
       err_free_devices ctx0).
Proof.
  intros H Hname Hdev Hno.
  apply iio_create_xml_context_helper_loop in H. destruct H as (Ha & Hroot & H).
  unfold iio_create_xml_context_helper. cbn [xmlDocGetRootElement document].
  rewrite append_children_name, append_children_children, Hroot.
  unfold bind at 1, alloc. rewrite Ha. cbn [negb].
  unfold bind at 1. rewrite context_children_resume.
  rewrite (bind_run _ _ _ _ _ _ H). cbn [resume context_children].
  rewrite Hname. cbn [String.eqb Ascii.eqb Bool.eqb negb].
  rewrite (bind_run _ _ _ _ _ _ Hdev).
  assert (Hre : realloc alloc_ok (ctx_devices ctx0) n1 = Done None (S n1) [])
    by (unfold realloc, bind, alloc, ret; rewrite Hno; reflexivity).
  rewrite (bind_run _ _ _ _ _ _ Hre).
  unfold free, bind, log, ret, err_free_devices. rewrite free_devices_run.
  destruct (0 <? ctx_nb_devices ctx0)%nat; simpl;
    rewrite ?app_nil_r, <- ?app_assoc; reflexivity.
Qed.

Lemma create_device_loop owner c n dev n' t :
  create_device alloc_ok owner c n = Done (Some dev) n' t ->
  exists dev1 n1 t1 t2,
    alloc_ok n = true /\
    create_device_properties alloc_ok (node_properties c)
      (set_dev_ctx (calloc_device n) (Some owner)) (S n) = Done dev1 n1 t1 /\
    dev_id dev1 <> None /\
    create_device_children alloc_ok (node_children c) dev1 n1
    = Done (Next dev) n' t2 /\
    t = t1 ++ t2.
Proof.
  unfold create_device. intros H. inv_bind H. inv_prim.
  destruct (alloc_ok n); [|inv_prim; inv_eqs].
  inv_bind H. destruct (dev_id a) eqn:Eid; [|inv_prim; inv_eqs].
  inv_bind H. destruct a0 as [dev'|dev']; [|inv_prim; inv_eqs].
  inv_ret H. inv_eqs. eexists _, _, _, _. split; [reflexivity|].
  split; [exact Hrun|]. split; [congruence|]. split; [eassumption|].
  simpl. rewrite app_nil_r. reflexivity.
Qed.

Lemma create_channel_loop owner c n chn n' t :
  create_channel alloc_ok owner c n = Done (Some chn) n' t ->
  exists chn1 n1 t1 t2,
    alloc_ok n = true /\
    create_channel_properties alloc_ok (node_properties c)
      (set_chn_dev (calloc_channel n) (Some owner)) (S n) = Done chn1 n1 t1 /\
    chn_id chn1 <> None /\
    create_channel_children alloc_ok (node_children c) chn1 n1
    = Done (Next chn) n' t2 /\
    t = t1 ++ t2.
Proof.
  unfold create_channel. intros H. inv_bind H. inv_prim.
  destruct (alloc_ok n); [|inv_prim; inv_eqs].
  inv_bind H. destruct (chn_id a) eqn:Eid; [|inv_prim; inv_eqs].
  inv_bind H. destruct a0 as [chn'|chn']; [|inv_prim; inv_eqs].
  inv_ret H. inv_eqs. eexists _, _, _, _. split; [reflexivity|].
  split; [exact Hrun|]. split; [congruence|]. split; [eassumption|].
  simpl. rewrite app_nil_r. reflexivity.
Qed.

(** [create_device] on a node with further children, up to the first
    of them. *)
Lemma create_device_upto owner c child more n dev0 n0 t0 :
  create_device alloc_ok owner c n = Done (Some dev0) n0 t0 ->
  create_device alloc_ok owner (append_children c (child :: more)) n
  = match bind (create_device_children alloc_ok (child :: more) dev0)
               (fun f => match f with
                         | Goto dev => free_device dev ;;; ret None
                         | Next dev => ret (Some dev)
                         end) n0 with
    | Crash => Crash
    | Done r n1 t1 => Done r n1 (t0 ++ t1)
    end.
Proof.
  intros H. apply create_device_loop in H.
  destruct H as (dev1 & n1 & t1 & t2 & Ha & Hprops & Hid & Hloop & ->).
  unfold create_device.
  rewrite append_children_properties, append_children_children.
  unfold bind at 1, alloc. rewrite Ha.
  rewrite (bind_run _ _ _ _ _ _ Hprops).
  destruct (dev_id dev1); [|congruence].
  rewrite (bind_cong _ _ _ _ _
             (create_device_children_resume _ _ (child :: more) _ _)
             (fun a n' => eq_refl)).
  rewrite bind_assoc, (bind_run _ _ _ _ _ _ Hloop). cbn [resume].
  match goal with
  | |- context [bind ?m ?k n0] => destruct (bind m k n0) as [|r n2 u2]
  end; [reflexivity|].
  simpl. rewrite <- !app_assoc. reflexivity.
Qed.

Lemma create_channel_upto owner c child more n chn0 n0 t0 :
  create_channel alloc_ok owner c n = Done (Some chn0) n0 t0 ->
  create_channel alloc_ok owner (append_children c (child :: more)) n
  = match bind (create_channel_children alloc_ok (child :: more) chn0)
               (fun f => match f with
                         | Goto chn => free_channel chn ;;; ret None
                         | Next chn => ret (Some chn)
                         end) n0 with
    | Crash => Crash
    | Done r n1 t1 => Done r n1 (t0 ++ t1)
    end.
Proof.
  intros H. apply create_channel_loop in H.
  destruct H as (chn1 & n1 & t1 & t2 & Ha & Hprops & Hid & Hloop & ->).
  unfold create_channel.
  rewrite append_children_properties, append_children_children.
  unfold bind at 1, alloc. rewrite Ha.
  rewrite (bind_run _ _ _ _ _ _ Hprops).
  destruct (chn_id chn1); [|congruence].
  rewrite (bind_cong _ _ _ _ _
             (create_channel_children_resume _ _ (child :: more) _ _)
             (fun a n' => eq_refl)).
  rewrite bind_assoc, (bind_run _ _ _ _ _ _ Hloop). cbn [resume].
  match goal with
  | |- context [bind ?m ?k n0] => destruct (bind m k n0) as [|r n2 u2]
  end; [reflexivity|].
  simpl. rewrite <- !app_assoc. reflexivity.
Qed.

Lemma device_after_failed_channel owner c child more n dev0 n0 t0 n1 t1 :
  create_device alloc_ok owner c n = Done (Some dev0) n0 t0 ->
  node_name child = "channel" ->
  create_channel alloc_ok (dev_addr dev0) child n0 = Done None n1 t1 ->
  create_device alloc_ok owner (append_children c (child :: more)) n
  = Done None n1
      (t0 ++ t1 ++ [ERROR "Unable to create channel" []; FREE_DEVICE dev0]).
Proof.
  intros H Hname Hchn. rewrite (create_device_upto _ _ _ _ _ _ _ _ H).
  cbn [create_device_children]. rewrite Hname.
  cbn [String.eqb Ascii.eqb Bool.eqb].
  rewrite bind_assoc, (bind_run _ _ _ _ _ _ Hchn).
  unfold free_device, bind, log, ret. simpl. reflexivity.
Qed.

Lemma device_after_refused_growth owner c child more n dev0 n0 t0 chn n1 t1 :
  create_device alloc_ok owner c n = Done (Some dev0) n0 t0 ->
  node_name child = "channel" ->
  create_channel alloc_ok (dev_addr dev0) child n0 = Done (Some chn) n1 t1 ->
  alloc_ok n1 = false ->
  create_device alloc_ok owner (append_children c (child :: more)) n
  = Done None (S n1)
      (t0 ++ t1 ++
       [ERROR "Unable to allocate memory" []; FREE (Chn chn); FREE_DEVICE dev0]).
Proof.
  intros H Hname Hchn Hno. rewrite (create_device_upto _ _ _ _ _ _ _ _ H).
  cbn [create_device_children]. rewrite Hname.
  cbn [String.eqb Ascii.eqb Bool.eqb].
  rewrite bind_assoc, (bind_run _ _ _ _ _ _ Hchn).
  assert (Hre : realloc alloc_ok (dev_channels dev0) n1 = Done None (S n1) [])
    by (unfold realloc, bind, alloc, ret; rewrite Hno; reflexivity).
  rewrite bind_assoc, (bind_run _ _ _ _ _ _ Hre).
  unfold free, free_device, bind, log, ret. simpl. reflexivity.
Qed.

Lemma device_after_failed_attribute owner c child more n dev0 n0 t0
    status dev' n1 t1 :
  create_device alloc_ok owner c n = Done (Some dev0) n0 t0 ->
  node_name child = "attribute" ->
  add_attr_to_device alloc_ok dev0 child n0 = Done (status, dev') n1 t1 ->
  (status < 0)%Z ->
  create_device alloc_ok owner (append_children c (child :: more)) n
  = Done None n1 (t0 ++ t1 ++ [FREE_DEVICE dev0]).
Proof.
  intros H Hname Hattr Hneg. rewrite (create_device_upto _ _ _ _ _ _ _ _ H).
  cbn [create_device_children]. rewrite Hname.
  cbn [String.eqb Ascii.eqb Bool.eqb].
  rewrite bind_assoc, (bind_run _ _ _ _ _ _ Hattr).
  apply Z.ltb_lt in Hneg. rewrite Hneg.
  pose proof (add_attr_to_device_Done _ _ _ _ _ _ _ _ Hattr)
    as [(-> & _)|(_ & ->)]; [discriminate|].
  unfold free_device, bind, log, ret. simpl. reflexivity.
Qed.

Lemma channel_after_failed_attribute owner c child more n chn0 n0 t0
    status chn' n1 t1 :
  create_channel alloc_ok owner c n = Done (Some chn0) n0 t0 ->
  node_name child = "attribute" ->
  add_attr_to_channel alloc_ok chn0 child n0 = Done (status, chn') n1 t1 ->
  (status < 0)%Z ->
  create_channel alloc_ok owner (append_children c (child :: more)) n
  = Done None n1 (t0 ++ t1 ++ [FREE_CHANNEL chn0]).
Proof.
  intros H Hname Hattr Hneg. rewrite (create_channel_upto _ _ _ _ _ _ _ _ H).
  cbn [create_channel_children]. rewrite Hname.
  cbn [String.eqb Ascii.eqb Bool.eqb].
  rewrite bind_assoc, (bind_run _ _ _ _ _ _ Hattr).
  apply Z.ltb_lt in Hneg. rewrite Hneg.
  pose proof (add_attr_to_channel_Done _ _ _ _ _ _ _ _ Hattr)
    as [(-> & _)|(_ & ->)]; [discriminate|].
  unfold free_channel, bind, log, ret. simpl. reflexivity.
Qed.

End Rollback.

(** X9.  What a failing device costs the context.  Let the walk have
    built the context [ctx0] from the children of a root so far, and
    let the next child be a [device].  When [create_device] fails on
    it, the helper says so and leaves by [err_free_devices]: every
    device of [ctx0] goes to [free_device], the device array and the
    context to [free].  When the device is built but the device array
    cannot grow, the helper reports the lack of memory and hands the
    new device to [free], not to [free_device], before it leaves the
    same way.  Either way it returns no context, and the children that
    follow play no part. *)
Theorem rollback_after_failed_device
    alloc_ok root child more n ctx0 n0 t0 :
  iio_create_xml_context_helper alloc_ok (document root) n
  = Done (Some ctx0) n0 t0 ->
  node_name child = "device" ->
  (forall n1 t1,
     create_device alloc_ok (ctx_addr ctx0) child n0 = Done None n1 t1 ->
     iio_create_xml_context_helper alloc_ok
       (document (append_children root (child :: more))) n
     = Done None n1
         (t0 ++ t1 ++ [ERROR "Unable to create device" []] ++
          err_free_devices ctx0)) /\
  (forall dev n1 t1,
     create_device alloc_ok (ctx_addr ctx0) child n0 = Done (Some dev) n1 t1 ->
     alloc_ok n1 = false ->
     iio_create_xml_context_helper alloc_ok
       (document (append_children root (child :: more))) n
     = Done None (S n1)
         (t0 ++ t1 ++ [ERROR "Unable to allocate memory" []; FREE (Dev dev)] ++
          err_free_devices ctx0)).
Proof.
  intros H Hname. split.
  - intros n1 t1 Hdev. eapply helper_after_failed_device; eassumption.
  - intros dev n1 t1 Hdev Hno. eapply helper_after_refused_growth; eassumption.
Qed.

Lemma rollback_after_failed_device_witness :
  iio_create_xml_context_helper (refuse 13)
    (document (append_children scenario_A_root [good_device; scenario_B_device])) 0
  = Done None 14
      ([] ++ [] ++
       [ERROR "Unable to allocate memory" [];
        FREE (Dev {| dev_addr := 11; dev_ctx := Some 0%nat; dev_name := None;
                     dev_id := Some "dev0"; dev_attrs := [];
                     dev_channels := [] |})] ++
       err_free_devices
         {| ctx_addr := 0; ctx_name := Some "xml"; ctx_ops := Some xml_ops;
            ctx_devices :=
              [{| dev_addr := 1; dev_ctx := Some 0%nat; dev_name := None;
                  dev_id := Some "dev0"; dev_attrs := ["calibbias"];
                  dev_channels :=
                    [{| chn_addr := 3; chn_dev := Some 1%nat; chn_name := None;
                        chn_id := Some "voltage0"; chn_is_output := true;
                        chn_attrs := ["scale"] |}] |}] |}).
Proof.
  exact (proj2 (rollback_after_failed_device (refuse 13) scenario_A_root
                  good_device [scenario_B_device] 0%nat _ _ _ eq_refl eq_refl)
               _ _ _ eq_refl eq_refl).
Defined.

(** X10.  What a failing child costs the device or the channel.  Let
    [create_device] have built [dev0] from the children of a node so
    far.  A [channel] child on which [create_channel] fails makes it
    report that and end with [free_device] on [dev0]; a channel that is
    built while the channel array cannot grow makes it report the lack
    of memory, hand the new channel to [free], not to [free_channel],
    and end with [free_device] on [dev0]; an [attribute] child that
    [add_attr_to_device] refuses makes it end with [free_device] on
    [dev0] with no message of its own.  Likewise [create_channel] ends
    with [free_channel] on the channel built so far when
    [add_attr_to_channel] refuses an [attribute] child.  In each case
    no object is returned and the later children play no part. *)
Theorem rollback_after_failed_child alloc_ok owner c child more n n0 t0 :
  (forall dev0,
     create_device alloc_ok owner c n = Done (Some dev0) n0 t0 ->
     (node_name child = "channel" ->
      forall n1 t1,
        create_channel alloc_ok (dev_addr dev0) child n0 = Done None n1 t1 ->
        create_device alloc_ok owner (append_children c (child :: more)) n
        = Done None n1
            (t0 ++ t1 ++
             [ERROR "Unable to create channel" []; FREE_DEVICE dev0])) /\
     (node_name child = "channel" ->
      forall chn n1 t1,
        create_channel alloc_ok (dev_addr dev0) child n0
        = Done (Some chn) n1 t1 ->
        alloc_ok n1 = false ->
        create_device alloc_ok owner (append_children c (child :: more)) n
        = Done None (S n1)
            (t0 ++ t1 ++
             [ERROR "Unable to allocate memory" []; FREE (Chn chn);
              FREE_DEVICE dev0])) /\
     (node_name child = "attribute" ->
      forall status dev' n1 t1,
        add_attr_to_device alloc_ok dev0 child n0 = Done (status, dev') n1 t1 ->
        (status < 0)%Z ->
        create_device alloc_ok owner (append_children c (child :: more)) n
        = Done None n1 (t0 ++ t1 ++ [FREE_DEVICE dev0]))) /\
  (forall chn0,
     create_channel alloc_ok owner c n = Done (Some chn0) n0 t0 ->
     node_name child = "attribute" ->
     forall status chn' n1 t1,
       add_attr_to_channel alloc_ok chn0 child n0 = Done (status, chn') n1 t1 ->
       (status < 0)%Z ->
       create_channel alloc_ok owner (append_children c (child :: more)) n
       = Done None n1 (t0 ++ t1 ++ [FREE_CHANNEL chn0])).
Proof.
  split.
  - intros dev0 H. split; [|split].
    + intros Hname n1 t1 Hchn. eapply device_after_failed_channel; eassumption.
    + intros Hname chn n1 t1 Hchn Hno.
      eapply device_after_refused_growth; eassumption.
    + intros Hname status dev' n1 t1 Hattr Hneg.
      eapply device_after_failed_attribute; eassumption.
  - intros chn0 H Hname status chn' n1 t1 Hattr Hneg.
    eapply channel_after_failed_attribute; eassumption.
Qed.

Lemma rollback_after_failed_child_witness :
  create_device (refuse 5) 0
    (append_children good_device
       [element "channel" [prop "id" "voltage0"] []; valueless_channel]) 1
  = Done None 6
      ([] ++ [] ++
       [ERROR "Unable to allocate memory" [];
        FREE (Chn {| chn_addr := 3; chn_dev := Some 1%nat; chn_name := None;
                     chn_id := Some "voltage0"; chn_is_output := false;
                     chn_attrs := [] |});
        FREE_DEVICE {| dev_addr := 1; dev_ctx := Some 0%nat; dev_name := None;
                       dev_id := Some "dev0"; dev_attrs := [];
                       dev_channels := [] |}]).
Proof.
  exact (proj1 (proj2 (proj1 (rollback_after_failed_child (refuse 5) 0%nat
                  good_device (element "channel" [prop "id" "voltage0"] [])
                  [valueless_channel] 1%nat _ _) _ eq_refl))
               eq_refl _ _ _ eq_refl eq_refl).
Defined.

(** ** What the walk never reads *)

Lemma prune_channel_child_name c :
  node_name (prune_channel_child c) = node_name c.
Proof. unfold prune_channel_child. destruct (node_name c =? "attribute"); reflexivity. Qed.

Lemma prune_device_child_name c :
  node_name (prune_device_child c) = node_name c.
Proof.
  unfold prune_device_child.
  destruct (node_name c =? "channel"); [reflexivity|].
  destruct (node_name c =? "attribute"); reflexivity.
Qed.

Lemma prune_context_child_name c :
  node_name (prune_context_child c) = node_name c.
Proof. unfold prune_context_child. destruct (node_name c =? "device"); reflexivity. Qed.

Section Footprint.

Variable alloc_ok : nat -> bool.

Lemma create_channel_children_prune cs chn n :
  create_channel_children alloc_ok (map prune_channel_child cs) chn n
  = create_channel_children alloc_ok cs chn n.
Proof.
  revert chn n. induction cs as [|c next IH]; intros chn n; [reflexivity|].
  cbn [map create_channel_children]. rewrite prune_channel_child_name.
  destruct (node_name c =? "attribute") eqn:Eattr.
  - assert (Hs : prune_channel_child c = prune_attribute c)
      by (unfold prune_channel_child; rewrite Eattr; reflexivity).
    rewrite Hs. apply bind_cong; [reflexivity|].
    intros [status chn'] n1. destruct (status <? 0)%Z; [reflexivity|apply IH].
  - destruct (negb (node_name c =? "text")); [|apply IH].
    apply bind_ext. intros _ n1. apply IH.
Qed.

Lemma create_channel_prune dev c n :
  create_channel alloc_ok dev (prune_channel c) n = create_channel alloc_ok dev c n.
Proof.
  unfold create_channel, prune_channel. cbn [node_properties node_children].
  apply bind_ext. intros p n1. destruct p; [|reflexivity].
  apply bind_ext. intros chn n2. destruct (chn_id chn); [|reflexivity].
  apply bind_cong; [apply create_channel_children_prune|reflexivity].
Qed.

Lemma create_device_children_prune cs dev n :
  create_device_children alloc_ok (map prune_device_child cs) dev n
  = create_device_children alloc_ok cs dev n.
Proof.
  revert dev n. induction cs as [|c next IH]; intros dev n; [reflexivity|].
  cbn [map create_device_children]. rewrite prune_device_child_name.
  destruct (node_name c =? "channel") eqn:Echn.
  - assert (Hs : prune_device_child c = prune_channel c)
      by (unfold prune_device_child; rewrite Echn; reflexivity).
    rewrite Hs. apply bind_cong; [apply create_channel_prune|].
    intros [chn|] n1; [|reflexivity].
    apply bind_ext. intros [chns|] n2; [apply IH|reflexivity].
  - destruct (node_name c =? "attribute") eqn:Eattr.
    + assert (Hs : prune_device_child c = prune_attribute c)
        by (unfold prune_device_child; rewrite Echn, Eattr; reflexivity).
      rewrite Hs. apply bind_cong; [reflexivity|].
      intros [status dev'] n1. destruct (status <? 0)%Z; [reflexivity|apply IH].
    + destruct (negb (node_name c =? "text")); [|apply IH].
      apply bind_ext. intros _ n1. apply IH.
Qed.

Lemma create_device_prune ctx c n :
  create_device alloc_ok ctx (prune_device c) n = create_device alloc_ok ctx c n.
Proof.
  unfold create_device, prune_device. cbn [node_properties node_children].
  apply bind_ext. intros p n1. destruct p; [|reflexivity].
  apply bind_ext. intros dev n2. destruct (dev_id dev); [|reflexivity].
  apply bind_cong; [apply create_device_children_prune|reflexivity].
Qed.

Lemma context_children_prune cs ctx n :
  context_children alloc_ok (map prune_context_child cs) ctx n
  = context_children alloc_ok cs ctx n.
Proof.
  revert ctx n. induction cs as [|c next IH]; intros ctx n; [reflexivity|].
  cbn [map context_children]. rewrite prune_context_child_name.
  destruct (node_name c =? "device") eqn:Edev; cbn [negb].
  - assert (Hs : prune_context_child c = prune_device c)
      by (unfold prune_context_child; rewrite Edev; reflexivity).
    rewrite Hs. apply bind_cong; [apply create_device_prune|].
    intros [dev|] n1; [|reflexivity].
    apply bind_ext. intros [devs|] n2; [apply IH|reflexivity].
  - destruct (negb (node_name c =? "text")); [|apply IH].
    apply bind_ext. intros _ n1. apply IH.
Qed.

End Footprint.

(** X11.  What the walk never reads.  The helper looks at the names of
    the elements, at the children of the root, of a [device] and of a
    [channel], and at the properties of a [device], a [channel] and an
    [attribute]; at nothing else.  So the properties of the root, the
    content of every element, the children of an [attribute], and the
    properties and children of an element the walk does not know (a
    [device] below a [device], say) change nothing: the document cut
    down to what is read ends the same way, for every allocator. *)
Theorem unread_parts_do_not_matter alloc_ok root n :
  iio_create_xml_context_helper alloc_ok (document (prune_context root)) n
  = iio_create_xml_context_helper alloc_ok (document root) n.
Proof.
  unfold iio_create_xml_context_helper, prune_context.
  cbn [xmlDocGetRootElement document node_name node_children].
  apply bind_ext. intros p n1. destruct p; [|reflexivity].
  destruct (negb (node_name root =? "context")); [reflexivity|].
  apply bind_cong; [apply context_children_prune|reflexivity].
Qed.
